(** * mcp-kr-legislation: response normalisation, HTML cleaning and the
      file cache, embedded from the Python sources

    Sources embedded here:
    - [src/mcp_kr_legislation/utils/response_cleaner.py]
    - [src/mcp_kr_legislation/utils/response_parser.py]
    - [src/mcp_kr_legislation/tools/law_tools.py] (cache helpers and the
      search-result formatter)

    Python values are decoded JSON values.  A Python [str] is a sequence of
    Unicode code points, a [dict] keeps insertion order and is an
    association list, looked up by first match. *)

From Stdlib Require Import List ZArith Bool String Ascii Lia DecimalString.
From Stdlib Require Import Permutation Sorted.
Import ListNotations.

Set Warnings "-register-all".
Set Warnings "-automation".
Set Warnings "-default".

(* ================================================================== *)
(** ** Python values                                                    *)
(* ================================================================== *)

Module Py.

Local Open Scope Z_scope.

(** A [str]: its code points, in order. *)
Definition pystr := list Z.

(** Decoder for the UTF-8 text of the string literals written below;
    [need] counts the continuation bytes still expected. *)
Fixpoint utf8_go (acc : Z) (need : nat) (bs : list Byte.byte) : pystr :=
  match bs with
  | [] => []
  | b :: rest =>
      let n := Z.of_N (Byte.to_N b) in
      match need with
      | O => if n <? 128 then n :: utf8_go 0 0 rest
             else if n <? 224 then utf8_go (Z.land n 31) 1 rest
             else if n <? 240 then utf8_go (Z.land n 15) 2 rest
             else utf8_go (Z.land n 7) 3 rest
      | S O => (acc * 64 + Z.land n 63) :: utf8_go 0 0 rest
      | S k => utf8_go (acc * 64 + Z.land n 63) k rest
      end
  end.

(** [u8 "..."] is the Python string literal with that text. *)
Definition u8 (s : string) : pystr := utf8_go 0 0 (list_byte_of_string s).

Fixpoint pystr_eqb (a b : pystr) : bool :=
  match a, b with
  | [], [] => true
  | x :: a', y :: b' => (x =? y) && pystr_eqb a' b'
  | _, _ => false
  end.

(** A JSON float: finite values by mantissa and exponent, plus the
    non-finite values Python's decoder accepts. *)
Inductive pyfloat : Type :=
| FFinite (m e : Z)
| FInf (negative : bool)
| FNaN.

(** Decoded JSON. *)
Inductive pyval : Type :=
| PNone
| PBool (b : bool)
| PInt (z : Z)
| PFloat (f : pyfloat)
| PStr (s : pystr)
| PList (l : list pyval)
| PDict (d : list (pystr * pyval)).

Definition pydict := list (pystr * pyval).

(** [bool(v)] *)
Definition truthy (v : pyval) : bool :=
  match v with
  | PNone => false
  | PBool b => b
  | PInt z => negb (z =? 0)
  | PFloat (FFinite m _) => negb (m =? 0)
  | PFloat _ => true
  | PStr s => match s with [] => false | _ => true end
  | PList l => match l with [] => false | _ => true end
  | PDict d => match d with [] => false | _ => true end
  end.

(** [d.get(k)] *)
Fixpoint dict_get (k : pystr) (d : pydict) : option pyval :=
  match d with
  | [] => None
  | (k', v) :: rest => if pystr_eqb k k' then Some v else dict_get k rest
  end.

(** [k in d] *)
Definition dict_mem (k : pystr) (d : pydict) : bool :=
  match dict_get k d with Some _ => true | None => false end.

(** [d.get(k, default)] *)
Definition dict_get_default (k : pystr) (default : pyval) (d : pydict) : pyval :=
  match dict_get k d with Some v => v | None => default end.

(** [d[k] = v]: overwrite in place, or append a new key at the end. *)
Fixpoint dict_set (k : pystr) (v : pyval) (d : pydict) : pydict :=
  match d with
  | [] => [(k, v)]
  | (k', v') :: rest =>
      if pystr_eqb k k' then (k', v) :: rest else (k', v') :: dict_set k v rest
  end.

(** [list(d.keys())] *)
Definition dict_keys (d : pydict) : list pystr := map fst d.

(** [x in l] for a list of strings *)
Definition str_in (x : pystr) (l : list pystr) : bool := existsb (pystr_eqb x) l.

(** [len(l)] *)
Definition len {A : Type} (l : list A) : Z := Z.of_nat (List.length l).

(** *** Exceptions *)

(** [type(v).__name__] *)
Inductive pytype : Type := TNone | TBool | TInt | TFloat | TStr | TList | TDict.

Definition type_of (v : pyval) : pytype :=
  match v with
  | PNone => TNone
  | PBool _ => TBool
  | PInt _ => TInt
  | PFloat _ => TFloat
  | PStr _ => TStr
  | PList _ => TList
  | PDict _ => TDict
  end.

(** The exceptions raised in the code embedded here, each with what its
    message is made from. *)
Inductive exn : Type :=
| AttributeError (t : pytype) (attr : pystr)
    (* 't' object has no attribute 'attr' *)
| KeyError (key : pystr)
| ArgumentNotIterable (t : pytype)
    (* [x in v]: argument of type 't' is not iterable *)
| ObjectNotIterable (t : pytype)
    (* [for x in v]: 't' object is not iterable *)
| StringIndex
    (* [s[key]]: string indices must be integers, not 'str' *)
| ListIndex
    (* [l[key]]: list indices must be integers or slices, not str *)
| NotSubscriptable (t : pytype)
    (* 't' object is not subscriptable *)
| Unhashable (t : pytype)
    (* unhashable type: 't' *)
| UnhashableSlice
    (* [d[a:b]] on a dict: unhashable type: 'slice' *)
| ExpectedString (t : pytype)
    (* [re.sub]: expected string or bytes-like object, got 't' *)
| NoLen (t : pytype)
    (* object of type 't' has no len() *)
| UnboundLocal (name : pystr)
    (* cannot access local variable 'name' ... *)
| IntFailed (v : pyval)
    (* what [int(v)] raises *)
| SortFailed (keys : list pyval)
    (* what [sorted] raises on these keys *)
| DigitLimit (digits : option Z)
    (* [ValueError]: Exceeds the limit (4300 digits) for integer string
       conversion; [int(s)] adds the number of digits of [s] *)
| LibraryError (message : pystr).
    (* raised with this message by a function outside the sources *)

(** A computation that returns or raises. *)
Inductive outcome (A : Type) : Type :=
| Ok (a : A)
| Raise (e : exn).

Arguments Ok {A} a.
Arguments Raise {A} e.

Definition bind {A B : Type} (m : outcome A) (k : A -> outcome B) : outcome B :=
  match m with
  | Ok a => k a
  | Raise e => Raise e
  end.

Notation "x <- m ;; k" := (bind m (fun x => k))
  (at level 61, m at next level, right associativity).
Notation "' p <- m ;; k" := (bind m (fun x => match x with p => k end))
  (at level 61, p pattern, m at next level, right associativity).

(** [[f(x) for x in l]] *)
Section MapOutcome.
Context {A B : Type} (f : A -> outcome B).

Fixpoint map_outcome (l : list A) : outcome (list B) :=
  match l with
  | [] => Ok []
  | x :: rest => y <- f x ;; ys <- map_outcome rest ;; Ok (y :: ys)
  end.

End MapOutcome.

(** [sys.int_max_str_digits]: the interpreter converts no [int] of more
    digits to or from decimal text. *)
Definition int_max_str_digits : Z := 4300.

(** No [int] inside the value has more digits than that: [str] and
    [repr] of the value return, and so does [json.dump]. *)
Fixpoint printable (v : pyval) : bool :=
  match v with
  | PInt z => Z.abs z <? 10 ^ int_max_str_digits
  | PList l => forallb printable l
  | PDict d => forallb (fun kv => printable (snd kv)) d
  | _ => true
  end.

End Py.
Import Py.

(* ================================================================== *)
(** ** response_cleaner.py                                              *)
(* ================================================================== *)

Module Cleaner.

Local Open Scope Z_scope.

Definition LT : Z := 60.   (* '<' *)
Definition GT : Z := 62.   (* '>' *)
Definition AMP : Z := 38.  (* '&' *)
Definition SP : Z := 32.   (* ' ' *)

(** Unicode whitespace as CPython's [Py_UNICODE_ISSPACE] has it; this is
    both the class [\s] of [re] on [str] patterns and what [str.strip()]
    removes. *)
Definition isspace (c : Z) : bool :=
  ((9 <=? c) && (c <=? 13)) || ((28 <=? c) && (c <=? 32))
  || (c =? 133) || (c =? 160) || (c =? 5760)
  || ((8192 <=? c) && (c <=? 8202))
  || (c =? 8232) || (c =? 8233) || (c =? 8239) || (c =? 8287) || (c =? 12288).

Arguments isspace : simpl never.

(** Does the text after a ['<'] complete a match of [<[^>]+>]?  The class
    [[^>]+] must take at least one character and be closed by a ['>']. *)
Definition tag_opens (rest : pystr) : bool :=
  match rest with
  | [] => false
  | d :: _ => negb (d =? GT) && existsb (Z.eqb GT) rest
  end.

(** [re.sub(r'<[^>]+>', '', s)], scanning left to right; [in_tag] holds
    while the characters of a matched tag are being dropped. *)
Fixpoint sub_tags (in_tag : bool) (s : pystr) : pystr :=
  match s with
  | [] => []
  | c :: rest =>
      if in_tag then
        (if c =? GT then sub_tags false rest else sub_tags true rest)
      else if (c =? LT) && tag_opens rest then sub_tags true rest
      else c :: sub_tags false rest
  end.

(** [re.sub(r'\s+', ' ', s)]; [in_ws] holds inside a run already replaced. *)
Fixpoint sub_spaces (in_ws : bool) (s : pystr) : pystr :=
  match s with
  | [] => []
  | c :: rest =>
      if isspace c then
        (if in_ws then sub_spaces true rest else SP :: sub_spaces true rest)
      else c :: sub_spaces false rest
  end.

(** [s.lstrip()] *)
Fixpoint lstrip (s : pystr) : pystr :=
  match s with
  | [] => []
  | c :: rest => if isspace c then lstrip rest else s
  end.

(** [s.rstrip()] *)
Fixpoint rstrip (s : pystr) : pystr :=
  match s with
  | [] => []
  | c :: rest =>
      match rstrip rest with
      | [] => if isspace c then [] else [c]
      | r => c :: r
      end
  end.

(** [s.strip()] *)
Definition strip (s : pystr) : pystr := rstrip (lstrip s).

(** *** Predicates on strings, for the properties of the cleaner *)

(** [c in s] *)
Definition occurs (c : Z) (s : pystr) : bool := existsb (Z.eqb c) s.

(** No match of [<[^>]+>] starts anywhere in the string. *)
Fixpoint no_tag (s : pystr) : bool :=
  match s with
  | [] => true
  | c :: rest => negb ((c =? LT) && tag_opens rest) && no_tag rest
  end.

(** Whitespace occurs only as single [' '] characters; [in_ws] tells that
    the character before was one. *)
Fixpoint spaced (in_ws : bool) (s : pystr) : bool :=
  match s with
  | [] => true
  | c :: rest =>
      if isspace c then negb in_ws && (c =? SP) && spaced true rest
      else spaced false rest
  end.

(** The string does not start with whitespace. *)
Definition starts_clean (s : pystr) : bool :=
  match s with
  | [] => true
  | c :: _ => negb (isspace c)
  end.

(** The string does not end with whitespace. *)
Definition ends_clean (s : pystr) : bool := starts_clean (rev s).

(** The text [clean_html_tags] computes for a string without ['&']. *)
Definition cleaned (x : pystr) : pystr :=
  strip (sub_spaces false (sub_tags false x)).

(** *** The library's substitution of character references

    [html.unescape] of CPython:
<<
    _charref = re.compile(r'&(#[0-9]+;?'
                          r'|#[xX][0-9a-fA-F]+;?'
                          r'|[^\t\n\f <&#;]{1,32};?)')

    def unescape(s):
        if '&' not in s:
            return s
        return _charref.sub(_replace_charref, s)
>>
    and [_replace_charref].  The table of named references
    [html.entities.html5] is an argument. *)

Definition is_digit (c : Z) : bool := (48 <=? c) && (c <=? 57).

Definition is_hex (c : Z) : bool :=
  is_digit c || ((97 <=? c) && (c <=? 102)) || ((65 <=? c) && (c <=? 70)).

(** The class [[^\t\n\f <&#;]] *)
Definition is_name_char (c : Z) : bool :=
  negb ((c =? 9) || (c =? 10) || (c =? 12) || (c =? 32) || (c =? 60)
        || (c =? 38) || (c =? 35) || (c =? 59)).

(** The longest prefix of at most [n] characters in the class [p]. *)
Fixpoint take_while (n : nat) (p : Z -> bool) (s : pystr) : pystr :=
  match n, s with
  | S k, c :: rest => if p c then c :: take_while k p rest else []
  | _, _ => []
  end.

(** [;?] *)
Definition optional_semicolon (s : pystr) : pystr :=
  match s with
  | c :: _ => if c =? 59 then [59] else []
  | [] => []
  end.

(** A greedy run of the class [p] (at least one, at most [n] characters)
    and an optional [';']: the text matched, if any. *)
Definition run_and_semicolon (n : nat) (p : Z -> bool) (s : pystr) : option pystr :=
  match take_while n p s with
  | [] => None
  | run => Some (run ++ optional_semicolon (skipn (List.length run) s))
  end.

(** Group 1 of [_charref] matched right after an ['&']; the alternatives
    are tried in order. *)
Definition match_charref (rest : pystr) : option pystr :=
  match rest with
  | c :: r1 =>
      if c =? 35 then
        match run_and_semicolon (List.length r1) is_digit r1 with
        | Some m => Some (35 :: m)
        | None =>
            match r1 with
            | x :: r2 =>
                if (x =? 120) || (x =? 88) then
                  match run_and_semicolon (List.length r2) is_hex r2 with
                  | Some m => Some (35 :: x :: m)
                  | None => None
                  end
                else None
            | [] => None
            end
        end
      else run_and_semicolon 32 is_name_char rest
  | [] => None
  end.

(** The value of a run of digits in a base *)
Definition digit_value (c : Z) : Z :=
  if is_digit c then c - 48
  else if (97 <=? c) && (c <=? 102) then c - 87
  else c - 55.

Definition int_of_digits (base : Z) (s : pystr) : Z :=
  fold_left (fun acc c => acc * base + digit_value c) s 0.

(** [int(s)] on a run of decimal digits: a run of more than
    [sys.int_max_str_digits] digits raises [ValueError].  ([int(s, 16)]
    has no such limit.) *)
Definition int_of_decimal (s : pystr) : outcome Z :=
  if int_max_str_digits <? len s then Raise (DigitLimit (Some (len s)))
  else Ok (int_of_digits 10 s).

(** [s.rstrip(';')] *)
Fixpoint rstrip_semicolon (s : pystr) : pystr :=
  match s with
  | [] => []
  | c :: rest =>
      match rstrip_semicolon rest with
      | [] => if c =? 59 then [] else [c]
      | r => c :: r
      end
  end.

(** [_invalid_charrefs] *)
Definition invalid_charrefs : list (Z * pystr) :=
  [ (0, [65533]); (13, [13]); (128, [8364]); (129, [129]); (130, [8218]);
    (131, [402]); (132, [8222]); (133, [8230]); (134, [8224]); (135, [8225]);
    (136, [710]); (137, [8240]); (138, [352]); (139, [8249]); (140, [338]);
    (141, [141]); (142, [381]); (143, [143]); (144, [144]); (145, [8216]);
    (146, [8217]); (147, [8220]); (148, [8221]); (149, [8226]); (150, [8211]);
    (151, [8212]); (152, [732]); (153, [8482]); (154, [353]); (155, [8250]);
    (156, [339]); (157, [157]); (158, [382]); (159, [376]) ].

(** [num in _invalid_codepoints] *)
Definition invalid_codepoint (n : Z) : bool :=
  ((1 <=? n) && (n <=? 8)) || (n =? 11) || ((14 <=? n) && (n <=? 31))
  || ((127 <=? n) && (n <=? 159)) || ((64976 <=? n) && (n <=? 65007))
  || ((n <=? 1114111) && (65534 <=? Z.land n 65535)).

Fixpoint assoc_Z (n : Z) (t : list (Z * pystr)) : option pystr :=
  match t with
  | [] => None
  | (k, v) :: rest => if n =? k then Some v else assoc_Z n rest
  end.

Fixpoint assoc_str (s : pystr) (t : list (pystr * pystr)) : option pystr :=
  match t with
  | [] => None
  | (k, v) :: rest => if pystr_eqb s k then Some v else assoc_str s rest
  end.

(** The loop [for x in range(len(s)-1, 1, -1)] of [_replace_charref]:
    the longest proper prefix of two characters or more that is a name.
    [x] is tried first, then [x-1], down to 2. *)
Fixpoint longest_name (html5 : list (pystr * pystr)) (s : pystr) (x : nat)
  : option pystr :=
  match x with
  | S (S _ as x') =>
      match assoc_str (firstn x s) html5 with
      | Some v => Some (v ++ skipn x s)
      | None => longest_name html5 s x'
      end
  | _ => None
  end.

(** [_replace_charref] on the text of group 1 *)
Definition replace_numeric (body : pystr) : outcome pystr :=
  num <- match body with
         | x :: digits =>
             if (x =? 120) || (x =? 88)
             then Ok (int_of_digits 16 (rstrip_semicolon digits))
             else int_of_decimal (rstrip_semicolon body)
         | [] => Ok 0
         end ;;
  Ok match assoc_Z num invalid_charrefs with
     | Some v => v
     | None =>
         if ((55296 <=? num) && (num <=? 57343)) || (1114111 <? num) then [65533]
         else if invalid_codepoint num then []
         else [num]
     end.

Definition replace_named (html5 : list (pystr * pystr)) (s : pystr) : pystr :=
  match assoc_str s html5 with
  | Some v => v
  | None =>
      match longest_name html5 s (List.length s - 1) with
      | Some v => v
      | None => AMP :: s
      end
  end.

Definition replace_charref (html5 : list (pystr * pystr)) (s : pystr)
  : outcome pystr :=
  match s with
  | c :: body =>
      if c =? 35 then replace_numeric body else Ok (replace_named html5 s)
  | [] => Ok (replace_named html5 s)
  end.

(** [_charref.sub(_replace_charref, s)]: the matches are replaced from
    left to right, and the first replacement that raises ends the call;
    [skip] counts the characters of the current match still to pass
    over. *)
Fixpoint charref_sub_with (html5 : list (pystr * pystr)) (skip : nat)
    (s : pystr) : outcome pystr :=
  match s with
  | [] => Ok []
  | c :: rest =>
      match skip with
      | S k => charref_sub_with html5 k rest
      | O =>
          if c =? AMP then
            match match_charref rest with
            | Some group =>
                r <- replace_charref html5 group ;;
                t <- charref_sub_with html5 (List.length group) rest ;;
                Ok (r ++ t)
            | None => t <- charref_sub_with html5 0 rest ;; Ok (c :: t)
            end
          else t <- charref_sub_with html5 0 rest ;; Ok (c :: t)
      end
  end.

(** The number of digits of the first decimal reference [&#digits] that
    has more than [sys.int_max_str_digits] digits, if there is one. *)
Fixpoint first_long_reference (s : pystr) : option Z :=
  match s with
  | [] => None
  | c :: rest =>
      if c =? AMP then
        match rest with
        | d :: r1 =>
            let digits := len (take_while (List.length r1) is_digit r1) in
            if (d =? 35) && (int_max_str_digits <? digits) then Some digits
            else first_long_reference rest
        | [] => None
        end
      else first_long_reference rest
  end.

(** The interpreter's table [html.entities.html5] of named references is
    not among the sources; it is the one parameter of the cleaner. *)
Class HtmlLib : Type := { html5 : list (pystr * pystr) }.

Section WithHtml.
Context {H : HtmlLib}.

(** [html.unescape(s)] *)
Definition html_unescape (s : pystr) : outcome pystr :=
  if existsb (Z.eqb AMP) s then charref_sub_with html5 0 s else Ok s.

(** [clean_html_tags(text)].  The guard returns [text or ""]: a falsy
    argument gives [""], a truthy argument that is no [str] is returned
    as it is.  What [html.unescape] raises is not caught. *)
Definition clean_html_tags (text : pyval) : outcome pyval :=
  match text with
  | PStr ((_ :: _) as s) =>
      let text1 := sub_tags false s in
      text2 <- html_unescape text1 ;;
      let text3 := sub_spaces false text2 in
      Ok (PStr (strip text3))
  | _ => Ok (if truthy text then text else PStr [])
  end.

(** [clean_dict_values(data, fields_to_clean)] and
    [clean_list_values(data, fields_to_clean)]; the loops stop at the
    first value whose cleaning raises. *)
Fixpoint clean_dict_values (fields_to_clean : option (list pystr))
    (data : pyval) {struct data} : outcome pyval :=
  match data with
  | PDict ((_ :: _) as d) =>
      result <-
        fold_left (fun (so_far : outcome pydict) kv =>
          result <- so_far ;;
          let '(key, value) := kv in
          let restricted :=
            match fields_to_clean with
            | Some ((_ :: _) as fs) => negb (str_in key fs)
            | _ => false
            end in
          if restricted then Ok (dict_set key value result)
          else match value with
               | PStr _ =>
                   v <- clean_html_tags value ;; Ok (dict_set key v result)
               | PDict _ =>
                   v <- clean_dict_values fields_to_clean value ;;
                   Ok (dict_set key v result)
               | PList _ =>
                   v <- clean_list_values fields_to_clean value ;;
                   Ok (dict_set key v result)
               | _ => Ok (dict_set key value result)
               end) d (Ok []) ;;
      Ok (PDict result)
  | _ => Ok (if truthy data then data else PDict [])
  end
with clean_list_values (fields_to_clean : option (list pystr))
    (data : pyval) {struct data} : outcome pyval :=
  match data with
  | PList ((_ :: _) as l) =>
      result <-
        map_outcome (fun item =>
          match item with
          | PDict _ => clean_dict_values fields_to_clean item
          | PStr _ => clean_html_tags item
          | PList _ => clean_list_values fields_to_clean item
          | _ => Ok item
          end) l ;;
      Ok (PList result)
  | _ => Ok (if truthy data then data else PList [])
  end.

(** The fields [clean_search_result] cleans. *)
Definition search_fields_to_clean : list pystr :=
  map u8 [ "법령명"; "법령명한글"; "법령명_한글"; "법령명_영문";
           "사건명"; "안건명"; "결정문명"; "행정규칙명"; "자치법규명";
           "조약명"; "용어명"; "해석명"; "조문내용"; "조문제목";
           "판결요지"; "결정요지"; "이유"; "참조조문"; "참조판례" ]%string.

(** [clean_search_result(result)] *)
Definition clean_search_result (result : pyval) : outcome pyval :=
  clean_dict_values (Some search_fields_to_clean) result.

(** What [clean_dict_values] stores under [key] in place of [value] *)
Definition cleaned_value (fields_to_clean : option (list pystr))
    (key : pystr) (value : pyval) : outcome pyval :=
  let restricted :=
    match fields_to_clean with
    | Some ((_ :: _) as fs) => negb (str_in key fs)
    | _ => false
    end in
  if restricted then Ok value
  else match value with
       | PStr _ => clean_html_tags value
       | PDict _ => clean_dict_values fields_to_clean value
       | PList _ => clean_list_values fields_to_clean value
       | _ => Ok value
       end.

End WithHtml.

(** The entries of [html.entities.html5] for the references the examples
    use. *)
Definition html5_basic : list (pystr * pystr) :=
  [ (u8 "amp;", [38]); (u8 "amp", [38]); (u8 "lt;", [60]); (u8 "lt", [60]);
    (u8 "gt;", [62]); (u8 "gt", [62]); (u8 "quot;", [34]); (u8 "quot", [34]);
    (u8 "nbsp;", [160]); (u8 "nbsp", [160]) ].

(** The library with that table. *)
Definition html_basic : HtmlLib := {| html5 := html5_basic |}.

(** ["&#"], then [n] digits ['9'], then [";"] *)
Definition long_reference (n : nat) : pystr := u8 "&#" ++ repeat 57 n ++ u8 ";".

End Cleaner.
Import Cleaner.

(* ================================================================== *)
(** ** Python at run time: exceptions and dynamically typed operations  *)
(* ================================================================== *)

Module Dyn.

Local Open Scope Z_scope.

(** What the formatters use from the interpreter, its library, and the
    modules of the repository that are not among the sources. *)
Class Runtime : Type := {
  (** [repr(s)] of a [str] and of a [float] *)
  repr_str : pystr -> pystr;
  repr_float : pyfloat -> pystr;
  (** [s.lower()], [s.isdigit()] *)
  str_lower : pystr -> pystr;
  str_isdigit : pystr -> bool;
  (** [int(v)]; [None] when it raises *)
  py_int : pyval -> option Z;
  (** [sorted(items, key=..., reverse=True)], given each item with its
      key; [None] when a comparison raises *)
  sorted_reverse : list (pyval * pyval) -> option (list pyval);
  (** [str(e)] *)
  exn_message : exn -> pystr;
  (** [clean_html_tags] of [utils/law_tools_utils.py] *)
  tools_clean_html_tags : pyval -> outcome pyval;
  (** [CHANGE_DETAILS] of [tools/law_config.py] *)
  CHANGE_DETAILS : pydict
}.

(** *** Strings *)

Definition NL : pystr := [10].
Definition DQ : pystr := [34].

(** [s.startswith(p)] *)
Fixpoint starts_with (p s : pystr) : bool :=
  match p, s with
  | [], _ => true
  | x :: p', y :: s' => (x =? y) && starts_with p' s'
  | _ :: _, [] => false
  end.

(** [p in s] *)
Fixpoint contains (p s : pystr) : bool :=
  starts_with p s ||
  match s with
  | [] => false
  | _ :: s' => contains p s'
  end.

(** [s.replace(" ", "")] *)
Definition remove_spaces (s : pystr) : pystr :=
  filter (fun c => negb (c =? 32)) s.

(** [s.split(',')]; [cur] is the part being read, reversed. *)
Fixpoint split_commas (cur : pystr) (s : pystr) : list pystr :=
  match s with
  | [] => [rev cur]
  | c :: rest =>
      if c =? 44 then rev cur :: split_commas [] rest
      else split_commas (c :: cur) rest
  end.

(** [a < b] on strings *)
Fixpoint str_ltb (a b : pystr) : bool :=
  match a, b with
  | _, [] => false
  | [], _ :: _ => true
  | x :: a', y :: b' => (x <? y) || ((x =? y) && str_ltb a' b')
  end.

(** [sep.join(parts)] *)
Fixpoint join (sep : pystr) (parts : list pystr) : pystr :=
  match parts with
  | [] => []
  | [p] => p
  | p :: rest => p ++ sep ++ join sep rest
  end.

(** [str(n)] of an [int] within the limit of digits ([printable]) *)
Definition decimal (n : Z) : pystr :=
  map (fun b => Z.of_N (Byte.to_N b))
      (list_byte_of_string (DecimalString.NilZero.string_of_int (Z.to_int n))).

(** [l[:n]] *)
Definition slice_to {A : Type} (n : Z) (l : list A) : list A :=
  if n <? 0 then firstn (Z.to_nat (len l + n)) l else firstn (Z.to_nat n) l.

(** [l[a:b]] for [0 <= a <= b] *)
Definition slice {A : Type} (a b : nat) (l : list A) : list A :=
  firstn (b - a) (skipn a l).

Section WithRuntime.
Context {R : Runtime}.

(** [repr(v)] *)
Fixpoint py_repr (v : pyval) : pystr :=
  match v with
  | PNone => u8 "None"
  | PBool true => u8 "True"
  | PBool false => u8 "False"
  | PInt z => decimal z
  | PFloat f => repr_float f
  | PStr s => repr_str s
  | PList l => u8 "[" ++ join (u8 ", ") (map py_repr l) ++ u8 "]"
  | PDict d =>
      u8 "{" ++ join (u8 ", ")
                 (map (fun kv => repr_str (fst kv) ++ u8 ": " ++ py_repr (snd kv)) d)
             ++ u8 "}"
  end.

(** [str(v)] of a [printable] value, which is also how an f-string shows
    [{v}] *)
Definition py_str (v : pyval) : pystr :=
  match v with
  | PStr s => s
  | _ => py_repr v
  end.

(** [key in v] for a string [key] *)
Definition py_in (key : pystr) (v : pyval) : outcome bool :=
  match v with
  | PDict d => Ok (dict_mem key d)
  | PStr s => Ok (contains key s)
  | PList l =>
      Ok (existsb (fun x => match x with PStr s => pystr_eqb key s | _ => false end) l)
  | _ => Raise (ArgumentNotIterable (type_of v))
  end.

(** [v[key]] for a string [key] *)
Definition py_item (v : pyval) (key : pystr) : outcome pyval :=
  match v with
  | PDict d =>
      match dict_get key d with
      | Some x => Ok x
      | None => Raise (KeyError key)
      end
  | PStr _ => Raise StringIndex
  | PList _ => Raise ListIndex
  | _ => Raise (NotSubscriptable (type_of v))
  end.

(** [v.get(key, default)] *)
Definition py_get (v : pyval) (key : pystr) (default : pyval) : outcome pyval :=
  match v with
  | PDict d => Ok (dict_get_default key default d)
  | _ => Raise (AttributeError (type_of v) (u8 "get"))
  end.

(** [v.get(key)] *)
Definition py_get_none (v : pyval) (key : pystr) : outcome pyval :=
  py_get v key PNone.

(** [len(v)] *)
Definition py_len (v : pyval) : outcome Z :=
  match v with
  | PStr s => Ok (len s)
  | PList l => Ok (len l)
  | PDict d => Ok (len d)
  | _ => Raise (NoLen (type_of v))
  end.

(** [v[a:b]] for constants [0 <= a <= b] *)
Definition py_slice (v : pyval) (a b : nat) : outcome pyval :=
  match v with
  | PStr s => Ok (PStr (slice a b s))
  | PList l => Ok (PList (slice a b l))
  | PDict _ => Raise UnhashableSlice
  | _ => Raise (NotSubscriptable (type_of v))
  end.

(** [re.sub(r'<[^>]+>', '', v)] *)
Definition py_sub_tags (v : pyval) : outcome pystr :=
  match v with
  | PStr s => Ok (sub_tags false s)
  | _ => Raise (ExpectedString (type_of v))
  end.

(** [hash(v)] succeeds *)
Definition hashable (v : pyval) : outcome unit :=
  match v with
  | PList _ | PDict _ => Raise (Unhashable (type_of v))
  | _ => Ok tt
  end.

(** The test [key in item and item[key]]: the value, when the key is
    there with a truthy value. *)
Definition present (item : pyval) (key : pystr) : outcome (option pyval) :=
  b <- py_in key item ;;
  if b then
    x <- py_item item key ;;
    Ok (if truthy x then Some x else None)
  else Ok None.

(** The loop
<<
    for key in keys:
        if key in item and item[key]:
            found = item[key]
            break
>>
    [None] when the loop ends without [break]. *)
Fixpoint first_present (item : pyval) (keys : list pystr) : outcome (option pyval) :=
  match keys with
  | [] => Ok None
  | key :: rest =>
      x <- present item key ;;
      match x with
      | Some v => Ok (Some v)
      | None => first_present item rest
      end
  end.

(** [a or b], for values *)
Definition py_or (a b : pyval) : pyval := if truthy a then a else b.

End WithRuntime.

End Dyn.
Import Dyn.

(* ================================================================== *)
(** ** response_cleaner.py: text for the LLM                            *)
(* ================================================================== *)

Module Llm.

Local Open Scope Z_scope.

(** [s.rfind(c)] for a character [c]: the last index, or -1.  [i] is the
    index of the head of [s], [last] the last index seen so far. *)
Fixpoint rfind_from (c : Z) (s : pystr) (i last : Z) : Z :=
  match s with
  | [] => last
  | x :: rest => rfind_from c rest (i + 1) (if x =? c then i else last)
  end.

Definition rfind (c : Z) (s : pystr) : Z := rfind_from c s 0 (-1).

(** The float nearest to [x * 2^e] for [x >= 0], as mantissa and
    exponent: 53 bits, ties to even. *)
Definition round53 (x e : Z) : Z * Z :=
  let b := Z.log2 x + 1 in
  if b <=? 53 then (x, e)
  else
    let s := b - 53 in
    let m := Z.shiftr x s in
    let r := x - Z.shiftl m s in
    let half := Z.shiftl 1 (s - 1) in
    if (half <? r) || ((r =? half) && Z.odd m) then (m + 1, e + s)
    else (m, e + s).

(** [n * 0.7] for an [int] n: [float(n)], which raises [OverflowError]
    ([None]) from 2^1024 on, times the float [0.7], which is
    6305039478318694 * 2^-53. *)
Definition times_seven_tenths (n : Z) : option (Z * Z) :=
  let '(m1, e1) := round53 (Z.abs n) 0 in
  if 2 ^ 1024 <=? m1 * 2 ^ e1 then None
  else
    let '(m2, e2) := round53 (m1 * 6305039478318694) (e1 - 53) in
    Some (Z.sgn n * m2, e2).

(** [k > f] for an [int] k and the float [m * 2^e] *)
Definition int_gt_float (k : Z) (f : Z * Z) : bool :=
  let '(m, e) := f in
  if 0 <=? e then m * 2 ^ e <? k else m <? k * 2 ^ (- e).

(** [truncate_for_llm(text, max_chars, suffix)] *)
Definition truncate_for_llm (text : pystr) (max_chars : Z) (suffix : pystr)
  : outcome pystr :=
  if negb (truthy (PStr text)) || (len text <=? max_chars) then Ok text
  else
    let truncated := slice_to max_chars text in
    let last_period :=
      Z.max (Z.max (rfind 46 truncated) (rfind 12290 truncated))
            (rfind 10 truncated) in
    match times_seven_tenths max_chars with
    | None => Raise (LibraryError (u8 "int too large to convert to float"))
    | Some limit =>
        let truncated :=
          if int_gt_float last_period limit
          then slice_to (last_period + 1) truncated
          else truncated in
        Ok (truncated ++ suffix)
    end.

End Llm.
Import Llm.

(* ================================================================== *)
(** ** response_parser.py                                               *)
(* ================================================================== *)

Module Parser.

Local Open Scope Z_scope.
Local Open Scope string_scope.

(** [RESPONSE_STRUCTURE_MAP]: target -> (outer_key, inner_key), in the
    order of the dict literal. *)
Definition RESPONSE_STRUCTURE_MAP : list (pystr * (pystr * pystr)) :=
  map (fun e => (u8 (fst e), (u8 (fst (snd e)), u8 (snd (snd e)))))
  [ ("law", ("LawSearch", "law"));
    ("elaw", ("LawSearch", "law"));
    ("eflaw", ("LawSearch", "law"));
    ("prec", ("PrecSearch", "prec"));
    ("detc", ("DetcSearch", "Detc"));
    ("expc", ("Expc", "expc"));
    ("decc", ("Decc", "decc"));
    ("ppc", ("Ppc", "ppc"));
    ("fsc", ("Fsc", "fsc"));
    ("ftc", ("Ftc", "ftc"));
    ("acr", ("Acr", "acr"));
    ("nlrc", ("Nlrc", "nlrc"));
    ("ecc", ("Ecc", "ecc"));
    ("sfc", ("Sfc", "sfc"));
    ("nhrck", ("Nhrck", "nhrck"));
    ("kcc", ("Kcc", "kcc"));
    ("iaciac", ("Iaciac", "iaciac"));
    ("oclt", ("Oclt", "oclt"));
    ("eiac", ("Eiac", "eiac"));
    ("admrul", ("AdmRulSearch", "admrul"));
    ("ordin", ("OrdinSearch", "law"));
    ("ordinfd", ("OrdinSearch", "ordinfd"));
    ("trty", ("TrtySearch", "Trty"));
    ("lstrm", ("LsTrmSearch", "lstrm"));
    ("lstrmAI", ("lstrmAISearch", "법령용어"));
    ("moefCgmExpc", ("CgmExpc", "cgmExpc"));
    ("molitCgmExpc", ("CgmExpc", "cgmExpc"));
    ("moelCgmExpc", ("CgmExpc", "cgmExpc"));
    ("mofCgmExpc", ("CgmExpc", "cgmExpc"));
    ("moisCgmExpc", ("CgmExpc", "cgmExpc"));
    ("meCgmExpc", ("CgmExpc", "cgmExpc"));
    ("ntsCgmExpc", ("CgmExpc", "cgmExpc"));
    ("kcsCgmExpc", ("CgmExpc", "cgmExpc"));
    ("ttSpecialDecc", ("DeccSearch", "Decc"));
    ("kmstSpecialDecc", ("DeccSearch", "Decc")) ].

(** [RESPONSE_STRUCTURE_MAP[target]], when [target in RESPONSE_STRUCTURE_MAP] *)
Fixpoint map_lookup (target : pystr) (m : list (pystr * (pystr * pystr)))
  : option (pystr * pystr) :=
  match m with
  | [] => None
  | (t, e) :: rest => if pystr_eqb target t then Some e else map_lookup target rest
  end.

(** What the function returns: [(items, count, error)]. *)
Definition extracted : Type := (list pyval * Z * option pystr)%type.

(** The lines both envelope passes share:
<<
    if outer_key in result:
        inner = result[outer_key]
        if isinstance(inner, dict):
            items = inner.get(inner_key, [])
            if isinstance(items, dict):
                items = [items]
            if isinstance(items, list) ...
>>
    [Some items] when the last test [isinstance(items, list)] holds. *)
Definition envelope_items (result : pydict) (outer_key inner_key : pystr)
  : option (list pyval) :=
  match dict_get outer_key result with
  | Some (PDict inner) =>
      match dict_get_default inner_key (PList []) inner with
      | PDict item => Some [PDict item]
      | PList items => Some items
      | _ => None
      end
  | _ => None
  end.

(** Lines 96-105: the envelope of the given target.  [None]: fall through. *)
Definition try_target (result : pydict) (target : option pystr) : option extracted :=
  match target with
  | Some ((_ :: _) as t) =>
      match map_lookup t RESPONSE_STRUCTURE_MAP with
      | Some (outer_key, inner_key) =>
          match envelope_items result outer_key inner_key with
          | Some items => Some (items, len items, None)
          | None => None
          end
      | None => None
      end
  | _ => None
  end.

(** Lines 108-116: every envelope of the table, in order; only a
    non-empty list is returned. *)
Fixpoint try_all_structures (result : pydict)
    (values : list (pystr * pystr)) : option extracted :=
  match values with
  | [] => None
  | (outer_key, inner_key) :: rest =>
      match envelope_items result outer_key inner_key with
      | Some ((_ :: _) as items) => Some (items, len items, None)
      | _ => try_all_structures result rest
      end
  end.

Definition direct_keys : list pystr :=
  map u8 ["법령"; "Law"; "items"; "data"; "result"].

(** Lines 119-125: data directly under a generic top-level key. *)
Fixpoint try_direct (result : pydict) (keys : list pystr) : option extracted :=
  match keys with
  | [] => None
  | key :: rest =>
      match dict_get key result with
      | Some (PList value) => Some (value, len value, None)
      | Some (PDict value) => Some ([PDict value], 1, None)
      | _ => try_direct result rest
      end
  end.

(** [extract_items_from_response(result, target)] *)
Definition extract_items_from_response (result : pydict)
    (target : option pystr) : extracted :=
  match result with
  | [] => ([], 0, Some (u8 "응답 없음"))
  | _ =>
    match dict_get (u8 "Law") result with
    | Some (PStr message) => ([], 0, Some message)
    | _ =>
      match try_target result target with
      | Some r => r
      | None =>
        match try_all_structures result (map snd RESPONSE_STRUCTURE_MAP) with
        | Some r => r
        | None =>
          match try_direct result direct_keys with
          | Some r => r
          | None => ([], 0, Some (u8 "데이터 구조 파싱 실패"))
          end
        end
      end
    end
  end.

(** The dict [normalize_response] returns. *)
Record NormalizedResult : Type := {
  success : bool;
  items : list pyval;
  total_count : Z;
  error : option pystr;
  raw_keys : list pystr
}.

(** [normalize_response(result, target, clean_html)]; what the cleaning
    of an item raises is not caught. *)
Definition normalize_response {H : HtmlLib} (result : pydict)
    (target : option pystr) (clean_html : bool) : outcome NormalizedResult :=
  let '(items, count, error) := extract_items_from_response result target in
  items <- (if clean_html && truthy (PList items)
            then map_outcome clean_search_result items
            else Ok items) ;;
  Ok {| success := (0 <? count)%Z;
        items := items;
        total_count := count;
        error := error;
        raw_keys := match result with [] => [] | _ => dict_keys result end |}.

(** [get_category_from_target(target)] *)
Definition get_category_from_target (target : pystr) : pystr :=
  let among (names : list string) := str_in target (map u8 names) in
  if among ["law"; "elaw"; "eflaw"]%string then u8 "law"
  else if among ["prec"]%string then u8 "prec"
  else if among ["detc"]%string then u8 "detc"
  else if among ["expc"]%string then u8 "expc"
  else if among ["decc"]%string then u8 "decc"
  else if among ["ppc"; "fsc"; "ftc"; "acr"; "nlrc"; "ecc"; "sfc"; "nhrck";
                 "kcc"; "iaciac"; "oclt"; "eiac"]%string then u8 "committee"
  else if among ["admrul"]%string then u8 "admrul"
  else if among ["ordin"; "ordinfd"]%string then u8 "ordin"
  else if contains (u8 "CgmExpc") target then u8 "interpretation"
  else if contains (u8 "SpecialDecc") target then u8 "tribunal"
  else u8 "other".


(** No two targets of a table are the same string. *)
Fixpoint distinct (l : list pystr) : bool :=
  match l with
  | [] => true
  | x :: rest => negb (str_in x rest) && distinct rest
  end.

(** The table as written: targets are distinct and non-empty, and no
    envelope is called ["Law"]. *)
Definition table_entry_ok (e : pystr * (pystr * pystr)) : bool :=
  truthy (PStr (fst e)) && negb (pystr_eqb (u8 "Law") (fst (snd e))).

End Parser.
Import Parser.

(* ================================================================== *)
(** ** law_tools.py: the file cache                                     *)
(* ================================================================== *)

Module Cache.

Local Open Scope Z_scope.

(** *** [hashlib.md5] and [str.encode] *)

(** [s.encode()]: UTF-8; a surrogate or a value outside Unicode raises
    [UnicodeEncodeError] ([None]). *)
Fixpoint utf8_encode (s : pystr) : option (list Z) :=
  match s with
  | [] => Some []
  | c :: rest =>
      let bytes :=
        if (c <? 0) || (1114111 <? c) || ((55296 <=? c) && (c <=? 57343)) then None
        else if c <? 128 then Some [c]
        else if c <? 2048 then
          Some [192 + Z.shiftr c 6; 128 + Z.land c 63]
        else if c <? 65536 then
          Some [224 + Z.shiftr c 12; 128 + Z.land (Z.shiftr c 6) 63;
                128 + Z.land c 63]
        else
          Some [240 + Z.shiftr c 18; 128 + Z.land (Z.shiftr c 12) 63;
                128 + Z.land (Z.shiftr c 6) 63; 128 + Z.land c 63] in
      match bytes, utf8_encode rest with
      | Some b, Some r => Some (b ++ r)
      | _, _ => None
      end
  end.

Definition mask32 (x : Z) : Z := Z.land x 4294967295.

Definition rotl32 (x n : Z) : Z :=
  mask32 (Z.lor (Z.shiftl x n) (Z.shiftr x (32 - n))).

(** The per-round shift amounts and the constants
    [floor(2^32 * abs(sin(i + 1)))] of RFC 1321. *)
Definition md5_shifts : list Z :=
  [ 7; 12; 17; 22; 7; 12; 17; 22; 7; 12; 17; 22; 7; 12; 17; 22;
    5; 9; 14; 20; 5; 9; 14; 20; 5; 9; 14; 20; 5; 9; 14; 20;
    4; 11; 16; 23; 4; 11; 16; 23; 4; 11; 16; 23; 4; 11; 16; 23;
    6; 10; 15; 21; 6; 10; 15; 21; 6; 10; 15; 21; 6; 10; 15; 21 ].

Definition md5_sines : list Z :=
  [ 3614090360; 3905402710; 606105819; 3250441966;
    4118548399; 1200080426; 2821735955; 4249261313;
    1770035416; 2336552879; 4294925233; 2304563134;
    1804603682; 4254626195; 2792965006; 1236535329;
    4129170786; 3225465664; 643717713; 3921069994;
    3593408605; 38016083; 3634488961; 3889429448;
    568446438; 3275163606; 4107603335; 1163531501;
    2850285829; 4243563512; 1735328473; 2368359562;
    4294588738; 2272392833; 1839030562; 4259657740;
    2763975236; 1272893353; 4139469664; 3200236656;
    681279174; 3936430074; 3572445317; 76029189;
    3654602809; 3873151461; 530742520; 3299628645;
    4096336452; 1126891415; 2878612391; 4237533241;
    1700485571; 2399980690; 4293915773; 2240044497;
    1873313359; 4264355552; 2734768916; 1309151649;
    4149444226; 3174756917; 718787259; 3951481745 ].

(** [n] as [k] little-endian bytes *)
Fixpoint le_bytes (k : nat) (n : Z) : list Z :=
  match k with
  | O => []
  | S k' => Z.land n 255 :: le_bytes k' (Z.shiftr n 8)
  end.

(** The message followed by the bit [1], zeros up to 56 mod 64 bytes, and
    its length in bits on 64 bits. *)
Definition md5_pad (msg : list Z) : list Z :=
  let n := Z.of_nat (List.length msg) in
  msg ++ [128] ++ repeat 0 (Z.to_nat ((55 - n) mod 64))
      ++ le_bytes 8 (Z.land (8 * n) 18446744073709551615).

(** Little-endian 32-bit words of a byte string whose length is a
    multiple of 4 *)
Fixpoint le_words (bs : list Z) : list Z :=
  match bs with
  | b0 :: b1 :: b2 :: b3 :: rest =>
      (b0 + 256 * b1 + 65536 * b2 + 16777216 * b3) :: le_words rest
  | _ => []
  end.

Definition md5_state : Type := (Z * Z * Z * Z)%type.

(** Operation [i] of the 64 on one block of 16 words *)
Definition md5_step (M : list Z) (st : md5_state) (i : nat) : md5_state :=
  let '(A, B, C, D) := st in
  let iz := Z.of_nat i in
  let notw x := Z.lxor x 4294967295 in
  let '(F, g) :=
    if iz <? 16 then (Z.lor (Z.land B C) (Z.land (notw B) D), iz)
    else if iz <? 32 then
      (Z.lor (Z.land D B) (Z.land (notw D) C), (5 * iz + 1) mod 16)
    else if iz <? 48 then (Z.lxor (Z.lxor B C) D, (3 * iz + 5) mod 16)
    else (Z.lxor C (Z.lor B (notw D)), (7 * iz) mod 16) in
  let F' := mask32 (F + A + nth i md5_sines 0 + nth (Z.to_nat g) M 0) in
  (D, mask32 (B + rotl32 F' (nth i md5_shifts 0)), B, C).

Definition md5_block (st : md5_state) (M : list Z) : md5_state :=
  let '(a0, b0, c0, d0) := st in
  let '(A, B, C, D) := fold_left (md5_step M) (seq 0 64) st in
  (mask32 (a0 + A), mask32 (b0 + B), mask32 (c0 + C), mask32 (d0 + D)).

(** The padded message, 16 words at a time; there are [n] blocks. *)
Fixpoint md5_blocks (n : nat) (st : md5_state) (ws : list Z) : md5_state :=
  match n with
  | O => st
  | S n' => md5_blocks n' (md5_block st (firstn 16 ws)) (skipn 16 ws)
  end.

Definition hex_digit (n : Z) : Z := if n <? 10 then 48 + n else 87 + n.

Definition hex_of_byte (b : Z) : pystr :=
  [hex_digit (Z.shiftr b 4); hex_digit (Z.land b 15)].

(** [hashlib.md5(msg).hexdigest()] *)
Definition md5_hexdigest (msg : list Z) : pystr :=
  let ws := le_words (md5_pad msg) in
  let '(a, b, c, d) :=
    md5_blocks (List.length ws / 16)
      (1732584193, 4023233417, 2562383102, 271733878) ws in
  flat_map hex_of_byte (le_bytes 4 a ++ le_bytes 4 b ++ le_bytes 4 c ++ le_bytes 4 d).

(** *** The cache *)

(** A naive local [datetime], counted in microseconds (its resolution). *)
Definition datetime := Z.

(** [timedelta(days=n)] *)
Definition timedelta_days (n : Z) : Z := n * 86400 * 1000000.

(** [CACHE_DAYS = 7] *)
Definition CACHE_DAYS : Z := 7.

(** A cache file: [file_time] is [datetime.fromtimestamp(stat().st_mtime)];
    [parsed] is what [json.load] gives on the opened file, [None] when
    opening or parsing raises. *)
Record file : Type := { file_time : datetime; parsed : option pyval }.

(** What the cache functions see of the machine: the home directory as the
    system names it, the clock read by [datetime.now()], the files, each
    once, under the path the cache functions form for it, and what the
    file system lets the process do in the cache directory: make it and
    create or write files in it ([writable]), remove files from it
    ([removable]). *)
Record world : Type := {
  home : pystr;
  now : datetime;
  files : list (pystr * file);
  writable : bool;
  removable : bool
}.

(** The same machine with other files *)
Definition with_files (w : world) (fs : list (pystr * file)) : world :=
  {| home := home w; now := now w; files := fs;
     writable := writable w; removable := removable w |}.

(** [path.exists()] and [path.stat()] *)
Fixpoint lookup_file (path : pystr) (fs : list (pystr * file)) : option file :=
  match fs with
  | [] => None
  | (p, f) :: rest => if pystr_eqb path p then Some f else lookup_file path rest
  end.

(** [path.unlink()], when the file system allows it *)
Fixpoint unlink (path : pystr) (fs : list (pystr * file)) : list (pystr * file) :=
  match fs with
  | [] => []
  | (p, f) :: rest =>
      if pystr_eqb path p then unlink path rest else (p, f) :: unlink path rest
  end.

(** *** Paths, as [pathlib] forms them on POSIX *)

(** A [PurePosixPath]: its root (none, ["/"] or ["//"]) and its parts. *)
Record path : Type := { root : pystr; parts : list pystr }.

(** [s.lstrip('/')] *)
Fixpoint lstrip_slashes (s : pystr) : pystr :=
  match s with
  | [] => []
  | c :: rest => if c =? 47 then lstrip_slashes rest else s
  end.

(** [s.split('/')]; [cur] is the part being read, reversed. *)
Fixpoint split_slashes (cur : pystr) (s : pystr) : list pystr :=
  match s with
  | [] => [rev cur]
  | c :: rest =>
      if c =? 47 then rev cur :: split_slashes [] rest
      else split_slashes (c :: cur) rest
  end.

(** The parts kept: not the empty ones, and not ["."]. *)
Definition is_part (x : pystr) : bool :=
  negb (pystr_eqb x [] || pystr_eqb x (u8 ".")).

(** [PurePosixPath(s)]: leading slashes make the root, ["//"] when they
    are exactly two. *)
Definition parse_path (s : pystr) : path :=
  let rel := lstrip_slashes s in
  {| root := match (List.length s - List.length rel)%nat with
             | O => []
             | 2%nat => u8 "//"
             | _ => u8 "/"
             end;
     parts := filter is_part (split_slashes [] rel) |}.

(** [p / s]: a rooted [s] replaces [p]. *)
Definition joinpath (p : path) (s : pystr) : path :=
  let q := parse_path s in
  match root q with
  | [] => {| root := root p; parts := parts p ++ parts q |}
  | _ => q
  end.

(** [str(p)] *)
Definition path_str (p : path) : pystr :=
  match root p, parts p with
  | [], [] => u8 "."
  | r, ps => r ++ join (u8 "/") ps
  end.

(** [CACHE_DIR = Path.home() / ".cache" / "mcp-kr-legislation"] *)
Definition CACHE_DIR (w : world) : path :=
  joinpath (joinpath (parse_path (home w)) (u8 ".cache")) (u8 "mcp-kr-legislation").

(** [get_cache_key(law_id, section)]; [None] when [encode] raises. *)
Definition get_cache_key (law_id section : pystr) : option pystr :=
  let key_string := law_id ++ u8 "_" ++ section in
  option_map md5_hexdigest (utf8_encode key_string).

(** [get_cache_path(cache_key)], as text *)
Definition get_cache_path (w : world) (cache_key : pystr) : pystr :=
  path_str (joinpath (CACHE_DIR w) (cache_key ++ u8 ".json")).

(** [is_cache_valid(cache_path)] *)
Definition is_cache_valid (w : world) (cache_path : pystr) : bool :=
  match lookup_file cache_path (files w) with
  | None => false
  | Some f =>
      let expiry_time := now w - timedelta_days CACHE_DAYS in
      expiry_time <? file_time f
  end.

(** [load_from_cache(cache_key)]: the value returned ([PNone] is Python's
    [None]) and the machine afterwards.  Every exception inside is caught
    and gives [None]: so does the one of [unlink] on an expired file that
    cannot be removed, and the file stays. *)
Definition load_from_cache (w : world) (cache_key : pystr) : pyval * world :=
  let cache_file := get_cache_path w cache_key in
  match lookup_file cache_file (files w) with
  | None => (PNone, w)
  | Some f =>
      if negb (is_cache_valid w cache_file) then
        (PNone,
         if removable w then with_files w (unlink cache_file (files w)) else w)
      else
        match parsed f with
        | Some (PDict cache_data) =>
            (dict_get_default (u8 "data") PNone cache_data, w)
        | _ => (PNone, w)
        end
  end.

(** *** Writing the cache *)

(** [json.dump(v, f, ensure_ascii=False, indent=2)] and [json.load] are
    the library's: [json_reload v] is what [json.load] gives on the file
    that was opened for writing and given to [json.dump] with [v]; [None]
    when the writing raises (the file is then cut short and no JSON
    document) or the reading does. *)
Class JsonLib : Type := { json_reload : pyval -> option pyval }.

(** Every [str] inside the value can be written as UTF-8. *)
Fixpoint encodable (v : pyval) : bool :=
  let ok (s : pystr) := match utf8_encode s with Some _ => true | None => false end in
  match v with
  | PStr s => ok s
  | PList l => forallb encodable l
  | PDict d => forallb (fun kv => ok (fst kv) && encodable (snd kv)) d
  | _ => true
  end.

(** [open(path, 'w')] and writing: the file is replaced or created. *)
Fixpoint write_file (path : pystr) (f : file) (fs : list (pystr * file))
  : list (pystr * file) :=
  match fs with
  | [] => [(path, f)]
  | (p, g) :: rest =>
      if pystr_eqb path p then (p, f) :: rest else (p, g) :: write_file path f rest
  end.

(** [path.touch()]: a new empty file, or a new time on the old one. *)
Definition touch (w : world) (path : pystr) : list (pystr * file) :=
  match lookup_file path (files w) with
  | Some f => write_file path {| file_time := now w; parsed := parsed f |} (files w)
  | None => write_file path {| file_time := now w; parsed := None |} (files w)
  end.

(** [ensure_cache_dir()]: makes the directory and tries it with the file
    [.test]; when [unlink] raises, that file stays. *)
Definition ensure_cache_dir (w : world) : bool * world :=
  let test_file := path_str (joinpath (CACHE_DIR w) (u8 ".test")) in
  if writable w then
    if removable w
    then (true, with_files w (unlink test_file (touch w test_file)))
    else (false, with_files w (touch w test_file))
  else (false, w).

(** [save_to_cache(cache_key, data)]; [timestamp] is the text of
    [datetime.now().isoformat()].  An exception while writing is caught. *)
Definition save_to_cache {J : JsonLib} (timestamp : pystr) (w : world)
    (cache_key : pystr) (data : pyval) : world :=
  match ensure_cache_dir w with
  | (false, w') => w'
  | (true, w') =>
      let cache_file := get_cache_path w' cache_key in
      let cache_data :=
        PDict [(u8 "timestamp", PStr timestamp); (u8 "data", data)] in
      with_files w'
        (write_file cache_file
           {| file_time := now w'; parsed := json_reload cache_data |}
           (files w'))
  end.

(** The same machine at a later time *)
Definition at_time (t : datetime) (w : world) : world :=
  {| home := home w; now := t; files := files w;
     writable := writable w; removable := removable w |}.

(** A character of [0-9a-f] *)
Definition is_lower_hex (c : Z) : bool :=
  ((48 <=? c) && (c <=? 57)) || ((97 <=? c) && (c <=? 102)).

(** The library on values it reads back as they were written: those
    whose strings can be encoded and whose integers are within the limit
    of digits. *)
Definition json_basic : JsonLib :=
  {| json_reload := fun v => if encodable v && printable v then Some v else None |}.

(** A machine with one cache file, written eight days ago: the entry of
    [get_cache_key("eflaw_248613", "full")]. *)
Definition week_old_key : pystr := u8 "305e8c55a72462ac1a69773dae8a4a44".

Definition week_old_file : file :=
  {| file_time := 1700000000000000 - timedelta_days 8;
     parsed := Some (PDict [(u8 "timestamp", PStr (u8 "2023-11-06T22:13:20"));
                            (u8 "data", PDict [])]) |}.

Definition week_old_world : world :=
  {| home := u8 "/home/user";
     now := 1700000000000000;
     files :=
       [ (u8 "/home/user/.cache/mcp-kr-legislation/305e8c55a72462ac1a69773dae8a4a44.json",
          week_old_file) ];
     writable := true;
     removable := true |}.


End Cache.
Import Cache.

(* ================================================================== *)
(** ** law_tools.py: the search-result formatter                        *)
(* ================================================================== *)

Module Formatter.

Local Open Scope Z_scope.

(** What [_make_legislation_request("law", {"query": q, "display": 5},
    is_detail=False)] gives while the formatter runs: the decoded
    response, or [None] when the request raises.  It is decided by the
    upstream service and the network, not by the formatter's arguments. *)
Definition upstream : Type := pyval -> option pydict.

Definition cat (parts : list pystr) : pystr := List.concat parts.

(** [sorted(l, key=...)] on keys [(rank, title)]: stable, by [<] on
    tuples. *)
Definition key_ltb (a b : Z * pystr) : bool :=
  (fst a <? fst b) || ((fst a =? fst b) && str_ltb (snd a) (snd b)).

Fixpoint insert_sorted {A : Type} (x : (Z * pystr) * A)
    (l : list ((Z * pystr) * A)) : list ((Z * pystr) * A) :=
  match l with
  | [] => [x]
  | y :: rest =>
      if key_ltb (fst y) (fst x) then y :: insert_sorted x rest
      else x :: y :: rest
  end.

Definition sorted_by_key {A : Type} (l : list ((Z * pystr) * A)) : list A :=
  map snd (fold_right insert_sorted [] l).

(** [a] does not come after [b] in the order of the keys. *)
Definition in_order {A : Type} (a b : (Z * pystr) * A) : Prop :=
  key_ltb (fst b) (fst a) = false.

(** [for x in l: body], the body returning or raising *)
Fixpoint for_each {A S : Type} (body : S -> A -> outcome S) (l : list A) (s : S)
  : outcome S :=
  match l with
  | [] => Ok s
  | x :: rest => s' <- body s x ;; for_each body rest s'
  end.

Section WithRuntime.
Context {R : Runtime}.

Definition target_is (target : pystr) (name : string) : bool := pystr_eqb target (u8 name).

Definition target_in (target : pystr) (names : list string) : bool :=
  str_in target (map u8 names).

Definition committee_targets : list string :=
  ["ppc"; "fsc"; "ftc"; "acr"; "nlrc"; "ecc"; "sfc"; "nhrck"; "kcc";
   "iaciac"; "oclt"; "eiac"]%string.

Definition special_targets : list string :=
  ["thdCmp"; "licbyl"; "trty"; "lsRlt"; "ordinfd"; "ordin"; "admrul";
   "admrulOldAndNew"; "lnkLsOrd"; "prec"; "expc"; "decc"; "couseLs"]%string.

(** [data[root].get(key, [])] *)
Definition under (data : pydict) (root key : string) : outcome pyval :=
  py_get (dict_get_default (u8 root) PNone data) (u8 key) (PList []).

(** [_find_mst_from_law_id(law_id, item)]; every exception inside gives
    [None]. *)
Definition find_mst_in_laws (law_id : pyval) (laws : list pyval) : option pystr :=
  let matches (law : pyval) : option pystr :=
    match law with
    | PDict d =>
        let found_id :=
          py_str (dict_get_default (u8 "법령ID")
                    (dict_get_default (u8 "ID") (PStr []) d) d) in
        if pystr_eqb found_id (py_str law_id) then
          let mst := dict_get_default (u8 "법령일련번호")
                       (dict_get_default (u8 "MST") (PStr []) d) d in
          if truthy mst then Some (py_str mst) else None
        else None
    | _ => None
    end in
  fold_right (fun law later =>
                match matches law with Some m => Some m | None => later end)
             None laws.

Definition _find_mst_from_law_id (net : upstream) (law_id item : pyval)
  : option pystr :=
  match item with
  | PDict d =>
      let law_name :=
        py_or (dict_get_default (u8 "법령명한글") PNone d)
          (py_or (dict_get_default (u8 "법령명") PNone d)
             (py_or (dict_get_default (u8 "삼단비교법령명") PNone d)
                    (dict_get_default (u8 "3단비교법령명") PNone d))) in
      if negb (truthy law_name) then None
      else
        match tools_clean_html_tags law_name with
        | Raise _ => None
        | Ok law_name_clean =>
            match net law_name_clean with
            | None => None
            | Some search_data =>
                match dict_get (u8 "LawSearch") search_data with
                | None => None
                | Some (PDict law_search) =>
                    let laws := dict_get_default (u8 "law") (PList []) law_search in
                    let laws :=
                      match laws with
                      | PList l => l
                      | _ => if truthy laws then [laws] else []
                      end in
                    find_mst_in_laws law_id laws
                | Some _ => None
                end
            end
        end
  | _ => None
  end.

(** ['root' in data] *)
Definition data_has (data : pydict) (root : string) : bool := dict_mem (u8 root) data.

(** [target_data = data[root].get(key, [])] *)
Definition data_get (data : pydict) (root key : string) : outcome (pyval + pystr) :=
  v <- under data root key ;; Ok (inl v).

(** Lines 602-755: which part of the response holds the results.  The
    right side is the text returned at once for [lsJoHstInf]. *)
Definition select_target_data
    (history : pydict -> pystr -> pystr)
    (data : pydict) (target search_query : pystr) : outcome (pyval + pystr) :=
  if target_is target "oldAndNew" && data_has data "OldAndNewLawSearch" then
    data_get data "OldAndNewLawSearch" "oldAndNew"
  else if target_is target "thdCmp" && data_has data "thdCmpLawSearch" then
    data_get data "thdCmpLawSearch" "thdCmp"
  else if target_is target "licbyl" && data_has data "licBylSearch" then
    data_get data "licBylSearch" "licbyl"
  else if target_is target "trty" && data_has data "TrtySearch" then
    data_get data "TrtySearch" "Trty"
  else if target_is target "lsRlt" && data_has data "lsRltSearch" then
    law_item <- py_get (dict_get_default (u8 "lsRltSearch") PNone data)
                  (u8 "법령") (PDict []) ;;
    match law_item with
    | PDict ((_ :: _) as d) =>
        match dict_get_default (u8 "관련법령") (PList []) d with
        | PList related_laws => Ok (inl (PList related_laws))
        | _ => Ok (inl (PList []))
        end
    | _ => Ok (inl (PList []))
    end
  else if target_is target "lsRlt" && data_has data "Law" then
    Ok (inl (PList []))
  else if target_is target "ordinfd" && data_has data "ordinFdList" then
    data_get data "ordinFdList" "ordinFd"
  else if target_is target "ordin" && data_has data "OrdinSearch" then
    data_get data "OrdinSearch" "law"
  else if target_is target "admrul" && data_has data "AdmRulSearch" then
    data_get data "AdmRulSearch" "admrul"
  else if target_is target "admrulOldAndNew" && data_has data "OldAndNewLawSearch" then
    v <- under data "OldAndNewLawSearch" "oldAndNew" ;;
    match v with
    | PList _ => Ok (inl v)
    | _ => Ok (inl (PList []))
    end
  else if target_is target "lnkLsOrd" && data_has data "OrdinSearch" then
    data_get data "OrdinSearch" "law"
  else if target_is target "prec" && data_has data "PrecSearch" then
    data_get data "PrecSearch" "prec"
  else if target_is target "expc" && data_has data "Expc" then
    data_get data "Expc" "expc"
  else if target_is target "decc" && data_has data "Decc" then
    data_get data "Decc" "decc"
  else if target_is target "couseLs" && data_has data "맞춤형분류" then
    law_data <- py_get (dict_get_default (u8 "맞춤형분류") PNone data)
                  (u8 "법령") (PDict []) ;;
    Ok (inl (PList (if truthy law_data then [law_data] else [])))
  else if data_has data "LawSearch" && negb (target_in target special_targets) then
    let law_search := dict_get_default (u8 "LawSearch") PNone data in
    if target_in target
         ["elaw"; "eflaw"]%string then data_get data "LawSearch" "law"
    else if target_is target "eflawjosub" then data_get data "LawSearch" "eflawjosub"
    else if target_in target
         ["lsHstInf"; "lsHistory"; "lnkLs"; "lsAbrv"; "delHst"]%string
      then data_get data "LawSearch" "law"
    else if target_in target committee_targets || target_is target "detc" then
      v <- py_get law_search target (PList []) ;;
      match v with
      | PStr _ => Ok (inl (PList []))
      | _ => Ok (inl v)
      end
    else
      v <- py_get law_search target (PList []) ;; Ok (inl v)
  else if data_has data "LawService" then
    let service_data := dict_get_default (u8 "LawService") PNone data in
    if target_is target "lsJoHstInf" then Ok (inr (history data search_query))
    else
      v <- py_get service_data target (PList []) ;;
      match v with
      | PList _ => Ok (inl v)
      | _ => Ok (inl (PList (if truthy v then [v] else [])))
      end
  else if data_has data "법령" then
    match dict_get_default (u8 "법령") PNone data with
    | PDict d =>
        match dict_get (u8 "조문") d with
        | Some articles => Ok (inl articles)
        | None => Ok (inl (PList [PDict d]))
        end
    | v => Ok (inl v)
    end
  else if dict_mem target data then
    Ok (inl (dict_get_default target PNone data))
  else
    match data with
    | [(_, v)] => Ok (inl v)
    | _ => Ok (inl (PList []))
    end.

(** Lines 757-772: anything but a list becomes a list. *)
Definition as_list (target_data : pyval) : list pyval :=
  match target_data with
  | PList l => l
  | PDict d => [PDict d]
  | _ => []
  end.

(** Lines 774-781: the text returned when there is nothing to show.
    [totalCnt] is shown as the response has it, whatever its type: for an
    [int] beyond the limit of digits the f-string raises. *)
Definition no_results (data : pydict) (target search_query : pystr)
  : outcome pystr :=
  if dict_mem (u8 "LawSearch") data then
    match dict_get_default (u8 "LawSearch") PNone data with
    | PDict law_search =>
        let available_keys := PList (map PStr (dict_keys law_search)) in
        let total_cnt := dict_get_default (u8 "totalCnt") (PInt 0) law_search in
        if printable total_cnt then
          Ok (cat [ u8 "'"; search_query; u8 "'에 대한 검색 결과 파싱 실패."; NL; NL;
                    u8 "**디버깅 정보:**"; NL;
                    u8 "- 총 "; py_str total_cnt; u8 "건 검색됨"; NL;
                    u8 "- 사용 가능한 키: "; py_str available_keys; NL;
                    u8 "- 타겟: "; target; NL; NL;
                    u8 "**해결방법:** _format_search_results 함수의 타겟 처리 로직을 확인하세요." ])
        else Raise (DigitLimit None)
    | v => Raise (AttributeError (type_of v) (u8 "keys"))
    end
  else
    Ok (cat [ u8 "'"; search_query; u8 "'에 대한 검색 결과가 없습니다." ]).

(** Lines 789-812: exact matches of the query first, for law searches. *)
Definition sort_key (query_normalized : pystr) (item : pyval)
  : outcome (Z * pystr) :=
  match item with
  | PDict d =>
      let title :=
        py_or (dict_get_default (u8 "법령명한글") (PStr []) d)
          (py_or (dict_get_default (u8 "법령명") (PStr []) d)
             (py_or (dict_get_default (u8 "법령명영문") (PStr []) d)
                    (PStr []))) in
      match title with
      | PStr title =>
          let title_normalized := str_lower (remove_spaces title) in
          let title_normalized := sub_tags false title_normalized in
          if pystr_eqb title_normalized query_normalized then Ok (0, title)
          else if starts_with query_normalized title_normalized then Ok (1, title)
          else if contains query_normalized title_normalized then Ok (2, title)
          else Ok (3, title)
      | v => Raise (AttributeError (type_of v) (u8 "replace"))
      end
  | _ => Ok (3, [])
  end.

Definition sort_for_law_search (target search_query : pystr)
    (target_data : list pyval) : outcome (list pyval) :=
  if target_in target ["law"; "elaw"; "eflaw"]%string then
    let query_normalized := str_lower (remove_spaces search_query) in
    keyed <- map_outcome (fun item =>
               k <- sort_key query_normalized item ;; Ok (k, item)) target_data ;;
    Ok (sorted_by_key keyed)
  else Ok target_data.

End WithRuntime.

(** *** One result (lines 823-1113) *)

Definition title_keys : list pystr :=
  map u8 [ "법령명한글"; "법령명"; "제목"; "title"; "명칭"; "name";
           "현행법령명"; "법령명국문"; "국문법령명"; "lawNm"; "lawName";
           "법령명전체"; "법령제목"; "lawTitle";
           "신구법명";
           "법령약칭명";
           "조약명한글"; "조약명";
           "별표명"; "서식명"; "별표서식명";
           "삼단비교법령명"; "3단비교법령명";
           "관련법령명"; "기준법령명";
           "분류명";
           "행정규칙명";
           "신구법명";
           "자치법규명";
           "안건명";
           "사건명";
           "재판사건명" ]%string.

Definition detail_fields : list (pystr * list pystr) :=
  map (fun e => (u8 (fst e), map u8 (snd e)))
  [ ("법령ID", ["법령ID"; "ID"; "lawId"; "mstSeq"]);
    ("법령일련번호", ["법령일련번호"; "MST"; "mst"; "lawMst"; "법령MST"; "일련번호"]);
    ("신구법일련번호", ["신구법일련번호"; "신구법MST"]);
    ("행정규칙일련번호", ["행정규칙일련번호"; "행정규칙MST"]);
    ("조약일련번호", ["조약일련번호"; "조약MST"]);
    ("자치법규일련번호", ["자치법규일련번호"; "자치법규MST"]);
    ("법령약칭명", ["법령약칭명"; "약칭명"; "abbreviation"]);
    ("공포일자", ["공포일자"; "date"; "announce_date"; "공포일"; "promulgateDate"; "공포년월일"]);
    ("시행일자", ["시행일자"; "ef_date"; "effective_date"; "시행일"; "enforceDate"; "시행년월일"]);
    ("삭제일자", ["삭제일자"]);
    ("구분명", ["구분명"]);
    ("소관부처명", ["소관부처명"; "ministry"; "department"; "소관부처"; "ministryNm"; "주무부처"]);
    ("법령구분명", ["법령구분명"; "type"; "law_type"; "법령구분"; "lawType"; "법령종류"]);
    ("제개정구분명", ["제개정구분명"; "revision"; "제개정구분"; "revisionType"; "개정구분"]) ]%string.

Definition three_way_fields : list (pystr * list pystr) :=
  map (fun e => (u8 (fst e), map u8 (snd e)))
  [ ("인용조문수", ["인용조문수"; "인용조문"; "citationCount"; "citation"]);
    ("위임조문수", ["위임조문수"; "위임조문"; "delegationCount"; "delegation"]);
    ("상위법령명", ["상위법령명"; "상위법령"; "upperLaw"; "parentLaw"]);
    ("하위법령명", ["하위법령명"; "하위법령"; "lowerLaw"; "childLaw"]);
    ("비교일자", ["비교일자"; "비교일"; "comparisonDate"; "compareDate"]) ]%string.

Definition three_way_mst_keys : list pystr :=
  map u8 [ "법령일련번호"; "MST"; "mst"; "lawMst"; "법령MST";
           "일련번호"; "법령일련번호(MST)"; "법령일련번호MST";
           "thdCmpMST"; "3단비교MST"; "비교법령일련번호";
           "법령일련번호MST"; "법령일련번호_MST" ]%string.

Section WithRuntime.
Context {R : Runtime}.

(** The loop over [title_keys]: the first key with a truthy value whose
    text is not blank. *)
Fixpoint title_from_keys (item : pyval) (keys : list pystr) : outcome pyval :=
  match keys with
  | [] => Ok PNone
  | key :: rest =>
      x <- present item key ;;
      match x with
      | Some v =>
          match strip (py_str v) with
          | [] => title_from_keys item rest
          | title => Ok (PStr title)
          end
      | None => title_from_keys item rest
      end
  end.

(** [target == name and key in item] *)
Definition target_and_in (target : pystr) (name : string) (key : string)
    (item : pyval) : outcome bool :=
  if target_is target name then py_in (u8 key) item else Ok false.

(** Lines 846-865.  The variable [title] keeps its value from the result
    before when the [couseLs] branch assigns nothing; [None] stands for a
    variable not yet assigned. *)
Definition choose_title (target : pystr) (item : pyval)
    (title : option pyval) : outcome (option pyval) :=
  custom <- target_and_in target "couseLs" "기본정보" item ;;
  if custom then
    basic_info <- py_item item (u8 "기본정보") ;;
    match basic_info with
    | PDict d =>
        Ok (Some (py_or (dict_get_default (u8 "법령명한글") (PStr []) d)
                        (dict_get_default (u8 "법령명") (PStr []) d)))
    | _ => Ok title
    end
  else
    english <- (if target_is target "elaw"
                then present item (u8 "법령명영문") else Ok None) ;;
    match english with
    | Some name =>
        title <- py_sub_tags name ;;
        korean <- present item (u8 "법령명한글") ;;
        match korean with
        | Some k =>
            korean_title <- py_sub_tags k ;;
            Ok (Some (PStr (cat [title; u8 " ("; korean_title; u8 ")"])))
        | None => Ok (Some (PStr title))
        end
    | None =>
        t <- title_from_keys item title_keys ;;
        Ok (Some t)
    end.

(** Reading the local variable [title] *)
Definition read_title (title : option pyval) : outcome pyval :=
  match title with
  | Some v => Ok v
  | None => Raise (UnboundLocal (u8 "title"))
  end.

(** Lines 867-886: the title line added to [result], and [title]
    afterwards. *)
Definition title_line (target : pystr) (item : pyval) (title : option pyval)
  : outcome (pystr * option pyval) :=
  t <- read_title title ;;
  t <- (if negb (truthy t) && target_is target "delHst" then
          kind <- py_get item (u8 "구분명") (PStr (u8 "법령")) ;;
          serial <- py_get item (u8 "일련번호") (PStr []) ;;
          Ok (PStr (cat [ u8 "삭제된 "; py_str kind; u8 " (일련번호: ";
                          py_str serial; u8 ")" ]))
        else Ok t) ;;
  let t :=
    if negb (truthy t) then
      let available_keys :=
        match item with PDict d => dict_keys d | _ => [] end in
      let potential_title_keys :=
        filter (fun k => (contains (u8 "법령") k
                          || contains (u8 "title") (str_lower k))
                         && negb (pystr_eqb k (u8 "구분명")))
               available_keys in
      match potential_title_keys, item with
      | k :: _, PDict d => PStr (strip (py_str (dict_get_default k (PStr []) d)))
      | _, _ => t
      end
    else t in
  let line :=
    if truthy t then cat [py_str t; u8 "**"; NL]
    else cat [u8 "제목 없음**"; NL] in
  Ok (line, Some t).

(** [list(dict.fromkeys(raw_value))] needs every element hashable. *)
Fixpoint all_hashable (l : list pyval) : outcome unit :=
  match l with
  | [] => Ok tt
  | x :: rest => _ <- hashable x ;; all_hashable rest
  end.

(** Lines 940-959: the text shown for a field; empty when nothing is
    shown. *)
Definition field_value (display_name : pystr) (raw_value : pyval)
  : outcome pystr :=
  if pystr_eqb display_name (u8 "소관부처명") then
    match raw_value with
    | PList l =>
        _ <- all_hashable l ;;
        match l with
        | first :: _ => Ok (strip (py_str first))
        | [] => Ok []
        end
    | PStr s =>
        if contains (u8 ",") s then
          let parts :=
            filter (fun p => match p with [] => false | _ => true end)
                   (map strip (split_commas [] s)) in
          match parts with
          | first :: _ => Ok first
          | [] => Ok []
          end
        else Ok (strip s)
    | _ => Ok (strip (py_str raw_value))
    end
  else Ok (strip (py_str raw_value)).

(** Lines 916-962: one detail field *)
Definition detail_line (target : pystr) (item : pyval)
    (result : pystr) (field : pystr * list pystr) : outcome pystr :=
  let '(display_name, field_keys) := field in
  custom <- target_and_in target "couseLs" "기본정보" item ;;
  raw_value <-
    (if custom then
       basic_info <- py_item item (u8 "기본정보") ;;
       match basic_info with
       | PDict _ => first_present basic_info field_keys
       | _ => Ok None
       end
     else first_present item field_keys) ;;
  match raw_value with
  | Some raw =>
      value <- field_value display_name raw ;;
      match value with
      | [] => Ok result
      | _ => Ok (cat [result; u8 "   "; display_name; u8 ": "; value; NL])
      end
  | None => Ok result
  end.

(** A line [   상세조회: tool(arg="id")] *)
Definition lookup_hint (tool arg : string) (id : pyval) : pystr :=
  cat [ u8 "   상세조회: "; u8 tool; u8 "("; u8 arg; u8 "="; DQ; py_str id; DQ;
        u8 ")"; NL ].

(** The hint of the targets with a serial number of their own: that
    number when the item has one, else [law_id]. *)
Definition own_or_law_id (tool arg : string) (keys : list string)
    (item law_id : pyval) : outcome pystr :=
  own <- first_present item (map u8 keys) ;;
  match own with
  | Some id => Ok (lookup_hint tool arg id)
  | None => Ok (lookup_hint tool arg law_id)
  end.

(** The loop over [mst_keys] of the three-way comparison: [thd_mst] is
    the last text assigned, and the loop stops at the first that is not
    empty. *)
Fixpoint three_way_mst (item : pyval) (keys : list pystr) (thd_mst : pystr)
  : outcome pystr :=
  match keys with
  | [] => Ok thd_mst
  | key :: rest =>
      x <- present item key ;;
      match x with
      | Some v =>
          match strip (py_str v) with
          | [] => three_way_mst item rest []
          | m => Ok m
          end
      | None => three_way_mst item rest thd_mst
      end
  end.

(** Lines 1049-1095 *)
Definition three_way_hint (net : upstream) (item law_id : pyval) : outcome pystr :=
  thd_mst <- three_way_mst item three_way_mst_keys [] ;;
  '(thd_mst, note) <-
    match thd_mst with
    | _ :: _ => Ok (thd_mst, [])
    | [] =>
        let thd_mst :=
          if truthy law_id then
            match _find_mst_from_law_id net law_id item with
            | Some m => m
            | None => []
            end
          else [] in
        match thd_mst with
        | _ :: _ => Ok (thd_mst, [])
        | [] =>
            a <- py_get_none item (u8 "법령명한글") ;;
            b <- py_get_none item (u8 "법령명") ;;
            c <- py_get_none item (u8 "삼단비교법령명") ;;
            d <- py_get_none item (u8 "3단비교법령명") ;;
            let law_name := py_or a (py_or b (py_or c d)) in
            if truthy law_name then
              law_name_clean <- tools_clean_html_tags law_name ;;
              Ok ([], cat [ u8 "   참고: MST를 찾기 위해 법령명으로 검색 중..."; NL;
                            u8 "   → `search_law("; DQ; py_str law_name_clean; DQ;
                            u8 ")`로 MST 확인 후 사용"; NL ])
            else
              Ok ([], cat [ u8 "   참고: 상세조회용 일련번호를 확인할 수 없습니다."; NL ])
        end
    end ;;
  match thd_mst with
  | _ :: _ =>
      Ok (cat [ note;
                u8 "   • 법령일련번호(MST): "; thd_mst; NL;
                u8 "   상세조회: get_three_way_comparison_detail(mst="; DQ; thd_mst; DQ;
                u8 ", knd=1)  # 인용조문"; NL;
                u8 "   상세조회: get_three_way_comparison_detail(mst="; DQ; thd_mst; DQ;
                u8 ", knd=2)  # 위임조문"; NL ])
  | [] => Ok note
  end.

(** Lines 964-1099: the hint for the next call *)
Definition next_call_hint (net : upstream) (target : pystr) (item : pyval)
  : outcome pystr :=
  mst <- first_present item (map u8 ["법령일련번호"; "MST"; "mst"; "lawMst"]%string) ;;
  law_id <-
    (if target_is target "lsRlt"
     then first_present item (map u8 ["관련법령ID"; "법령ID"; "ID"; "lawId"]%string)
     else first_present item (map u8 ["법령ID"; "ID"; "id"; "lawId"]%string)) ;;
  let law_id := match law_id with Some v => v | None => PNone end in
  if target_is target "oldAndNew" then
    comparison_mst <-
      first_present item (map u8 ["신구법일련번호"; "신구법MST"; "MST"]%string) ;;
    match comparison_mst with
    | Some id => Ok (lookup_hint "get_old_and_new_law_detail" "mst" id)
    | None => Ok (cat [ u8 "   참고: 상세조회용 일련번호를 확인할 수 없습니다."; NL ])
    end
  else if target_is target "admrulOldAndNew" then
    own_or_law_id "get_administrative_rule_comparison_detail" "comparison_id"
      ["신구법일련번호"; "신구법MST"]%string item law_id
  else if target_is target "admrul" then
    own_or_law_id "get_administrative_rule_detail" "rule_id"
      ["행정규칙일련번호"; "행정규칙MST"]%string item law_id
  else if target_is target "trty" then
    own_or_law_id "get_treaty_detail" "treaty_id"
      ["조약일련번호"; "조약MST"]%string item law_id
  else if target_is target "lnkLsOrd" then
    own_or_law_id "get_local_ordinance_detail" "ordinance_id"
      ["자치법규일련번호"; "자치법규MST"]%string item law_id
  else if target_is target "delHst" then
    del_seq <- py_get item (u8 "일련번호") (PStr []) ;;
    if truthy del_seq then
      Ok (cat [ u8 "   참고: 삭제된 법령입니다. 일련번호 "; py_str del_seq;
                u8 "로 복원 필요 시 법제처에 문의하세요."; NL ])
    else Ok []
  else if target_is target "thdCmp" then
    three_way_hint net item law_id
  else
    match mst with
    | Some id => Ok (lookup_hint "get_law_detail" "mst" id)
    | None =>
        if truthy law_id then Ok (lookup_hint "get_law_detail" "law_id" law_id)
        else Ok []
    end.

(** [for x in v]: the values the loop sees *)
Definition py_iter (v : pyval) : outcome (list pyval) :=
  match v with
  | PList l => Ok l
  | PDict d => Ok (map PStr (dict_keys d))
  | PStr s => Ok (map (fun c => PStr [c]) s)
  | _ => Raise (ObjectNotIterable (type_of v))
  end.

(** Lines 1101-1111: the articles of a custom classification *)
Definition related_articles (target : pystr) (item : pyval) : outcome pystr :=
  custom <- target_and_in target "couseLs" "조문" item ;;
  if custom then
    articles <- py_item item (u8 "조문") ;;
    b <- py_in (u8 "조문단위") articles ;;
    if b then
      article_units <- py_item articles (u8 "조문단위") ;;
      if truthy article_units then
        n <- py_len article_units ;;
        units <- py_iter article_units ;;
        for_each (fun result article =>
                    article_no <- py_get article (u8 "조문번호") (PStr []) ;;
                    article_title <- py_get article (u8 "조문제목") (PStr []) ;;
                    Ok (cat [ result; u8 "- 제"; py_str article_no; u8 "조: ";
                              py_str article_title; NL ]))
                 units
                 (cat [ NL; u8 "**관련 조문** ("; decimal n; u8 "개):"; NL ])
      else Ok []
    else Ok []
  else Ok [].

(** The body of the loop [for i, item in enumerate(limited_data, 1)].
    The state is [result], the local variable [title] and [i]. *)
Definition format_item (net : upstream) (target : pystr)
    (state : pystr * option pyval * Z) (item : pyval)
  : outcome (pystr * option pyval * Z) :=
  let '(result, title, i) := state in
  let result := cat [result; u8 "**"; decimal i; u8 ". "] in
  title <- choose_title target item title ;;
  '(line, title) <- title_line target item title ;;
  let result := result ++ line in
  result <- for_each (detail_line target item)
              (if target_is target "thdCmp"
               then detail_fields ++ three_way_fields else detail_fields)
              result ;;
  hint <- next_call_hint net target item ;;
  articles <- related_articles target item ;;
  Ok (cat [result; hint; articles; NL], title, i + 1).

(** The result carries a serial number under ["법령일련번호"] whose text is
    not blank. *)
Definition has_serial_number (item : pyval) : bool :=
  match item with
  | PDict d =>
      match dict_get (u8 "법령일련번호") d with
      | Some v =>
          truthy v && match strip (py_str v) with [] => false | _ => true end
      | None => false
      end
  | _ => false
  end.

(** The [try] block of [_format_search_results] *)
Definition format_search_results_body
    (history : pydict -> pystr -> pystr) (net : upstream)
    (data : pydict) (target search_query : pystr) (max_results : Z)
  : outcome pystr :=
  selected <- select_target_data history data target search_query ;;
  match selected with
  | inr text => Ok text
  | inl target_data =>
      match as_list target_data with
      | [] => no_results data target search_query
      | target_data =>
          target_data <- sort_for_law_search target search_query target_data ;;
          let limited_data := slice_to max_results target_data in
          let total_count := len target_data in
          let result :=
            cat [ u8 "**'"; search_query; u8 "' 검색 결과** (총 ";
                  decimal total_count; u8 "건";
                  (if max_results <? total_count
                   then cat [u8 ", 상위 "; decimal max_results; u8 "건 표시"]
                   else []);
                  u8 ")"; NL; NL ] in
          '(result, _, _) <- for_each (format_item net target) limited_data
                               (result, None, 1) ;;
          Ok (if max_results <? total_count
              then cat [ result;
                         u8 "더 많은 결과가 있습니다. 검색어를 구체화하거나 페이지 번호를 조정해보세요.";
                         NL ]
              else result)
      end
  end.

End WithRuntime.

(** *** [_format_law_service_history] (lines 307-479) *)

(** [a == b] for the values a dict can have as keys; the JSON decoder
    gives one and the same object for every NaN. *)
Definition number_of (v : pyval) : option (Z * Z) :=
  match v with
  | PBool b => Some (if b then 1 else 0, 0)
  | PInt z => Some (z, 0)
  | PFloat (FFinite m e) => Some (m, e)
  | _ => None
  end.

Definition key_eqb (a b : pyval) : bool :=
  match a, b with
  | PStr s, PStr t => pystr_eqb s t
  | PNone, PNone => true
  | PFloat (FInf x), PFloat (FInf y) => Bool.eqb x y
  | PFloat FNaN, PFloat FNaN => true
  | _, _ =>
      match number_of a, number_of b with
      | Some (m, e), Some (n, f) =>
          let k := Z.min e f in
          m * 2 ^ (e - k) =? n * 2 ^ (f - k)
      | _, _ => false
      end
  end.

(** [counts[key] = counts.get(key, 0) + 1] *)
Fixpoint count_up (key : pyval) (counts : list (pyval * Z)) : list (pyval * Z) :=
  match counts with
  | [] => [(key, 1)]
  | (k, n) :: rest =>
      if key_eqb key k then (k, n + 1) :: rest else (k, n) :: count_up key rest
  end.

(** [sorted(counts.items(), key=lambda x: x[1], reverse=True)]: stable,
    largest count first. *)
Fixpoint insert_count (x : pyval * Z) (l : list (pyval * Z)) : list (pyval * Z) :=
  match l with
  | [] => [x]
  | y :: rest =>
      if snd x <? snd y then y :: insert_count x rest
      else x :: y :: rest
  end.

Definition sorted_counts (l : list (pyval * Z)) : list (pyval * Z) :=
  fold_right insert_count [] l.

(** [sorted(years, reverse=True)] on a set of strings *)
Fixpoint insert_year (x : pystr) (l : list pystr) : list pystr :=
  match l with
  | [] => [x]
  | y :: rest =>
      if pystr_eqb x y then l
      else if str_ltb x y then y :: insert_year x rest
      else x :: l
  end.

Definition sorted_years (years : list pystr) : list pystr :=
  fold_right insert_year [] years.

Definition rule60 : pystr := repeat 61 60.

Section WithRuntime.
Context {R : Runtime}.

(** The nested function [get_context_by_period(year, change_type)] *)
Definition get_context_by_period (year change_type : pyval) : outcome pystr :=
  year_int <-
    match year with
    | PStr y =>
        if str_isdigit y then
          match py_int year with
          | Some n => Ok n
          | None => Raise (IntFailed year)
          end
        else Ok 2024
    | _ => Raise (AttributeError (type_of year) (u8 "isdigit"))
    end ;;
  let change_is (name : pystr) :=
    match change_type with PStr s => pystr_eqb s name | _ => false end in
  Ok (if change_is (u8 "제정") then
        if year_int <=? 1960 then u8 "국가 기본 법제 체계 구축 시기"
        else if year_int <=? 1980 then u8 "경제 발전과 사회 변화에 따른 법제 정비"
        else if year_int <=? 2000 then u8 "민주화와 국제화에 따른 법제 현대화"
        else u8 "디지털 시대와 글로벌 기준에 맞춘 새로운 법적 근거 마련"
      else if change_is (u8 "전부개정") then
        if year_int <=? 1980 then u8 "사회경제 구조 변화에 따른 법령 체계 전면 재편"
        else if year_int <=? 2000 then u8 "국제 기준 부합과 규제 합리화를 위한 전면 개정"
        else u8 "4차 산업혁명과 디지털 전환에 따른 법체계 혁신"
      else if change_is (u8 "일부개정") then
        if 2020 <=? year_int then u8 "COVID-19 대응 및 디지털 뉴딜 정책 반영"
        else if 2010 <=? year_int then u8 "규제 개선과 국민 편의 증진을 위한 부분 개정"
        else u8 "법령 운용상 나타난 문제점 보완 및 개선"
      else u8 "법령 적용상 문제점 해결 또는 명확화").

(** [f"{d[:4]}-{d[4:6]}-{d[6:8]}" if len(d) == 8 else d], as shown *)
Definition formatted_date (d : pyval) : outcome pystr :=
  n <- py_len d ;;
  if n =? 8 then
    a <- py_slice d 0 4 ;;
    b <- py_slice d 4 6 ;;
    c <- py_slice d 6 8 ;;
    Ok (cat [py_str a; u8 "-"; py_str b; u8 "-"; py_str c])
  else Ok (py_str d).

(** The first loop: entries with a key already seen are dropped.  The
    state is [seen_entries] and [unique_history], the latter reversed. *)
Definition keep_unique (state : list pystr * list pyval) (item : pyval)
  : outcome (list pystr * list pyval) :=
  let '(seen_entries, unique_history) := state in
  law_info <- py_get item (u8 "법령정보") (PDict []) ;;
  mst <- py_get law_info (u8 "법령일련번호") (PStr []) ;;
  effective_date <- py_get law_info (u8 "시행일자") (PStr []) ;;
  revision_type <- py_get law_info (u8 "제개정구분명") (PStr []) ;;
  let duplicate_key :=
    cat [py_str mst; u8 "_"; py_str effective_date; u8 "_"; py_str revision_type] in
  if str_in duplicate_key seen_entries then Ok state
  else Ok (duplicate_key :: seen_entries, item :: unique_history).

(** The key of the sort: [x.get('조문정보', {}).get('조문변경일', '')] *)
Definition history_key (item : pyval) : outcome (pyval * pyval) :=
  info <- py_get item (u8 "조문정보") (PDict []) ;;
  k <- py_get info (u8 "조문변경일") (PStr []) ;;
  Ok (k, item).

(** One entry of the history *)
Definition history_entry (state : pystr * Z) (item : pyval) : outcome (pystr * Z) :=
  let '(result, i) := state in
  article_info <- py_get item (u8 "조문정보") (PDict []) ;;
  law_info <- py_get item (u8 "법령정보") (PDict []) ;;
  reason <- py_get article_info (u8 "변경사유") (PStr []) ;;
  changed <- py_get article_info (u8 "조문변경일") (PStr []) ;;
  article_no <- py_get article_info (u8 "조문번호") (PStr []) ;;
  mst <- py_get law_info (u8 "법령일련번호") (PStr []) ;;
  effective <- py_get law_info (u8 "시행일자") (PStr []) ;;
  revision <- py_get law_info (u8 "제개정구분명") (PStr []) ;;
  promulgated <- py_get law_info (u8 "공포일자") (PStr []) ;;
  ministry <- py_get law_info (u8 "소관부처명") (PStr []) ;;
  formatted_changed <- formatted_date changed ;;
  formatted_effective <- formatted_date effective ;;
  formatted_promulgated <- formatted_date promulgated ;;
  n <- py_len changed ;;
  change_year <- (if 4 <=? n then py_slice changed 0 4 else Ok (PStr (u8 "2024"))) ;;
  _ <- hashable reason ;;
  let change_info :=
    match reason with
    | PStr r =>
        dict_get_default r
          (PDict [(u8 "icon", PStr (u8 "[변경]")); (u8 "desc", PStr (u8 "조문 변경"))])
          CHANGE_DETAILS
    | _ => PDict [(u8 "icon", PStr (u8 "[변경]")); (u8 "desc", PStr (u8 "조문 변경"))]
    end in
  icon <- py_item change_info (u8 "icon") ;;
  desc <- py_item change_info (u8 "desc") ;;
  context <- get_context_by_period change_year reason ;;
  let result :=
    cat [ result;
          u8 "**"; decimal i; u8 ". "; py_str icon; u8 " "; py_str reason;
          u8 "** ("; formatted_changed; u8 ")"; NL;
          u8 "   변경 배경: "; context; NL;
          u8 "   시행일자: "; formatted_effective; NL;
          u8 "   제개정구분: "; py_str revision; NL;
          u8 "   공포일자: "; formatted_promulgated; NL;
          (if truthy ministry
           then cat [u8 "   소관부처: "; py_str ministry; NL] else []);
          u8 "   법령일련번호: "; py_str mst; NL ] in
  link <- py_get article_info (u8 "조문링크") (PStr []) ;;
  result <-
    (if truthy link then
       head <- py_slice article_no 0 4 ;;
       match py_int head with
       | Some k =>
           Ok (cat [ result;
                     u8 "   상세조회: get_law_article_by_key(mst="; DQ; py_str mst; DQ;
                     u8 ", target="; DQ; u8 "eflaw"; DQ;
                     u8 ", article_key="; DQ; u8 "제"; decimal k; u8 "조"; DQ;
                     u8 ")"; NL ])
       | None => Raise (IntFailed head)
       end
     else Ok result) ;;
  Ok (result ++ NL, i + 1).

(** The second pass over the sorted history: the years and the kinds of
    change.  [years] holds each year once. *)
Definition tally (state : list pystr * list (pyval * Z)) (item : pyval)
  : outcome (list pystr * list (pyval * Z)) :=
  let '(years, change_types) := state in
  article_info <- py_get item (u8 "조문정보") (PDict []) ;;
  changed <- py_get article_info (u8 "조문변경일") (PStr []) ;;
  reason <- py_get article_info (u8 "변경사유") (PStr []) ;;
  n <- py_len changed ;;
  years <-
    (if 4 <=? n then
       y <- py_slice changed 0 4 ;;
       match y with
       | PStr y => Ok (if str_in y years then years else years ++ [y])
       | _ => Raise (Unhashable (type_of y))
       end
     else Ok years) ;;
  if truthy reason then
    _ <- hashable reason ;;
    Ok (years, count_up reason change_types)
  else Ok (years, change_types).

(** The [try] block of [_format_law_service_history] *)
Definition format_law_service_history_body (data : pydict) (search_query : pystr)
  : outcome pystr :=
  match dict_get (u8 "LawService") data with
  | None =>
      Ok (cat [ u8 "'"; search_query; u8 "'에 대한 조문 변경이력을 찾을 수 없습니다."; NL;
                NL;
                u8 "대안 방법:"; NL;
                u8 "1. **법령ID 확인**: search_law("; DQ; u8 "법령명"; DQ;
                u8 ")로 정확한 법령ID 확인"; NL;
                u8 "2. **조번호 형식**: 6자리 형식 사용 (예: "; DQ; u8 "000100"; DQ;
                u8 "은 제1조)"; NL;
                u8 "3. **버전 비교**: compare_law_versions("; DQ; u8 "법령명"; DQ;
                u8 ")로 전체 변경 내역 확인" ])
  | Some service_data =>
      law_name <- py_get service_data (u8 "법령명한글") (PStr (u8 "법령명 없음")) ;;
      law_id <- py_get service_data (u8 "법령ID") (PStr []) ;;
      total <- py_get service_data (u8 "totalCnt") (PInt 0) ;;
      total_count <- match py_int total with
                     | Some n => Ok n
                     | None => Raise (IntFailed total)
                     end ;;
      history_list <- py_get service_data (u8 "law") (PList []) ;;
      '(history_list, total_count) <-
        (if truthy history_list then
           entries <- py_iter history_list ;;
           '(_, unique_history) <- for_each keep_unique entries ([], []) ;;
           Ok (rev unique_history, len unique_history)
         else Ok ([], total_count)) ;;
      match history_list with
      | [] =>
          Ok (cat [ u8 "'"; search_query; u8 "'에 대한 변경이력이 없습니다."; NL;
                    NL;
                    u8 "**데이터 부재 원인 분석**:"; NL;
                    u8 "- 해당 조문이 제정 이후 변경되지 않았을 가능성"; NL;
                    u8 "- 법령ID나 조번호 형식 오류 가능성"; NL;
                    u8 "- 최근 제정된 법령으로 변경 이력이 짧을 가능성"; NL;
                    NL;
                    u8 "**추천 대안**:"; NL;
                    u8 "1. **전체 법령 버전 비교**: compare_law_versions("; DQ;
                    py_str law_name; DQ; u8 ")"; NL;
                    u8 "2. **법령 연혁 검색**: search_law_history("; DQ;
                    py_str law_name; DQ; u8 ")"; NL;
                    u8 "3. **조문 내용 확인**: get_law_article_by_key(mst="; DQ;
                    py_str law_id; DQ; u8 ", article_key="; DQ; u8 "제N조"; DQ;
                    u8 ")" ])
      | _ =>
          let result :=
            cat [ u8 "**"; py_str law_name; u8 " 조문 변경이력** (총 ";
                  decimal total_count; u8 "건)"; NL;
                  u8 "**검색조건:** "; search_query; NL;
                  u8 "🏛️ **법령ID:** "; py_str law_id; NL;
                  rule60; NL; NL ] in
          keyed <- map_outcome history_key history_list ;;
          sorted_history <-
            match sorted_reverse keyed with
            | Some l => Ok l
            | None => Raise (SortFailed (map fst keyed))
            end ;;
          '(result, _) <- for_each history_entry sorted_history (result, 1) ;;
          let result :=
            cat [ result; NL; rule60; NL; u8 "**정책 변화 패턴 분석:**"; NL ] in
          '(years, change_types) <- for_each tally sorted_history ([], []) ;;
          let result :=
            match years with
            | [] => result
            | _ =>
                let recent_years := firstn 3 (sorted_years years) in
                cat [ result; u8 "- 활발한 개정 기간: ";
                      join (u8 ", ") recent_years; u8 "년"; NL ]
            end in
          let result :=
            match change_types with
            | [] => result
            | _ =>
                let main_changes := firstn 2 (sorted_counts change_types) in
                cat [ result; u8 "- 주요 변경 유형: ";
                      join (u8 ", ")
                        (map (fun kv => cat [ py_str (fst kv); u8 "(";
                                              decimal (snd kv); u8 "회)" ])
                             main_changes);
                      NL ]
            end in
          Ok (cat [ result;
                    u8 "- 법무 영향: 조문 변경에 따른 업무 프로세스 재검토 필요"; NL;
                    u8 "- 리스크 평가: 변경 내용의 소급 적용 및 경과 조치 확인 권장"; NL;
                    NL; u8 "**활용 가이드:**"; NL;
                    u8 "• 특정 시점의 조문 내용: get_law_article_by_key(mst="; DQ;
                    u8 "법령일련번호"; DQ; u8 ", target="; DQ; u8 "eflaw"; DQ;
                    u8 ", article_key="; DQ; u8 "조문번호"; DQ; u8 ")"; NL;
                    u8 "• 법령 전체 버전 비교: compare_law_versions("; DQ;
                    py_str law_name; DQ; u8 ")"; NL;
                    u8 "• 관련 해석**: search_law_interpretation("; DQ;
                    py_str law_name; DQ; u8 ")"; NL;
                    NL; u8 "**과도기 적용 주의사항:**"; NL;
                    u8 "- 개정 법령의 소급 적용 여부 및 경과 조치 확인 필수"; NL;
                    u8 "- 시행일 이전 체결된 계약 등에 대한 적용 기준 검토"; NL;
                    u8 "- 관련 하위 법령(시행령, 시행규칙) 개정 일정 확인"; NL ])
      end
  end.

(** [_format_law_service_history(data, search_query)] *)
Definition _format_law_service_history (data : pydict) (search_query : pystr)
  : pystr :=
  match format_law_service_history_body data search_query with
  | Ok text => text
  | Raise e =>
      cat [ u8 "'"; search_query; u8 "' 조문 변경이력 포맷팅 중 오류가 발생했습니다: ";
            exn_message e ]
  end.

(** [_format_search_results(data, target, search_query, max_results)] *)
Definition _format_search_results (net : upstream) (data : pydict)
    (target search_query : pystr) (max_results : Z) : pystr :=
  match format_search_results_body _format_law_service_history net
          data target search_query max_results with
  | Ok text => text
  | Raise e => cat [u8 "검색 결과 처리 중 오류가 발생했습니다: "; exn_message e]
  end.

End WithRuntime.

(** *** A runtime for the examples

    The messages are CPython 3.11's.  [repr], [lower], [isdigit], [int]
    and [sorted] are exact on the plain ASCII strings and the integers of
    the examples; the cleaner of the missing module is taken to be the one
    of [response_cleaner.py], and [CHANGE_DETAILS] to be empty. *)

Definition type_name (t : pytype) : pystr :=
  match t with
  | TNone => u8 "NoneType"
  | TBool => u8 "bool"
  | TInt => u8 "int"
  | TFloat => u8 "float"
  | TStr => u8 "str"
  | TList => u8 "list"
  | TDict => u8 "dict"
  end.

Definition quoted (s : pystr) : pystr := cat [u8 "'"; s; u8 "'"].

Definition basic_lower (s : pystr) : pystr :=
  map (fun c => if (65 <=? c) && (c <=? 90) then c + 32 else c) s.

Definition basic_isdigit (s : pystr) : bool :=
  match s with
  | [] => false
  | _ => forallb is_digit s
  end.

Definition basic_int (v : pyval) : option Z :=
  match v with
  | PInt z => Some z
  | PBool b => Some (if b then 1 else 0)
  | PStr s => if basic_isdigit s then Some (int_of_digits 10 s) else None
  | _ => None
  end.

Fixpoint insert_descending (x : pyval * pyval) (l : list (pyval * pyval))
  : list (pyval * pyval) :=
  match l with
  | [] => [x]
  | y :: rest =>
      match fst x, fst y with
      | PStr a, PStr b =>
          if str_ltb a b then y :: insert_descending x rest else x :: l
      | _, _ => x :: l
      end
  end.

Definition basic_sorted_reverse (keyed : list (pyval * pyval)) : option (list pyval) :=
  if forallb (fun kv => match fst kv with PStr _ => true | _ => false end) keyed
  then Some (map snd (fold_right insert_descending [] keyed))
  else None.

Definition basic_message (e : exn) : pystr :=
  match e with
  | AttributeError t attr =>
      cat [quoted (type_name t); u8 " object has no attribute "; quoted attr]
  | KeyError key => quoted key
  | ArgumentNotIterable t =>
      cat [u8 "argument of type "; quoted (type_name t); u8 " is not iterable"]
  | ObjectNotIterable t => cat [quoted (type_name t); u8 " object is not iterable"]
  | StringIndex => u8 "string indices must be integers, not 'str'"
  | ListIndex => u8 "list indices must be integers or slices, not str"
  | NotSubscriptable t => cat [quoted (type_name t); u8 " object is not subscriptable"]
  | Unhashable t => cat [u8 "unhashable type: "; quoted (type_name t)]
  | UnhashableSlice => u8 "unhashable type: 'slice'"
  | ExpectedString t =>
      cat [u8 "expected string or bytes-like object, got "; quoted (type_name t)]
  | NoLen t => cat [u8 "object of type "; quoted (type_name t); u8 " has no len()"]
  | UnboundLocal name =>
      cat [ u8 "cannot access local variable "; quoted name;
            u8 " where it is not associated with a value" ]
  | IntFailed (PStr s) =>
      cat [u8 "invalid literal for int() with base 10: "; quoted s]
  | IntFailed v =>
      cat [ u8 "int() argument must be a string, a bytes-like object or a real number, not ";
            quoted (type_name (type_of v)) ]
  | SortFailed _ => u8 "'<' not supported between instances"
  | DigitLimit None =>
      u8 "Exceeds the limit (4300 digits) for integer string conversion; use sys.set_int_max_str_digits() to increase the limit"
  | DigitLimit (Some n) =>
      cat [ u8 "Exceeds the limit (4300 digits) for integer string conversion: value has ";
            decimal n;
            u8 " digits; use sys.set_int_max_str_digits() to increase the limit" ]
  | LibraryError message => message
  end.

Definition basic_runtime : Runtime :=
  {| repr_str := quoted;
     repr_float := fun _ => u8 "nan";
     str_lower := basic_lower;
     str_isdigit := basic_isdigit;
     py_int := basic_int;
     sorted_reverse := basic_sorted_reverse;
     exn_message := basic_message;
     tools_clean_html_tags := clean_html_tags (H := html_basic);
     CHANGE_DETAILS := [] |}.

(** *** Two states of the upstream, and a three-way comparison result
        without a serial number *)

Definition upstream_answering : upstream :=
  fun _ =>
    Some [ (u8 "LawSearch",
            PDict [ (u8 "law",
                     PList [ PDict [ (u8 "법령ID", PStr (u8 "001706"));
                                     (u8 "법령일련번호", PStr (u8 "253527"));
                                     (u8 "법령명한글", PStr (u8 "민법")) ] ]) ]) ].

Definition upstream_failing : upstream := fun _ => None.

Definition three_way_response : pydict :=
  [ (u8 "thdCmpLawSearch",
     PDict [ (u8 "thdCmp",
              PList [ PDict [ (u8 "법령ID", PStr (u8 "001706"));
                              (u8 "법령명한글", PStr (u8 "민법")) ] ]) ]) ].

Definition law_response : pydict :=
  [ (u8 "LawSearch",
     PDict [ (u8 "law",
              PList [ PDict [ (u8 "법령ID", PStr (u8 "001706"));
                              (u8 "법령일련번호", PStr (u8 "253527"));
                              (u8 "법령명한글", PStr (u8 "민법")) ] ]) ]) ].

Definition committee_string_response : pydict :=
  [ (u8 "LawSearch",
     PDict [ (u8 "totalCnt", PStr (u8 "0"));
             (u8 "ppc", PStr (u8 "검색 결과가 없습니다")) ]) ].

Definition three_way_response_with_serial : pydict :=
  [ (u8 "thdCmpLawSearch",
     PDict [ (u8 "thdCmp",
              PList [ PDict [ (u8 "법령ID", PStr (u8 "001706"));
                              (u8 "법령일련번호", PStr (u8 "253527"));
                              (u8 "법령명한글", PStr (u8 "민법")) ] ]) ]) ].

Definition related_law_message : pydict :=
  [ (u8 "Law", PStr (u8 "일치하는 관련법령이 없습니다")) ].

Definition history_with_bad_total : pydict :=
  [ (u8 "LawService",
     PDict [ (u8 "totalCnt", PStr (u8 "many"));
             (u8 "law", PList [PDict [(u8 "조문정보", PDict [])]]) ]) ].

End Formatter.
Import Formatter.

(* ================================================================== *)
(** ** Facts about strings and dicts                                    *)
(* ================================================================== *)

Section PyFacts.

Local Open Scope Z_scope.

Lemma pystr_eqb_refl (s : pystr) : pystr_eqb s s = true.
Proof.
  induction s as [|c s IH]; simpl; [reflexivity|].
  now rewrite Z.eqb_refl.
Qed.

Lemma pystr_eqb_eq (a b : pystr) : pystr_eqb a b = true <-> a = b.
Proof.
  split.
  - revert b; induction a as [|x a IH]; intros [|y b]; simpl; try discriminate; auto.
    intros E. apply andb_true_iff in E as [E1 E2].
    apply Z.eqb_eq in E1. f_equal; auto.
  - intros ->. apply pystr_eqb_refl.
Qed.

Lemma pystr_eqb_neq (a b : pystr) : pystr_eqb a b = false <-> a <> b.
Proof.
  rewrite <- pystr_eqb_eq. destruct (pystr_eqb a b); split; congruence.
Qed.

Lemma dict_get_head (k : pystr) (v : pyval) (d : pydict) :
  dict_get k ((k, v) :: d) = Some v.
Proof. simpl. now rewrite pystr_eqb_refl. Qed.

Lemma dict_get_skip (k k' : pystr) (v : pyval) (d : pydict) :
  pystr_eqb k k' = false -> dict_get k ((k', v) :: d) = dict_get k d.
Proof. intros E. simpl. now rewrite E. Qed.

End PyFacts.

(* ================================================================== *)
(** ** The envelope resolver                                            *)
(* ================================================================== *)

Section ResolverFacts.

Local Open Scope Z_scope.

Lemma str_in_In (x : pystr) (l : list pystr) : In x l -> str_in x l = true.
Proof.
  intros HIn. unfold str_in. apply existsb_exists.
  exists x. split; [assumption | apply pystr_eqb_refl].
Qed.

Lemma map_lookup_In (m : list (pystr * (pystr * pystr))) :
  distinct (map fst m) = true ->
  forall t e, In (t, e) m -> map_lookup t m = Some e.
Proof.
  induction m as [|[t0 e0] m IH]; simpl; intros D t e HIn; [contradiction|].
  apply andb_true_iff in D as [D1 D2].
  destruct HIn as [E | HIn].
  - inversion E; subst. now rewrite pystr_eqb_refl.
  - destruct (pystr_eqb t t0) eqn:E.
    + apply pystr_eqb_eq in E; subst t0.
      apply (in_map fst) in HIn. simpl in HIn.
      apply str_in_In in HIn. rewrite HIn in D1. discriminate.
    + now apply IH.
Qed.

Lemma map_lookup_sound (m : list (pystr * (pystr * pystr))) :
  forall t e, map_lookup t m = Some e -> In (t, e) m.
Proof.
  induction m as [|[t0 e0] m IH]; simpl; intros t e L; [discriminate|].
  destruct (pystr_eqb t t0) eqn:E.
  - apply pystr_eqb_eq in E. inversion L; subst. now left.
  - right. now apply IH.
Qed.

Lemma table_targets_distinct : distinct (map fst RESPONSE_STRUCTURE_MAP) = true.
Proof. vm_compute. reflexivity. Qed.

Lemma table_entries_ok : forallb table_entry_ok RESPONSE_STRUCTURE_MAP = true.
Proof. vm_compute. reflexivity. Qed.

Lemma table_entry_facts (t o i : pystr) :
  In (t, (o, i)) RESPONSE_STRUCTURE_MAP ->
  t <> [] /\ pystr_eqb (u8 "Law") o = false.
Proof.
  intros HIn.
  pose proof table_entries_ok as A.
  rewrite forallb_forall in A. specialize (A _ HIn).
  unfold table_entry_ok in A. simpl in A.
  apply andb_true_iff in A as [A1 A2].
  split.
  - intros ->. discriminate.
  - now apply negb_true_iff.
Qed.

(** Each pass returns the length of what it returns. *)
Lemma try_target_count (result : pydict) (target : option pystr) items n e :
  try_target result target = Some (items, n, e) -> n = len items /\ e = None.
Proof.
  unfold try_target.
  destruct target as [[|c t]|]; try discriminate.
  destruct (map_lookup (c :: t) RESPONSE_STRUCTURE_MAP) as [[o i]|]; try discriminate.
  destruct (envelope_items result o i); try discriminate.
  intros E; inversion E; subst. split; reflexivity.
Qed.

Lemma try_all_structures_count (result : pydict) (values : list (pystr * pystr))
    items n e :
  try_all_structures result values = Some (items, n, e) ->
  n = len items /\ e = None /\ items <> [].
Proof.
  induction values as [|[o i] values IH]; simpl; [discriminate|].
  destruct (envelope_items result o i) as [[|x l]|]; auto.
  intros E; inversion E; subst. repeat split; discriminate.
Qed.

Lemma try_direct_count (result : pydict) (keys : list pystr) items n e :
  try_direct result keys = Some (items, n, e) -> n = len items /\ e = None.
Proof.
  induction keys as [|k keys IH]; simpl; [discriminate|].
  destruct (dict_get k result) as [[]|]; auto;
    intros E; inversion E; subst; split; reflexivity.
Qed.

(** When no string sits under ["Law"] and the target's pass returns, the
    function returns what that pass returns. *)
Lemma extract_by_target (result : pydict) (target : option pystr) (r : extracted) :
  (forall message, dict_get (u8 "Law") result <> Some (PStr message)) ->
  try_target result target = Some r ->
  extract_items_from_response result target = r.
Proof.
  intros NoLaw T. unfold extract_items_from_response.
  destruct result as [|kv result].
  - unfold try_target, envelope_items in T.
    destruct target as [[|c t]|]; try discriminate.
    destruct (map_lookup (c :: t) RESPONSE_STRUCTURE_MAP) as [[o i]|]; discriminate.
  - destruct (dict_get (u8 "Law") (kv :: result)) as [[]|] eqn:L;
      try (now rewrite T).
    exfalso. now apply (NoLaw s).
Qed.

End ResolverFacts.

(* ================================================================== *)
(** ** Properties of [extract_items_from_response] and
       [normalize_response]                                             *)
(* ================================================================== *)

Section ResolverProperties.

Local Open Scope Z_scope.

(** C1.  For every target of [RESPONSE_STRUCTURE_MAP], with envelope
    [(outer_key, inner_key)], the response
    [{outer_key: {inner_key: [r]}}] resolved with that target gives the
    items [[r]], the count 1 and no error. *)
Theorem extract_single_record_envelope :
  forall (target outer_key inner_key : pystr) (r : pyval),
    In (target, (outer_key, inner_key)) RESPONSE_STRUCTURE_MAP ->
    extract_items_from_response
      [(outer_key, PDict [(inner_key, PList [r])])] (Some target)
    = ([r], 1, None).
Proof.
  intros target outer_key inner_key r HIn.
  destruct (table_entry_facts _ _ _ HIn) as [Hne HLaw].
  apply extract_by_target.
  - intros message. rewrite dict_get_skip by exact HLaw. discriminate.
  - unfold try_target.
    destruct target as [|c t]; [congruence|].
    rewrite (map_lookup_In _ table_targets_distinct _ _ HIn).
    unfold envelope_items, dict_get_default.
    now rewrite !dict_get_head.
Qed.

Lemma extract_single_record_envelope_witness :
  In (u8 "prec", (u8 "PrecSearch", u8 "prec")) RESPONSE_STRUCTURE_MAP
  /\ extract_items_from_response
       [(u8 "PrecSearch",
         PDict [(u8 "prec", PList [PDict [(u8 "사건명", PStr (u8 "손해배상"))]])])]
       (Some (u8 "prec"))
     = ([PDict [(u8 "사건명", PStr (u8 "손해배상"))]], 1, None).
Proof.
  split.
  - vm_compute. tauto.
  - apply (extract_single_record_envelope (u8 "prec") (u8 "PrecSearch") (u8 "prec")).
    vm_compute. tauto.
Defined.

(** C2, as the code has it.  For a known target whose [outer_key] is
    present with a mapping as value, the pass over the target's own
    envelope returns [(items, len(items), None)] for every sequence found
    under [inner_key] (a missing key counts as the empty sequence, a single
    mapping is wrapped), empty or not; only a value that is neither a
    sequence nor a mapping lets the resolver go on to the scan of all
    table entries.  With no string under ["Law"], what that pass returns
    is the result of [extract_items_from_response]. *)
Theorem try_target_returns_any_sequence :
  forall (result inner : pydict) (target outer_key inner_key : pystr),
    In (target, (outer_key, inner_key)) RESPONSE_STRUCTURE_MAP ->
    dict_get outer_key result = Some (PDict inner) ->
    try_target result (Some target)
    = match dict_get_default inner_key (PList []) inner with
      | PList items => Some (items, len items, None)
      | PDict item => Some ([PDict item], 1, None)
      | _ => None
      end
    /\ ((forall message, dict_get (u8 "Law") result <> Some (PStr message)) ->
        forall items,
          dict_get_default inner_key (PList []) inner = PList items ->
          extract_items_from_response result (Some target)
          = (items, len items, None)).
Proof.
  intros result inner target outer_key inner_key HIn Hout.
  destruct (table_entry_facts _ _ _ HIn) as [Hne _].
  assert (T : try_target result (Some target)
              = match dict_get_default inner_key (PList []) inner with
                | PList items => Some (items, len items, None)
                | PDict item => Some ([PDict item], 1, None)
                | _ => None
                end).
  { unfold try_target.
    destruct target as [|c t]; [congruence|].
    rewrite (map_lookup_In _ table_targets_distinct _ _ HIn).
    unfold envelope_items. rewrite Hout.
    destruct (dict_get_default inner_key (PList []) inner); reflexivity. }
  split; [exact T|].
  intros NoLaw items Hitems.
  apply extract_by_target; [exact NoLaw|].
  rewrite T, Hitems. reflexivity.
Qed.

Lemma try_target_returns_any_sequence_witness :
  In (u8 "law", (u8 "LawSearch", u8 "law")) RESPONSE_STRUCTURE_MAP
  /\ dict_get (u8 "LawSearch")
       [(u8 "LawSearch", PDict [(u8 "totalCnt", PInt 0); (u8 "law", PList [])])]
     = Some (PDict [(u8 "totalCnt", PInt 0); (u8 "law", PList [])])
  /\ try_target
       [(u8 "LawSearch", PDict [(u8 "totalCnt", PInt 0); (u8 "law", PList [])])]
       (Some (u8 "law"))
     = Some ([], 0, None).
Proof.
  split; [vm_compute; tauto|].
  split; [reflexivity|].
  refine (proj1 (try_target_returns_any_sequence
           [(u8 "LawSearch", PDict [(u8 "totalCnt", PInt 0); (u8 "law", PList [])])]
           [(u8 "totalCnt", PInt 0); (u8 "law", PList [])]
           (u8 "law") (u8 "LawSearch") (u8 "law") _ _)).
  - vm_compute. tauto.
  - reflexivity.
Defined.

(** C2, as stated, fails: with the target ["law"], an empty sequence under
    [LawSearch.law] is returned by the target's own pass, although the
    scan of all table entries would have found a record under
    [PrecSearch.prec]. *)
Lemma try_target_returns_empty_sequence :
  let record := PDict [(u8 "사건명", PStr (u8 "손해배상"))] in
  let result := [(u8 "LawSearch", PDict [(u8 "law", PList [])]);
                 (u8 "PrecSearch", PDict [(u8 "prec", PList [record])])] in
  try_target result (Some (u8 "law")) = Some ([], 0, None)
  /\ extract_items_from_response result (Some (u8 "law")) = ([], 0, None)
  /\ try_all_structures result (map snd RESPONSE_STRUCTURE_MAP)
     = Some ([record], 1, None).
Proof. vm_compute. repeat split. Qed.

(** C3.  The response [{"Ppc": {"ppc": "검색 결과가 없습니다"}}] holds a
    string where the result array of the target ["ppc"] belongs, and no
    other envelope or generic key is present: the resolver returns no
    items together with the parse-failure error. *)
Theorem extract_string_payload_is_parse_failure :
  extract_items_from_response
    [(u8 "Ppc", PDict [(u8 "ppc", PStr (u8 "검색 결과가 없습니다"))])]
    (Some (u8 "ppc"))
  = ([], 0, Some (u8 "데이터 구조 파싱 실패")).
Proof. vm_compute. reflexivity. Qed.

(** C4.  A response with a string under ["Law"] gives no items, the count
    0 and that string as the error, whatever the target. *)
Theorem extract_law_message_is_error :
  forall (result : pydict) (target : option pystr) (message : pystr),
    dict_get (u8 "Law") result = Some (PStr message) ->
    extract_items_from_response result target = ([], 0, Some message).
Proof.
  intros result target message L.
  unfold extract_items_from_response.
  destruct result as [|kv result]; [discriminate|].
  now rewrite L.
Qed.

Lemma extract_law_message_is_error_witness :
  dict_get (u8 "Law") [(u8 "Law", PStr (u8 "일치하는 법령이 없습니다"))]
  = Some (PStr (u8 "일치하는 법령이 없습니다"))
  /\ extract_items_from_response
       [(u8 "Law", PStr (u8 "일치하는 법령이 없습니다"))] (Some (u8 "law"))
     = ([], 0, Some (u8 "일치하는 법령이 없습니다")).
Proof.
  split; [reflexivity|].
  apply (extract_law_message_is_error
           [(u8 "Law", PStr (u8 "일치하는 법령이 없습니다"))]
           (Some (u8 "law")) (u8 "일치하는 법령이 없습니다")).
  reflexivity.
Defined.

(** C10.  The count [extract_items_from_response] returns is the length
    of the items it returns, on every path. *)
Theorem extract_count_is_length :
  forall (result : pydict) (target : option pystr),
    snd (fst (extract_items_from_response result target))
    = len (fst (fst (extract_items_from_response result target))).
Proof.
  intros result target. unfold extract_items_from_response.
  destruct result as [|kv result]; [reflexivity|].
  set (d := kv :: result).
  destruct (dict_get (u8 "Law") d) as [[]|];
    try reflexivity;
    (destruct (try_target d target) as [[[items n] e]|] eqn:T;
     [ apply try_target_count in T as [-> _]; reflexivity |];
     destruct (try_all_structures d (map snd RESPONSE_STRUCTURE_MAP))
       as [[[items n] e]|] eqn:A;
     [ apply try_all_structures_count in A as [-> _]; reflexivity |];
     destruct (try_direct d direct_keys) as [[[items n] e]|] eqn:D;
     [ apply try_direct_count in D as [-> _]; reflexivity | reflexivity ]).
Qed.

(** C5.  In every result of [normalize_response], [success] is
    [total_count > 0]; the call returns a result unless the cleaning it
    was asked for raises. *)
Theorem normalize_success_iff_positive_count :
  forall (H : HtmlLib) (result : pydict) (target : option pystr)
         (clean_html : bool),
    match normalize_response result target clean_html with
    | Ok n => success n = (0 <? total_count n)
    | Raise _ => clean_html = true
    end.
Proof.
  intros H result target clean_html. unfold normalize_response.
  destruct (extract_items_from_response result target) as [[items count] error].
  destruct clean_html; cbn [andb].
  - destruct (truthy (PList items)); cbn [bind]; [|reflexivity].
    destruct (map_outcome clean_search_result items); reflexivity.
  - reflexivity.
Qed.

End ResolverProperties.

(* ================================================================== *)
(** ** The HTML sanitizer                                               *)
(* ================================================================== *)

Section CleanerFacts.

Local Open Scope Z_scope.

Lemma occurs_In (c : Z) (s : pystr) : occurs c s = true <-> In c s.
Proof.
  unfold occurs. rewrite existsb_exists. split.
  - intros [x [HIn E]]. apply Z.eqb_eq in E. now subst.
  - intros HIn. exists c. split; [assumption | apply Z.eqb_refl].
Qed.

Lemma occurs_false_incl (c : Z) (s t : pystr) :
  (forall x, In x t -> In x s \/ x <> c) -> occurs c s = false -> occurs c t = false.
Proof.
  intros Hincl Hs.
  destruct (occurs c t) eqn:Ht; [|reflexivity].
  apply occurs_In in Ht. destruct (Hincl _ Ht) as [HIn | Hne]; [|congruence].
  apply occurs_In in HIn. congruence.
Qed.

(** *** What each step keeps *)

Lemma sub_tags_In (b : bool) (s : pystr) (x : Z) :
  In x (sub_tags b s) -> In x s.
Proof.
  revert b; induction s as [|c s IH]; intros b; simpl; [tauto|].
  destruct b.
  - destruct (c =? GT); intros HIn; right; eapply IH; eassumption.
  - destruct ((c =? LT) && tag_opens s).
    + intros HIn; right; eapply IH; eassumption.
    + simpl. intros [E | HIn]; [now left | right; eapply IH; eassumption].
Qed.

Lemma sub_spaces_In (b : bool) (s : pystr) (x : Z) :
  In x (sub_spaces b s) -> In x s \/ x = SP.
Proof.
  revert b; induction s as [|c s IH]; intros b; simpl; [tauto|].
  destruct (isspace c).
  - destruct b; simpl.
    + intros HIn. destruct (IH _ HIn); auto.
    + intros [E | HIn]; [now right|]. destruct (IH _ HIn); auto.
  - simpl. intros [E | HIn]; [now left; left|]. destruct (IH _ HIn); auto.
Qed.

Lemma lstrip_In (s : pystr) (x : Z) : In x (lstrip s) -> In x s.
Proof.
  induction s as [|c s IH]; simpl; [tauto|].
  destruct (isspace c); [intros HIn; right; auto | simpl; tauto].
Qed.

Lemma rstrip_In (s : pystr) (x : Z) : In x (rstrip s) -> In x s.
Proof.
  induction s as [|c s IH]; simpl; [tauto|].
  destruct (rstrip s) as [|d r].
  - destruct (isspace c); simpl; tauto.
  - simpl in *. intros [E | HIn]; [now left | right; auto].
Qed.

(** *** Tags *)

Lemma tag_opens_false_cases (s : pystr) :
  tag_opens s = false ->
  s = [] \/ (exists r, s = GT :: r) \/ occurs GT s = false.
Proof.
  destruct s as [|d r]; [now left|].
  unfold tag_opens. intros E. apply andb_false_iff in E as [E | E].
  - right; left. apply negb_false_iff, Z.eqb_eq in E. subst. now exists r.
  - right; right. exact E.
Qed.

Lemma tag_opens_no_gt (s : pystr) : occurs GT s = false -> tag_opens s = false.
Proof.
  destruct s as [|d r]; [reflexivity|].
  unfold tag_opens, occurs. intros ->. apply andb_false_r.
Qed.

Lemma tag_opens_sub_tags (s : pystr) :
  tag_opens s = false -> tag_opens (sub_tags false s) = false.
Proof.
  intros E. destruct (tag_opens_false_cases _ E) as [-> | [[r ->] | G]].
  - reflexivity.
  - reflexivity.
  - apply tag_opens_no_gt. revert G. apply occurs_false_incl.
    intros x HIn. left. eapply sub_tags_In; eassumption.
Qed.

Lemma tag_opens_sub_spaces (b : bool) (s : pystr) :
  tag_opens s = false -> tag_opens (sub_spaces b s) = false.
Proof.
  intros E. destruct (tag_opens_false_cases _ E) as [-> | [[r ->] | G]].
  - reflexivity.
  - reflexivity.
  - apply tag_opens_no_gt. revert G. apply occurs_false_incl.
    intros x HIn. destruct (sub_spaces_In _ _ _ HIn) as [H1 | ->]; [now left|].
    right. discriminate.
Qed.

Lemma tag_opens_rstrip (s : pystr) :
  tag_opens s = false -> tag_opens (rstrip s) = false.
Proof.
  intros E. destruct (tag_opens_false_cases _ E) as [-> | [[r ->] | G]].
  - reflexivity.
  - simpl. destruct (rstrip r); reflexivity.
  - apply tag_opens_no_gt. revert G. apply occurs_false_incl.
    intros x HIn. left. now apply rstrip_In.
Qed.

Lemma no_tag_cons (c : Z) (s : pystr) :
  no_tag (c :: s) = true <-> (c = LT -> tag_opens s = false) /\ no_tag s = true.
Proof.
  simpl. rewrite andb_true_iff, negb_true_iff, andb_false_iff.
  split; intros [A B]; split; try assumption.
  - intros ->. destruct A as [A | A]; [discriminate | exact A].
  - destruct (Z.eqb_spec c LT) as [->|]; [right; auto | now left].
Qed.

Lemma no_tag_sub_tags (b : bool) (s : pystr) : no_tag (sub_tags b s) = true.
Proof.
  revert b; induction s as [|c s IH]; intros b; [reflexivity|].
  cbn [sub_tags]. destruct b.
  - destruct (c =? GT); apply IH.
  - destruct ((c =? LT) && tag_opens s) eqn:E; [apply IH|].
    apply no_tag_cons. split; [|apply IH].
    intros ->. apply tag_opens_sub_tags.
    apply andb_false_iff in E as [E | E]; [discriminate | exact E].
Qed.

Lemma sub_tags_no_tag (s : pystr) : no_tag s = true -> sub_tags false s = s.
Proof.
  induction s as [|c s IH]; [reflexivity|].
  intros N. cbn [sub_tags].
  simpl in N. apply andb_true_iff in N as [N1 N2].
  apply negb_true_iff in N1. rewrite N1. f_equal. now apply IH.
Qed.

Lemma no_tag_sub_spaces (b : bool) (s : pystr) :
  no_tag s = true -> no_tag (sub_spaces b s) = true.
Proof.
  revert b; induction s as [|c s IH]; intros b N; [reflexivity|].
  apply no_tag_cons in N as [N1 N2].
  cbn [sub_spaces]. destruct (isspace c) eqn:W.
  - destruct b; [now apply IH|].
    apply no_tag_cons. split; [discriminate | now apply IH].
  - apply no_tag_cons. split; [|now apply IH].
    intros E. apply tag_opens_sub_spaces. auto.
Qed.

Lemma no_tag_lstrip (s : pystr) : no_tag s = true -> no_tag (lstrip s) = true.
Proof.
  induction s as [|c s IH]; [reflexivity|].
  intros N. cbn [lstrip]. destruct (isspace c); [|exact N].
  apply no_tag_cons in N as [_ N]. now apply IH.
Qed.

Lemma no_tag_rstrip (s : pystr) : no_tag s = true -> no_tag (rstrip s) = true.
Proof.
  induction s as [|c s IH]; [reflexivity|].
  intros N. apply no_tag_cons in N as [N1 N2].
  pose proof (IH N2) as IH'.
  pose proof (fun E => tag_opens_rstrip s (N1 E)) as T.
  cbn [rstrip]. destruct (rstrip s) as [|d r].
  - destruct (isspace c); [reflexivity|].
    apply no_tag_cons. split; reflexivity.
  - apply no_tag_cons. split; assumption.
Qed.

(** *** Whitespace *)

Lemma spaced_weaken (s : pystr) : spaced true s = true -> spaced false s = true.
Proof.
  destruct s as [|c s]; [reflexivity|]. simpl.
  destruct (isspace c); [discriminate | tauto].
Qed.

Lemma spaced_sub_spaces (b : bool) (s : pystr) : spaced b (sub_spaces b s) = true.
Proof.
  revert b; induction s as [|c s IH]; intros b; [reflexivity|].
  cbn [sub_spaces]. destruct (isspace c) eqn:W.
  - destruct b; [apply IH|].
    cbn [spaced]. change (isspace SP) with true. cbn. apply IH.
  - cbn [spaced]. rewrite W. apply IH.
Qed.

Lemma sub_spaces_spaced (b : bool) (s : pystr) :
  spaced b s = true -> sub_spaces b s = s.
Proof.
  revert b; induction s as [|c s IH]; intros b N; [reflexivity|].
  cbn [spaced] in N. cbn [sub_spaces]. destruct (isspace c).
  - apply andb_true_iff in N as [N N3]. apply andb_true_iff in N as [N1 N2].
    apply negb_true_iff in N1. apply Z.eqb_eq in N2. subst b c.
    f_equal. now apply IH.
  - f_equal. now apply IH.
Qed.

Lemma spaced_lstrip (s : pystr) :
  spaced false s = true -> spaced false (lstrip s) = true.
Proof.
  induction s as [|c s IH]; [reflexivity|].
  intros N. cbn [lstrip]. destruct (isspace c) eqn:W; [|exact N].
  cbn [spaced] in N. rewrite W in N.
  apply andb_true_iff in N as [_ N]. apply IH. now apply spaced_weaken.
Qed.

Lemma spaced_rstrip (b : bool) (s : pystr) :
  spaced b s = true -> spaced b (rstrip s) = true.
Proof.
  revert b; induction s as [|c s IH]; intros b N; [reflexivity|].
  cbn [spaced] in N. cbn [rstrip].
  destruct (isspace c) eqn:W.
  - apply andb_true_iff in N as [N N3].
    specialize (IH _ N3).
    destruct (rstrip s) as [|d r]; [reflexivity|].
    cbn [spaced]. rewrite W, N. exact IH.
  - specialize (IH _ N).
    destruct (rstrip s) as [|d r].
    + cbn [spaced]. now rewrite W.
    + cbn [spaced]. rewrite W. exact IH.
Qed.

(** *** Stripping *)

Lemma lstrip_starts_clean (s : pystr) : starts_clean (lstrip s) = true.
Proof.
  induction s as [|c s IH]; [reflexivity|].
  cbn [lstrip]. destruct (isspace c) eqn:W; [exact IH|].
  simpl. now rewrite W.
Qed.

Lemma rstrip_starts_clean (s : pystr) :
  starts_clean s = true -> starts_clean (rstrip s) = true.
Proof.
  destruct s as [|c s]; [reflexivity|].
  cbn [starts_clean rstrip]. intros W.
  destruct (rstrip s) as [|d r].
  - apply negb_true_iff in W. rewrite W. cbn [starts_clean]. now rewrite W.
  - exact W.
Qed.

Lemma lstrip_clean (s : pystr) : starts_clean s = true -> lstrip s = s.
Proof.
  destruct s as [|c s]; [reflexivity|].
  simpl. intros W. apply negb_true_iff in W. now rewrite W.
Qed.

Lemma rstrip_rstrip (s : pystr) : rstrip (rstrip s) = rstrip s.
Proof.
  induction s as [|c s IH]; [reflexivity|].
  cbn [rstrip]. destruct (rstrip s) as [|d r] eqn:R.
  - destruct (isspace c) eqn:W; [reflexivity|].
    cbn [rstrip]. now rewrite W.
  - cbn [rstrip]. cbn [rstrip] in IH. now rewrite IH.
Qed.

Lemma strip_strip (s : pystr) : strip (strip s) = strip s.
Proof.
  unfold strip.
  rewrite (lstrip_clean (rstrip (lstrip s))).
  - apply rstrip_rstrip.
  - apply rstrip_starts_clean, lstrip_starts_clean.
Qed.

End CleanerFacts.

Section CharrefFacts.

Local Open Scope Z_scope.

Lemma take_while_prefix (n : nat) (p : Z -> bool) (s : pystr) :
  firstn (List.length (take_while n p s)) s = take_while n p s.
Proof.
  revert s; induction n as [|n IH]; intros [|c s]; try reflexivity.
  cbn [take_while]. destruct (p c); [|reflexivity].
  cbn [List.length firstn]. now rewrite IH.
Qed.

Lemma take_while_class (n : nat) (p : Z -> bool) (s : pystr) :
  forallb p (take_while n p s) = true.
Proof.
  revert s; induction n as [|n IH]; intros [|c s]; try reflexivity.
  cbn [take_while]. destruct (p c) eqn:E; [|reflexivity].
  cbn [forallb]. now rewrite E, IH.
Qed.

Lemma optional_semicolon_cases (t : pystr) :
  (optional_semicolon t = [] \/ optional_semicolon t = [59])
  /\ firstn (List.length (optional_semicolon t)) t = optional_semicolon t.
Proof.
  destruct t as [|c t]; [now split; [left|]|].
  cbn [optional_semicolon]. destruct (Z.eqb_spec c 59) as [->|_].
  - split; [now right | reflexivity].
  - split; [now left | reflexivity].
Qed.

(** What a greedy run with its optional [';'] matches: a prefix of the
    text, made of a non-empty run of the class and at most one [';']. *)
Lemma run_and_semicolon_shape (n : nat) (p : Z -> bool) (s g : pystr) :
  run_and_semicolon n p s = Some g ->
  firstn (List.length g) s = g
  /\ take_while n p s <> []
  /\ (g = take_while n p s \/ g = take_while n p s ++ [59]).
Proof.
  unfold run_and_semicolon.
  pose proof (take_while_prefix n p s) as P.
  pose proof (firstn_skipn (List.length (take_while n p s)) s) as Sp.
  rewrite P in Sp.
  destruct (take_while n p s) as [|c run] eqn:T; [discriminate|].
  intros E.
  assert (G : g = (c :: run)
                  ++ optional_semicolon (skipn (List.length (c :: run)) s))
    by congruence.
  clear E.
  destruct (optional_semicolon_cases (skipn (List.length (c :: run)) s))
    as [Cases Pre].
  set (t := skipn (List.length (c :: run)) s) in *. clearbody t. subst g.
  split; [|split; [discriminate|]].
  - rewrite <- Sp. rewrite length_app, firstn_app_2. now rewrite Pre.
  - destruct Cases as [-> | ->]; [left; now rewrite app_nil_r | now right].
Qed.

Lemma occurs_app (c : Z) (a b : pystr) :
  occurs c (a ++ b) = occurs c a || occurs c b.
Proof. unfold occurs. apply existsb_app. Qed.

Lemma class_without_amp (p : Z -> bool) (run : pystr) :
  p AMP = false -> forallb p run = true -> occurs AMP run = false.
Proof.
  intros NA. induction run as [|c run IH]; [reflexivity|].
  cbn [forallb occurs existsb]. intros F.
  apply andb_true_iff in F as [F1 F2].
  destruct (Z.eqb_spec AMP c) as [<-|_]; [congruence|].
  exact (IH F2).
Qed.

Lemma run_and_semicolon_without_amp (n : nat) (p : Z -> bool) (s g : pystr) :
  p AMP = false -> run_and_semicolon n p s = Some g -> occurs AMP g = false.
Proof.
  intros NA E. apply run_and_semicolon_shape in E as [_ [_ G]].
  pose proof (class_without_amp p _ NA (take_while_class n p s)) as A.
  destruct G as [-> | ->]; [exact A|].
  rewrite occurs_app, A. reflexivity.
Qed.

(** A match of [_charref] is a prefix of the text after the ['&'], and
    holds no ['&']: the next match starts after it. *)
Lemma match_charref_shape (rest g : pystr) :
  match_charref rest = Some g ->
  firstn (List.length g) rest = g /\ occurs AMP g = false.
Proof.
  destruct rest as [|c r1]; [discriminate|].
  cbn [match_charref]. destruct (Z.eqb_spec c 35) as [->|Hc].
  - destruct (run_and_semicolon (List.length r1) is_digit r1) as [m|] eqn:D.
    + intros E. injection E as <-. split.
      * cbn [List.length firstn]. f_equal.
        now apply run_and_semicolon_shape in D as [D _].
      * cbn [occurs existsb]. change (AMP =? 35) with false. cbn [orb].
        exact (run_and_semicolon_without_amp _ is_digit r1 m eq_refl D).
    + destruct r1 as [|x r2]; [discriminate|].
      destruct ((x =? 120) || (x =? 88)) eqn:X; [|discriminate].
      destruct (run_and_semicolon (List.length r2) is_hex r2) as [m|] eqn:Hx;
        [|discriminate].
      intros E. injection E as <-. split.
      * cbn [List.length firstn]. do 2 f_equal.
        now apply run_and_semicolon_shape in Hx as [Hx _].
      * cbn [occurs existsb]. change (AMP =? 35) with false. cbn [orb].
        assert (AMP =? x = false) as ->.
        { apply orb_true_iff in X as [X|X]; apply Z.eqb_eq in X; now subst. }
        cbn [orb]. exact (run_and_semicolon_without_amp _ is_hex r2 m eq_refl Hx).
  - intros E. split.
    + now apply run_and_semicolon_shape in E as [E _].
    + exact (run_and_semicolon_without_amp _ is_name_char (c :: r1) g eq_refl E).
Qed.

Lemma rstrip_semicolon_digits (run : pystr) :
  forallb is_digit run = true ->
  rstrip_semicolon run = run /\ rstrip_semicolon (run ++ [59]) = run.
Proof.
  induction run as [|c run IH]; [now split|].
  cbn [forallb]. intros F. apply andb_true_iff in F as [F1 F2].
  destruct (IH F2) as [IH1 IH2].
  assert (C : c =? 59 = false).
  { unfold is_digit in F1. apply andb_true_iff in F1 as [_ F1].
    apply Z.leb_le in F1. apply Z.eqb_neq. lia. }
  cbn [app rstrip_semicolon]. rewrite IH1, IH2.
  destruct run as [|d run]; rewrite ?C; now split.
Qed.

(** The replacement of a decimal reference raises exactly when the run
    of digits is longer than the limit. *)
Lemma replace_decimal (run g : pystr) :
  run <> [] -> forallb is_digit run = true ->
  g = run \/ g = run ++ [59] ->
  if int_max_str_digits <? len run
  then replace_numeric g = Raise (DigitLimit (Some (len run)))
  else exists r, replace_numeric g = Ok r.
Proof.
  intros Hne F G.
  destruct (rstrip_semicolon_digits run F) as [R1 R2].
  assert (R : rstrip_semicolon g = run) by (destruct G as [-> | ->]; assumption).
  destruct run as [|x run]; [congruence|].
  assert (X : (x =? 120) || (x =? 88) = false).
  { cbn [forallb] in F. apply andb_true_iff in F as [F _].
    unfold is_digit in F. apply andb_true_iff in F as [_ F].
    apply Z.leb_le in F. apply orb_false_iff. split; apply Z.eqb_neq; lia. }
  assert (E : replace_numeric g
              = (num <- int_of_decimal (x :: run) ;;
                 Ok match assoc_Z num invalid_charrefs with
                    | Some v => v
                    | None =>
                        if ((55296 <=? num) && (num <=? 57343)) || (1114111 <? num)
                        then [65533]
                        else if invalid_codepoint num then [] else [num]
                    end)).
  { unfold replace_numeric. rewrite <- R.
    destruct G as [-> | ->]; cbn [app]; now rewrite X. }
  rewrite E. unfold int_of_decimal.
  destruct (int_max_str_digits <? len (x :: run)); cbn [bind];
    [reflexivity | eexists; reflexivity].
Qed.

Lemma replace_hexadecimal (x : Z) (m : pystr) :
  (x =? 120) || (x =? 88) = true -> exists r, replace_numeric (x :: m) = Ok r.
Proof. intros X. unfold replace_numeric. rewrite X. cbn [bind]. eexists; reflexivity. Qed.

Lemma bind_raise {A B : Type} (e : exn) (k : A -> outcome B) :
  bind (Raise e) k = Raise e.
Proof. reflexivity. Qed.

(** [_charref.sub] raises exactly on a text with a decimal reference
    longer than the limit, and then for the first such reference. *)
Lemma charref_sub_first_long (html5 : list (pystr * pystr)) (s : pystr) :
  forall skip : nat,
    occurs AMP (firstn skip s) = false ->
    match first_long_reference s with
    | Some n => charref_sub_with html5 skip s = Raise (DigitLimit (Some n))
    | None => exists t, charref_sub_with html5 skip s = Ok t
    end.
Proof.
  induction s as [|c rest IH]; intros skip Free.
  - destruct skip; cbn; eexists; reflexivity.
  - destruct skip as [|k].
    + clear Free. cbn [charref_sub_with first_long_reference].
      assert (Next : forall g : pystr,
                 firstn (List.length g) rest = g -> occurs AMP g = false ->
                 forall r : pystr,
                 match first_long_reference rest with
                 | Some n =>
                     (t <- charref_sub_with html5 (List.length g) rest ;; Ok (r ++ t))
                     = Raise (DigitLimit (Some n))
                 | None =>
                     exists t',
                       (t <- charref_sub_with html5 (List.length g) rest ;; Ok (r ++ t))
                       = Ok t'
                 end).
      { intros g Pre NoAmp r.
        assert (F : occurs AMP (firstn (List.length g) rest) = false)
          by now rewrite Pre.
        specialize (IH (List.length g) F).
        destruct (first_long_reference rest) as [n|].
        - now rewrite IH.
        - destruct IH as [t ->]. eexists; reflexivity. }
      assert (Plain :
                 match first_long_reference rest with
                 | Some n =>
                     (t <- charref_sub_with html5 0 rest ;; Ok (c :: t))
                     = Raise (DigitLimit (Some n))
                 | None =>
                     exists t',
                       (t <- charref_sub_with html5 0 rest ;; Ok (c :: t)) = Ok t'
                 end).
      { specialize (IH 0%nat eq_refl).
        destruct (first_long_reference rest) as [n|].
        - now rewrite IH.
        - destruct IH as [t ->]. eexists; reflexivity. }
      destruct (c =? AMP); [|exact Plain].
      destruct rest as [|d r1]; [eexists; reflexivity|].
      cbn [match_charref]. destruct (Z.eqb_spec d 35) as [->|Hd]; cbn [andb].
      * destruct (run_and_semicolon (List.length r1) is_digit r1) as [m|] eqn:D.
        -- pose proof (match_charref_shape (35 :: r1) (35 :: m)) as Sh.
           cbn [match_charref] in Sh. rewrite Z.eqb_refl, D in Sh.
           destruct (Sh eq_refl) as [Pre NoAmp].
           apply run_and_semicolon_shape in D as [_ [Hne G]].
           pose proof (replace_decimal _ m Hne
                         (take_while_class (List.length r1) is_digit r1) G) as Rep.
           cbn [replace_charref]. rewrite Z.eqb_refl.
           destruct (int_max_str_digits
                     <? len (take_while (List.length r1) is_digit r1)).
           ++ now rewrite Rep.
           ++ destruct Rep as [r ->]. cbn [bind]. exact (Next _ Pre NoAmp r).
        -- assert (Short : int_max_str_digits
                           <? len (take_while (List.length r1) is_digit r1) = false).
           { unfold run_and_semicolon in D.
             destruct (take_while (List.length r1) is_digit r1); [reflexivity|].
             discriminate. }
           rewrite Short.
           destruct r1 as [|x r2]; [exact Plain|].
           destruct ((x =? 120) || (x =? 88)) eqn:X; [|exact Plain].
           destruct (run_and_semicolon (List.length r2) is_hex r2) as [m|] eqn:Hx;
             [|exact Plain].
           pose proof (match_charref_shape (35 :: x :: r2) (35 :: x :: m)) as Sh.
           cbn [match_charref] in Sh. rewrite Z.eqb_refl in Sh.
           assert (D' : run_and_semicolon (List.length (x :: r2)) is_digit (x :: r2)
                        = None) by exact D.
           rewrite D', X, Hx in Sh. destruct (Sh eq_refl) as [Pre NoAmp].
           cbn [replace_charref]. rewrite Z.eqb_refl.
           destruct (replace_hexadecimal x m X) as [r ->]. cbn [bind].
           exact (Next _ Pre NoAmp r).
      * destruct (run_and_semicolon 32 is_name_char (d :: r1)) as [g|] eqn:N;
          [|exact Plain].
        pose proof (match_charref_shape (d :: r1) g) as Sh.
        cbn [match_charref] in Sh.
        destruct (Z.eqb_spec d 35) as [|_]; [contradiction|].
        destruct (Sh N) as [Pre NoAmp].
        assert (Rep : exists r, replace_charref html5 g = Ok r).
        { destruct g as [|y g']; [eexists; reflexivity|].
          cbn [replace_charref].
          assert (y = d) as ->.
          { cbn [List.length firstn] in Pre. now injection Pre. }
          destruct (Z.eqb_spec d 35) as [|_]; [contradiction|].
          eexists; reflexivity. }
        destruct Rep as [r ->]. cbn [bind]. exact (Next _ Pre NoAmp r).
    + cbn [firstn occurs existsb] in Free.
      apply orb_false_iff in Free as [Fc Free].
      cbn [charref_sub_with first_long_reference].
      rewrite Z.eqb_sym in Fc. rewrite Fc.
      exact (IH k Free).
Qed.

Lemma first_long_reference_without_amp (s : pystr) :
  occurs AMP s = false -> first_long_reference s = None.
Proof.
  induction s as [|c s IH]; [reflexivity|].
  cbn [occurs existsb first_long_reference]. intros F.
  apply orb_false_iff in F as [Fc F].
  rewrite Z.eqb_sym in Fc. rewrite Fc. exact (IH F).
Qed.

End CharrefFacts.

Section CleanerProperties.

Local Open Scope Z_scope.

Context {H : HtmlLib}.

Lemma html_unescape_without_amp (s : pystr) :
  occurs AMP s = false -> html_unescape s = Ok s.
Proof. unfold html_unescape, occurs. now intros ->. Qed.

(** [html.unescape] raises exactly on a text with a decimal reference
    longer than the limit. *)
Lemma html_unescape_first_long (s : pystr) :
  match first_long_reference s with
  | Some n => html_unescape s = Raise (DigitLimit (Some n))
  | None => exists t, html_unescape s = Ok t
  end.
Proof.
  unfold html_unescape. destruct (existsb (Z.eqb AMP) s) eqn:A.
  - exact (charref_sub_first_long html5 s 0 eq_refl).
  - rewrite (first_long_reference_without_amp s A). eexists; reflexivity.
Qed.

Lemma clean_html_tags_without_amp (x : pystr) :
  occurs AMP x = false -> clean_html_tags (PStr x) = Ok (PStr (cleaned x)).
Proof.
  intros A. destruct x as [|c x]; [reflexivity|].
  unfold clean_html_tags, cleaned.
  rewrite html_unescape_without_amp; [reflexivity|].
  revert A. apply occurs_false_incl.
  intros y HIn. left. eapply sub_tags_In; eassumption.
Qed.

Lemma cleaned_without_amp (x : pystr) :
  occurs AMP x = false -> occurs AMP (cleaned x) = false.
Proof.
  apply occurs_false_incl. intros y HIn. unfold cleaned, strip in HIn.
  apply rstrip_In, lstrip_In, sub_spaces_In in HIn.
  destruct HIn as [HIn | ->]; [|right; discriminate].
  left. eapply sub_tags_In; eassumption.
Qed.

(** What [clean_html_tags] returns on a string is a text with its
    whitespace collapsed and stripped. *)
Lemma clean_html_tags_shape (s : pystr) (v : pyval) :
  clean_html_tags (PStr s) = Ok v ->
  exists text2 : pystr, v = PStr (strip (sub_spaces false text2)).
Proof.
  destruct s as [|c s].
  - intros E. injection E as <-. now exists [].
  - unfold clean_html_tags.
    destruct (html_unescape (sub_tags false (c :: s))) as [text2|e];
      cbn [bind]; [|discriminate].
    intros E. injection E as <-. now exists text2.
Qed.

Lemma collapsed_fixed (text2 : pystr) :
  strip (sub_spaces false (strip (sub_spaces false text2)))
  = strip (sub_spaces false text2).
Proof.
  rewrite (sub_spaces_spaced false (strip (sub_spaces false text2))).
  - apply strip_strip.
  - apply spaced_rstrip, spaced_lstrip, spaced_sub_spaces.
Qed.

Lemma clean_html_tags_fixed (x y : pystr) :
  clean_html_tags (PStr x) = Ok (PStr y) ->
  sub_tags false y = y ->
  html_unescape y = Ok y ->
  clean_html_tags (PStr y) = Ok (PStr y).
Proof.
  intros E T U. apply clean_html_tags_shape in E as [text2 E].
  injection E as E.
  destruct y as [|c y]; [reflexivity|].
  unfold clean_html_tags. rewrite T, U. cbn [bind].
  rewrite E. now rewrite collapsed_fixed.
Qed.

(** C6, as the code has it.  [clean_html_tags] is idempotent on every
    string [x] whose cleaned text [y] holds no tag and nothing
    [html.unescape] changes, as is every [y] without ['&']; and the
    documented example holds:
    [clean_html_tags('<strong>민법</strong>') == "민법"]. *)
Theorem clean_html_tags_idempotent_on_decoded_text :
  forall x y : pystr,
    clean_html_tags (PStr x) = Ok (PStr y) ->
    sub_tags false y = y ->
    occurs AMP y = false \/ html_unescape y = Ok y ->
    (v <- clean_html_tags (PStr x) ;; clean_html_tags v)
    = clean_html_tags (PStr x)
    /\ clean_html_tags (PStr (u8 "<strong>민법</strong>"))
       = Ok (PStr (u8 "민법")).
Proof.
  intros x y E T U. split; [|reflexivity].
  assert (U' : html_unescape y = Ok y)
    by (destruct U as [U|U]; [now apply html_unescape_without_amp | exact U]).
  rewrite E. cbn [bind]. exact (clean_html_tags_fixed x y E T U').
Qed.

(** C8, as the code has it.  On a string, [clean_html_tags] returns a
    string unless, once the tags are removed, some ["&#"] is followed by
    more than 4300 decimal digits: then it raises the [ValueError] of
    [int] for the first such reference.  The empty string and [None] give
    the empty string. *)
Theorem clean_html_tags_total_below_digit_limit :
  forall s : pystr,
    match first_long_reference (sub_tags false s) with
    | None => exists t : pystr, clean_html_tags (PStr s) = Ok (PStr t)
    | Some n => clean_html_tags (PStr s) = Raise (DigitLimit (Some n))
    end
    /\ clean_html_tags (PStr []) = Ok (PStr [])
    /\ clean_html_tags PNone = Ok (PStr []).
Proof.
  intros s. split; [|split; reflexivity].
  destruct s as [|c s]; [eexists; reflexivity|].
  unfold clean_html_tags.
  pose proof (html_unescape_first_long (sub_tags false (c :: s))) as U.
  destruct (first_long_reference (sub_tags false (c :: s))) as [n|].
  - now rewrite U.
  - destruct U as [t ->]. cbn [bind]. eexists; reflexivity.
Qed.

End CleanerProperties.

Lemma clean_html_tags_idempotent_on_decoded_text_witness :
  clean_html_tags (H := html_basic) (PStr (u8 "<em>R&amp;D</em>  &quot;법&quot; "))
  = Ok (PStr (u8 "R&D " ++ DQ ++ u8 "법" ++ DQ))
  /\ (v <- clean_html_tags (H := html_basic)
             (PStr (u8 "<em>R&amp;D</em>  &quot;법&quot; ")) ;;
      clean_html_tags (H := html_basic) v)
     = clean_html_tags (H := html_basic)
         (PStr (u8 "<em>R&amp;D</em>  &quot;법&quot; ")).
Proof.
  assert (E : clean_html_tags (H := html_basic)
                (PStr (u8 "<em>R&amp;D</em>  &quot;법&quot; "))
              = Ok (PStr (u8 "R&D " ++ DQ ++ u8 "법" ++ DQ)))
    by (vm_compute; reflexivity).
  split; [exact E|].
  exact (proj1 (clean_html_tags_idempotent_on_decoded_text (H := html_basic)
                  (u8 "<em>R&amp;D</em>  &quot;법&quot; ")
                  (u8 "R&D " ++ DQ ++ u8 "법" ++ DQ)
                  E eq_refl (or_intror eq_refl))).
Defined.

(** C6, as stated, fails: a character reference is decoded after the tags
    are removed, so cleaning ["&lt;b&gt;"] gives ["<b>"], and cleaning
    that again gives the empty string. *)
Lemma clean_html_tags_not_idempotent :
  clean_html_tags (H := html_basic) (PStr (u8 "&lt;b&gt;")) = Ok (PStr (u8 "<b>"))
  /\ (v <- clean_html_tags (H := html_basic) (PStr (u8 "&lt;b&gt;")) ;;
      clean_html_tags (H := html_basic) v) = Ok (PStr [])
  /\ (v <- clean_html_tags (H := html_basic) (PStr (u8 "&lt;b&gt;")) ;;
      clean_html_tags (H := html_basic) v)
     <> clean_html_tags (H := html_basic) (PStr (u8 "&lt;b&gt;")).
Proof. vm_compute. repeat split. discriminate. Qed.

(** C8, as stated, fails: on ["&#"] followed by 4301 digits and [";"]
    the call returns nothing, it raises [ValueError]; with 4300 digits it
    returns the replacement character. *)
Lemma clean_html_tags_raises_on_long_reference :
  clean_html_tags (H := html_basic) (PStr (long_reference 4301))
  = Raise (DigitLimit (Some 4301%Z))
  /\ clean_html_tags (H := html_basic) (PStr (long_reference 4300))
     = Ok (PStr [65533%Z]).
Proof. vm_compute. split; reflexivity. Qed.

(* ================================================================== *)
(** ** The file cache                                                   *)
(* ================================================================== *)

Section CacheProperties.

Local Open Scope Z_scope.

Lemma lookup_unlink_same (path : pystr) (fs : list (pystr * file)) :
  lookup_file path (unlink path fs) = None.
Proof.
  induction fs as [|[p f] fs IH]; [reflexivity|].
  simpl. destruct (pystr_eqb path p) eqn:E; [exact IH|].
  simpl. now rewrite E.
Qed.

Lemma lookup_unlink_other (path p : pystr) (fs : list (pystr * file)) :
  p <> path -> lookup_file p (unlink path fs) = lookup_file p fs.
Proof.
  intros Hne. induction fs as [|[q f] fs IH]; [reflexivity|].
  simpl. destruct (pystr_eqb path q) eqn:E.
  - apply pystr_eqb_eq in E. subst q.
    apply pystr_eqb_neq in Hne. now rewrite Hne.
  - simpl. now rewrite IH.
Qed.


(** *** The digest is 32 hexadecimal digits *)

Lemma le_bytes_length (k : nat) (n : Z) : List.length (le_bytes k n) = k.
Proof. revert n; induction k as [|k IH]; intros n; cbn; [|rewrite IH]; reflexivity. Qed.

Lemma le_bytes_range (k : nat) (n : Z) :
  Forall (fun b => 0 <= b < 256) (le_bytes k n).
Proof.
  revert n; induction k as [|k IH]; intros n; cbn; constructor; [|apply IH].
  change 255 with (Z.ones 8). rewrite Z.land_ones by lia.
  apply Z.mod_pos_bound. lia.
Qed.

Lemma hex_digit_lower (n : Z) : 0 <= n < 16 -> is_lower_hex (hex_digit n) = true.
Proof.
  intros Hn. unfold hex_digit, is_lower_hex.
  destruct (Z.ltb_spec n 10); apply orb_true_iff; [left | right];
    apply andb_true_iff; split; apply Z.leb_le; lia.
Qed.

Lemma hex_of_byte_lower (b : Z) :
  0 <= b < 256 -> forallb is_lower_hex (hex_of_byte b) = true.
Proof.
  intros Hb. unfold hex_of_byte. cbn [forallb].
  rewrite !hex_digit_lower; [reflexivity | |].
  - change 15 with (Z.ones 4). rewrite Z.land_ones by lia.
    apply Z.mod_pos_bound. lia.
  - rewrite Z.shiftr_div_pow2 by lia. change (2 ^ 4) with 16.
    split; [apply Z.div_pos; lia | apply Z.div_lt_upper_bound; lia].
Qed.

Lemma hex_of_bytes (bs : list Z) :
  Forall (fun b => 0 <= b < 256) bs ->
  List.length (flat_map hex_of_byte bs) = (2 * List.length bs)%nat
  /\ forallb is_lower_hex (flat_map hex_of_byte bs) = true.
Proof.
  induction 1 as [|b bs Hb _ [IH1 IH2]]; [split; reflexivity|].
  cbn [flat_map]. rewrite length_app, forallb_app, IH1, IH2.
  rewrite hex_of_byte_lower by exact Hb.
  split; [cbn; lia | reflexivity].
Qed.

Lemma md5_hexdigest_format (msg : list Z) :
  List.length (md5_hexdigest msg) = 32%nat
  /\ forallb is_lower_hex (md5_hexdigest msg) = true.
Proof.
  unfold md5_hexdigest.
  destruct (md5_blocks _ _ _) as [[[a b] c] d].
  assert (Rng : Forall (fun x => 0 <= x < 256)
                  (le_bytes 4 a ++ le_bytes 4 b ++ le_bytes 4 c ++ le_bytes 4 d))
    by (repeat (apply Forall_app; split); apply le_bytes_range).
  destruct (hex_of_bytes _ Rng) as [L Hx].
  split; [|exact Hx].
  rewrite L, !length_app, !le_bytes_length. reflexivity.
Qed.



(** *** The file of a key *)













End CacheProperties.

(* ================================================================== *)
(** ** The search-result formatter                                      *)
(* ================================================================== *)

Section FormatterProperties.

Local Open Scope Z_scope.

Context {R : Runtime}.

Lemma for_each_ext {A S : Type} (f g : S -> A -> outcome S) (l : list A) :
  (forall s x, f s x = g s x) -> forall s, for_each f l s = for_each g l s.
Proof.
  intros E. induction l as [|x l IH]; intros s; [reflexivity|].
  simpl. rewrite E. destruct (g s x); simpl; auto.
Qed.

Lemma find_mst_same_answers (net1 net2 : upstream) (law_id item : pyval) :
  (forall q, net1 q = net2 q) ->
  _find_mst_from_law_id net1 law_id item = _find_mst_from_law_id net2 law_id item.
Proof.
  intros E. unfold _find_mst_from_law_id.
  destruct item as [| | | | | |d]; [reflexivity ..|].
  destruct (negb _); [reflexivity|].
  destruct (tools_clean_html_tags _); [|reflexivity].
  now rewrite E.
Qed.

Lemma next_call_hint_same (target : pystr) (net1 net2 : upstream) (item : pyval) :
  target <> u8 "thdCmp" \/ (forall q, net1 q = net2 q) ->
  next_call_hint net1 target item = next_call_hint net2 target item.
Proof.
  intros S. unfold next_call_hint.
  destruct (first_present item _) as [mst|e]; [|reflexivity]. cbn [bind].
  destruct (if target_is target "lsRlt" then _ else _) as [law_id|e];
    [|reflexivity]. cbn [bind].
  repeat (match goal with
          | |- (if ?c then _ else _) = (if ?c then _ else _) =>
              destruct c eqn:?; [reflexivity|]
          end).
  destruct (target_is target "thdCmp") eqn:T; [|reflexivity].
  destruct S as [Hne | E].
  - exfalso. apply Hne. unfold target_is in T. now apply pystr_eqb_eq in T.
  - unfold three_way_hint.
    destruct (three_way_mst item three_way_mst_keys []) as [[|c m]|e];
      [ | reflexivity | reflexivity ].
    cbn [bind]. now rewrite (find_mst_same_answers net1 net2 _ item E).
Qed.

Lemma format_item_same (target : pystr) (net1 net2 : upstream) :
  target <> u8 "thdCmp" \/ (forall q, net1 q = net2 q) ->
  forall state item,
    format_item net1 target state item = format_item net2 target state item.
Proof.
  intros S [[result title] i] item. unfold format_item.
  destruct (choose_title target item title) as [t|e]; [|reflexivity]. cbn [bind].
  destruct (title_line target item t) as [[line t']|e]; [|reflexivity]. cbn [bind].
  destruct (for_each _ _ _) as [result'|e]; [|reflexivity]. cbn [bind].
  now rewrite (next_call_hint_same target net1 net2 item S).
Qed.

Lemma bind_ext {A B : Type} (m : outcome A) (k1 k2 : A -> outcome B) :
  (forall a, k1 a = k2 a) -> bind m k1 = bind m k2.
Proof. intros E. destruct m; [apply E | reflexivity]. Qed.

Lemma format_search_results_body_same (history : pydict -> pystr -> pystr)
    (net1 net2 : upstream) (data : pydict) (target search_query : pystr)
    (max_results : Z) :
  target <> u8 "thdCmp" \/ (forall q, net1 q = net2 q) ->
  format_search_results_body history net1 data target search_query max_results
  = format_search_results_body history net2 data target search_query max_results.
Proof.
  intros S. unfold format_search_results_body.
  apply bind_ext. intros [target_data|text]; [|reflexivity].
  destruct (as_list target_data) as [|x l]; [reflexivity|].
  apply bind_ext. intros sorted.
  rewrite (for_each_ext _ _ _ (format_item_same target net1 net2 S)).
  reflexivity.
Qed.

(** C9, as the code has it.  The text [_format_search_results] returns is
    fixed by [(data, target, search_query, max_results)] for every target
    other than ["thdCmp"]; for ["thdCmp"] it is fixed by those arguments
    together with the answers of the upstream to the law searches the
    formatter makes for results without a serial number. *)
Theorem format_search_results_deterministic_given_upstream :
  forall (net1 net2 : upstream) (data : pydict) (target search_query : pystr)
         (max_results : Z),
    target <> u8 "thdCmp" \/ (forall q, net1 q = net2 q) ->
    _format_search_results net1 data target search_query max_results
    = _format_search_results net2 data target search_query max_results.
Proof.
  intros net1 net2 data target search_query max_results S.
  unfold _format_search_results.
  rewrite (format_search_results_body_same _ net1 net2 data target
             search_query max_results S).
  reflexivity.
Qed.

End FormatterProperties.

Lemma format_search_results_deterministic_given_upstream_witness :
  u8 "law" <> u8 "thdCmp"
  /\ _format_search_results (R := basic_runtime) upstream_answering
       law_response (u8 "law") (u8 "민법") 50
     = _format_search_results (R := basic_runtime) upstream_failing
         law_response (u8 "law") (u8 "민법") 50.
Proof.
  assert (Hne : u8 "law" <> u8 "thdCmp") by (vm_compute; discriminate).
  split; [exact Hne|].
  exact (format_search_results_deterministic_given_upstream
           (R := basic_runtime) upstream_answering upstream_failing
           law_response (u8 "law") (u8 "민법") 50 (or_introl Hne)).
Defined.

(** C9, as stated, fails: for the target ["thdCmp"] and a result that has
    a law ID and a name but no serial number, the formatter asks the
    upstream for the serial number.  With the same arguments it prints the
    number and two lookup hints when the upstream answers, and a note to
    search by name when the request fails. *)
Lemma format_search_results_depends_on_upstream :
  _format_search_results (R := basic_runtime) upstream_answering
    three_way_response (u8 "thdCmp") (u8 "민법") 50
  = cat [ u8 "**'민법' 검색 결과** (총 1건)"; NL; NL;
          u8 "**1. 민법**"; NL;
          u8 "   법령ID: 001706"; NL;
          u8 "   • 법령일련번호(MST): 253527"; NL;
          u8 "   상세조회: get_three_way_comparison_detail(mst="; DQ; u8 "253527"; DQ;
          u8 ", knd=1)  # 인용조문"; NL;
          u8 "   상세조회: get_three_way_comparison_detail(mst="; DQ; u8 "253527"; DQ;
          u8 ", knd=2)  # 위임조문"; NL; NL ]
  /\ _format_search_results (R := basic_runtime) upstream_failing
       three_way_response (u8 "thdCmp") (u8 "민법") 50
     = cat [ u8 "**'민법' 검색 결과** (총 1건)"; NL; NL;
             u8 "**1. 민법**"; NL;
             u8 "   법령ID: 001706"; NL;
             u8 "   참고: MST를 찾기 위해 법령명으로 검색 중..."; NL;
             u8 "   → `search_law("; DQ; u8 "민법"; DQ; u8 ")`로 MST 확인 후 사용"; NL;
             NL ]
  /\ _format_search_results (R := basic_runtime) upstream_answering
       three_way_response (u8 "thdCmp") (u8 "민법") 50
     <> _format_search_results (R := basic_runtime) upstream_failing
          three_way_response (u8 "thdCmp") (u8 "민법") 50.
Proof. vm_compute. repeat split. discriminate. Qed.

(* ================================================================== *)
(** ** Further properties of the envelope resolver                      *)
(* ================================================================== *)

Section ResolverMore.

Local Open Scope Z_scope.

(** What every return of [extract_items_from_response] looks like: the
    count is the length, and an error comes with no items. *)
Lemma extract_shape (result : pydict) (target : option pystr) :
  exists items e,
    extract_items_from_response result target = (items, len items, e)
    /\ (e <> None -> items = []).
Proof.
  unfold extract_items_from_response.
  destruct result as [|kv result].
  { exists [], (Some (u8 "응답 없음")). split; reflexivity. }
  set (d := kv :: result).
  assert (Rest :
    exists items e,
      match try_target d target with
      | Some r => r
      | None =>
          match try_all_structures d (map snd RESPONSE_STRUCTURE_MAP) with
          | Some r => r
          | None =>
              match try_direct d direct_keys with
              | Some r => r
              | None => ([], 0, Some (u8 "데이터 구조 파싱 실패"))
              end
          end
      end = (items, len items, e) /\ (e <> None -> items = [])).
  { destruct (try_target d target) as [[[items n] e]|] eqn:T.
    { apply try_target_count in T as [-> ->].
      exists items, None. split; [reflexivity | congruence]. }
    destruct (try_all_structures d (map snd RESPONSE_STRUCTURE_MAP))
      as [[[items n] e]|] eqn:A.
    { apply try_all_structures_count in A as [-> [-> _]].
      exists items, None. split; [reflexivity | congruence]. }
    destruct (try_direct d direct_keys) as [[[items n] e]|] eqn:D.
    { apply try_direct_count in D as [-> ->].
      exists items, None. split; [reflexivity | congruence]. }
    exists [], (Some (u8 "데이터 구조 파싱 실패")). split; reflexivity. }
  destruct (dict_get (u8 "Law") d) as [[]|]; try exact Rest.
  exists [], (Some s). split; reflexivity.
Qed.

(** X1.  A single mapping where the result array belongs is wrapped: for
    every target of the table, [{outer_key: {inner_key: {...}}}] gives
    that one mapping as the only item, the count 1 and no error. *)
Theorem extract_single_mapping_is_wrapped :
  forall (target outer_key inner_key : pystr) (record : pydict),
    In (target, (outer_key, inner_key)) RESPONSE_STRUCTURE_MAP ->
    extract_items_from_response
      [(outer_key, PDict [(inner_key, PDict record)])] (Some target)
    = ([PDict record], 1, None).
Proof.
  intros target outer_key inner_key record HIn.
  destruct (table_entry_facts _ _ _ HIn) as [Hne HLaw].
  apply extract_by_target.
  - intros message. rewrite dict_get_skip by exact HLaw. discriminate.
  - unfold try_target.
    destruct target as [|c t]; [congruence|].
    rewrite (map_lookup_In _ table_targets_distinct _ _ HIn).
    unfold envelope_items, dict_get_default.
    now rewrite !dict_get_head.
Qed.

Lemma extract_single_mapping_is_wrapped_witness :
  In (u8 "expc", (u8 "Expc", u8 "expc")) RESPONSE_STRUCTURE_MAP
  /\ extract_items_from_response
       [(u8 "Expc", PDict [(u8 "expc", PDict [(u8 "안건명", PStr (u8 "질의"))])])]
       (Some (u8 "expc"))
     = ([PDict [(u8 "안건명", PStr (u8 "질의"))]], 1, None).
Proof.
  split.
  - vm_compute. tauto.
  - apply (extract_single_mapping_is_wrapped (u8 "expc") (u8 "Expc") (u8 "expc")).
    vm_compute. tauto.
Defined.

(** X2.  Whenever [extract_items_from_response] reports an error, it
    returns no items and the count 0. *)
Theorem extract_error_means_no_items :
  forall (result : pydict) (target : option pystr) items count message,
    extract_items_from_response result target = (items, count, Some message) ->
    items = [] /\ count = 0.
Proof.
  intros result target items count message E.
  destruct (extract_shape result target) as [items' [e [E' Hempty]]].
  rewrite E in E'. inversion E'; subst.
  assert (items' = []) as -> by (apply Hempty; discriminate).
  split; reflexivity.
Qed.

Lemma extract_error_means_no_items_witness :
  extract_items_from_response [(u8 "unknown", PInt 1)] None
  = ([], 0, Some (u8 "데이터 구조 파싱 실패"))
  /\ (@nil pyval = [] /\ 0 = 0).
Proof.
  split; [reflexivity|].
  apply (extract_error_means_no_items [(u8 "unknown", PInt 1)] None
           [] 0 (u8 "데이터 구조 파싱 실패")).
  reflexivity.
Defined.

(** X3.  The scan of all table entries needs no target: for every entry
    of the table, [{outer_key: {inner_key: [r]}}] resolved without a
    target, or with a target the table does not know, gives [[r]], 1 and
    no error. *)
Theorem extract_without_target_finds_envelope :
  forall (known outer_key inner_key : pystr) (r : pyval) (target : option pystr),
    In (known, (outer_key, inner_key)) RESPONSE_STRUCTURE_MAP ->
    match target with
    | Some t => map_lookup t RESPONSE_STRUCTURE_MAP = None
    | None => True
    end ->
    extract_items_from_response
      [(outer_key, PDict [(inner_key, PList [r])])] target
    = ([r], 1, None).
Proof.
  intros known outer_key inner_key r target HIn Hunknown.
  destruct (table_entry_facts _ _ _ HIn) as [_ HLaw].
  unfold extract_items_from_response.
  rewrite dict_get_skip by exact HLaw. cbn [dict_get].
  assert (T : try_target
                [(outer_key, PDict [(inner_key, PList [r])])] target = None).
  { unfold try_target. destruct target as [[|c t]|]; try reflexivity.
    now rewrite Hunknown. }
  rewrite T. clear T Hunknown HLaw.
  assert (A : try_all_structures
                [(outer_key, PDict [(inner_key, PList [r])])]
                (map snd RESPONSE_STRUCTURE_MAP)
              = Some ([r], 1, None)).
  { vm_compute in HIn.
    repeat (destruct HIn as [HIn | HIn];
            [ injection HIn as <- <- <-; vm_compute; reflexivity |]).
    contradiction. }
  now rewrite A.
Qed.

Lemma extract_without_target_finds_envelope_witness :
  In (u8 "ordinfd", (u8 "OrdinSearch", u8 "ordinfd")) RESPONSE_STRUCTURE_MAP
  /\ True
  /\ extract_items_from_response
       [(u8 "OrdinSearch", PDict [(u8 "ordinfd", PList [PInt 7])])] None
     = ([PInt 7], 1, None).
Proof.
  split; [vm_compute; tauto|]. split; [exact I|].
  apply (extract_without_target_finds_envelope
           (u8 "ordinfd") (u8 "OrdinSearch") (u8 "ordinfd") (PInt 7) None).
  - vm_compute. tauto.
  - exact I.
Defined.

Lemma map_outcome_length {A B : Type} (f : A -> outcome B) (l : list A) :
  forall l' : list B,
    map_outcome f l = Ok l' -> List.length l' = List.length l.
Proof.
  induction l as [|x l IH]; intros l' E.
  - injection E as <-. reflexivity.
  - cbn [map_outcome] in E. destruct (f x) as [y|e]; cbn [bind] in E;
      [|discriminate].
    destruct (map_outcome f l) as [ys|e]; cbn [bind] in E; [|discriminate].
    injection E as <-. cbn [List.length]. now rewrite (IH ys eq_refl).
Qed.

(** X4.  In every result of [normalize_response], [total_count] is the
    number of [items] (cleaning keeps every item), so [success] holds
    exactly when there is an item; and an error comes with no items.
    The call returns a result unless the cleaning it was asked for
    raises. *)
Theorem normalize_count_is_number_of_items :
  forall (H : HtmlLib) (result : pydict) (target : option pystr)
         (clean_html : bool),
    match normalize_response result target clean_html with
    | Ok n =>
        total_count n = len (items n)
        /\ (success n = true <-> items n <> [])
        /\ (error n <> None -> items n = [])
    | Raise _ => clean_html = true
    end.
Proof.
  intros H result target clean_html. unfold normalize_response.
  destruct (extract_shape result target) as [its [e [E Hempty]]].
  rewrite E.
  assert (Same : forall its' : list pyval,
             List.length its' = List.length its ->
             len its = len its'
             /\ ((0 <? len its) = true <-> its' <> [])
             /\ (e <> None -> its' = [])).
  { intros its' L. split; [unfold len; now rewrite L|]. split.
    - rewrite Z.ltb_lt. unfold len. rewrite <- L.
      destruct its'; cbn [List.length]; split; try congruence; lia.
    - intros He. rewrite (Hempty He) in L. now destruct its'. }
  destruct (clean_html && truthy (PList its)) eqn:C.
  - destruct (map_outcome clean_search_result its) as [its'|e'] eqn:M;
      cbn [bind].
    + cbn [total_count items success error].
      exact (Same its' (map_outcome_length _ _ _ M)).
    + now apply andb_true_iff in C as [-> _].
  - cbn [bind total_count items success error]. exact (Same its eq_refl).
Qed.

(** X5.  [get_category_from_target] calls a target a committee target
    exactly when it is one of the twelve committee targets that
    [_format_search_results] treats as such. *)
Theorem committee_category_matches_formatter :
  forall target : pystr,
    get_category_from_target target = u8 "committee"
    <-> target_in target committee_targets = true.
Proof.
  intros target. unfold get_category_from_target, target_in, committee_targets.
  assert (Mem : forall names : list string,
             str_in target (map u8 names) = true -> In target (map u8 names)).
  { intros names E. unfold str_in in E. apply existsb_exists in E.
    destruct E as [x [HIn E]]. apply pystr_eqb_eq in E. now subst. }
  repeat match goal with
         | |- context [if str_in target (map u8 ?l) then _ else _] =>
             destruct (str_in target (map u8 l)) eqn:?
         end;
    try (match goal with
         | E : str_in target (map u8 _) = true |- _ =>
             apply Mem in E; cbn [map In] in E;
             repeat (destruct E as [E | E];
                     [subst target; vm_compute; split; discriminate |]);
             contradiction
         end).
  - split; reflexivity.
  - destruct (contains (u8 "CgmExpc") target);
      [split; [intros X; vm_compute in X|]; discriminate|].
    destruct (contains (u8 "SpecialDecc") target);
      split; try discriminate; intros X; vm_compute in X; discriminate.
Qed.

End ResolverMore.

(* ================================================================== *)
(** ** Further properties of the cleaner                                *)
(* ================================================================== *)

Section CleanerMore.

Local Open Scope Z_scope.

Context {H : HtmlLib}.

Lemma starts_clean_app (a b : pystr) :
  a <> [] -> starts_clean (a ++ b) = starts_clean a.
Proof. destruct a; [congruence | reflexivity]. Qed.

Lemma rstrip_ends_clean (s : pystr) : ends_clean (rstrip s) = true.
Proof.
  unfold ends_clean. induction s as [|c s IH]; [reflexivity|].
  cbn [rstrip]. destruct (rstrip s) as [|d r] eqn:E.
  - destruct (isspace c) eqn:W; [reflexivity|].
    cbn. now rewrite W.
  - change (rev (c :: d :: r)) with (rev (d :: r) ++ [c]).
    rewrite starts_clean_app; [exact IH|].
    cbn [rev]. intros X. now apply app_eq_nil in X as [_ X].
Qed.

(** X6.  Whenever [clean_html_tags] returns on a string, what it returns
    is a string with no whitespace at either end, in which whitespace
    occurs only as single [' '] characters. *)
Theorem clean_html_tags_normalizes_whitespace :
  forall (s : pystr) (v : pyval),
    clean_html_tags (PStr s) = Ok v ->
    exists t : pystr,
      v = PStr t
      /\ starts_clean t = true
      /\ ends_clean t = true
      /\ spaced false t = true.
Proof.
  intros s v E. apply clean_html_tags_shape in E as [text2 ->].
  eexists. split; [reflexivity|].
  unfold strip. repeat split.
  - apply rstrip_starts_clean, lstrip_starts_clean.
  - apply rstrip_ends_clean.
  - apply spaced_rstrip, spaced_lstrip, spaced_sub_spaces.
Qed.

(** X7.  For a string without ['&'], nothing is left in the result for
    the tag pattern to remove: [re.sub(r'<[^>]+>', '', result)] is the
    result itself. *)
Theorem clean_html_tags_leaves_no_tag :
  forall x : pystr,
    occurs AMP x = false ->
    exists t : pystr,
      clean_html_tags (PStr x) = Ok (PStr t) /\ sub_tags false t = t.
Proof.
  intros x A. exists (cleaned x). split.
  - now apply clean_html_tags_without_amp.
  - apply sub_tags_no_tag. unfold cleaned, strip.
    apply no_tag_rstrip, no_tag_lstrip, no_tag_sub_spaces, no_tag_sub_tags.
Qed.

(** *** Dictionaries *)

Lemma dict_set_fresh (k : pystr) (v : pyval) (d : pydict) :
  str_in k (dict_keys d) = false -> dict_set k v d = d ++ [(k, v)].
Proof.
  induction d as [|[k' v'] d IH]; [reflexivity|].
  cbn [dict_keys map fst str_in existsb]. intros E.
  apply orb_false_iff in E as [E1 E2].
  cbn [dict_set]. rewrite E1. cbn [app]. f_equal. now apply IH.
Qed.

Lemma str_in_app (k : pystr) (a b : list pystr) :
  str_in k (a ++ b) = str_in k a || str_in k b.
Proof. unfold str_in. apply existsb_app. Qed.

Lemma pystr_eqb_sym (a b : pystr) : pystr_eqb a b = pystr_eqb b a.
Proof.
  destruct (pystr_eqb a b) eqn:E.
  - apply pystr_eqb_eq in E. subst. now rewrite pystr_eqb_refl.
  - destruct (pystr_eqb b a) eqn:E'; [|reflexivity].
    apply pystr_eqb_eq in E'. subst. now rewrite pystr_eqb_refl in E.
Qed.

Lemma str_in_other (k x : pystr) (l : list pystr) :
  str_in x l = false -> str_in k l = true -> pystr_eqb x k = false.
Proof.
  intros Hx Hk. destruct (pystr_eqb x k) eqn:E; [|reflexivity].
  apply pystr_eqb_eq in E. subst. congruence.
Qed.

Lemma fold_left_same {A B : Type} (f g : A -> B -> A) (l : list B) :
  (forall a x, f a x = g a x) -> forall a, fold_left f l a = fold_left g l a.
Proof.
  intros E. induction l as [|x l IH]; intros a; [reflexivity|].
  cbn. rewrite E. apply IH.
Qed.

Lemma str_in_cons (x y : pystr) (l : list pystr) :
  str_in x (y :: l) = pystr_eqb x y || str_in x l.
Proof. reflexivity. Qed.

(** Once a value has raised, the loop stores nothing more. *)
Lemma fold_left_raised {A B : Type} (f : A -> B -> outcome A) (l : list B)
    (e : exn) :
  fold_left (fun so_far x => a <- so_far ;; f a x) l (Raise e) = Raise e.
Proof. induction l as [|x l IH]; [reflexivity | exact IH]. Qed.

(** The loop of [clean_dict_values] stores, under each key, what
    [cleaned_value] gives for it. *)
Lemma clean_dict_values_loop (fields : option (list pystr))
    (kv : pystr * pyval) (d : pydict) :
  clean_dict_values fields (PDict (kv :: d))
  = (result <- fold_left (fun so_far kv =>
                 result <- so_far ;;
                 v <- cleaned_value fields (fst kv) (snd kv) ;;
                 Ok (dict_set (fst kv) v result)) (kv :: d) (Ok []) ;;
     Ok (PDict result)).
Proof.
  cbn [clean_dict_values]. f_equal.
  apply fold_left_same. intros [result|e] [k v]; [|reflexivity].
  cbn [bind fst snd]. unfold cleaned_value.
  destruct fields as [[|f0 fs]|];
    try (destruct (negb (str_in k (f0 :: fs))); [reflexivity|]);
    destruct v; reflexivity.
Qed.

(** Storing the entries of a dict with distinct keys one by one builds
    the dict of the new values, in the same order. *)
Lemma fold_store (f : pystr -> pyval -> outcome pyval) (d : pydict) :
  forall acc r : pydict,
    distinct (dict_keys d) = true ->
    (forall k, str_in k (dict_keys d) = true -> str_in k (dict_keys acc) = false) ->
    fold_left (fun so_far kv =>
      result <- so_far ;;
      v <- f (fst kv) (snd kv) ;;
      Ok (dict_set (fst kv) v result)) d (Ok acc) = Ok r ->
    exists d' : pydict,
      r = acc ++ d'
      /\ Forall2 (fun kv kv' => fst kv' = fst kv /\ f (fst kv) (snd kv) = Ok (snd kv'))
           d d'.
Proof.
  induction d as [|[k v] d IH]; intros acc r D Fresh E.
  - injection E as <-. exists []. split; [now rewrite app_nil_r | constructor].
  - change (dict_keys ((k, v) :: d)) with (k :: dict_keys d) in D, Fresh.
    cbn [distinct] in D.
    apply andb_true_iff in D as [D1 D2]. apply negb_true_iff in D1.
    cbn [fold_left bind fst snd] in E.
    destruct (f k v) as [v'|e] eqn:V; cbn [bind] in E.
    + rewrite dict_set_fresh in E.
      * apply IH in E as [d' [-> F]]; [|exact D2|].
        -- exists ((k, v') :: d'). split; [now rewrite <- app_assoc|].
           constructor; [now split | exact F].
        -- intros k' Hk'. unfold dict_keys. rewrite map_app, str_in_app.
           apply orb_false_iff. split.
           ++ apply Fresh. rewrite str_in_cons. now rewrite Hk', orb_true_r.
           ++ cbn [map fst]. rewrite str_in_cons. cbn [str_in existsb].
              rewrite orb_false_r. rewrite pystr_eqb_sym.
              now apply (str_in_other k' k (dict_keys d)).
      * apply Fresh. rewrite str_in_cons. now rewrite pystr_eqb_refl.
    + rewrite (fold_left_raised
                 (fun result kv =>
                    v <- f (fst kv) (snd kv) ;; Ok (dict_set (fst kv) v result))
                 d e) in E.
      discriminate.
Qed.

Lemma stored_keys (f : pystr -> pyval -> outcome pyval) (d d' : pydict) :
  Forall2 (fun kv kv' => fst kv' = fst kv /\ f (fst kv) (snd kv) = Ok (snd kv'))
    d d' ->
  dict_keys d' = dict_keys d.
Proof.
  induction 1 as [|kv kv' d d' [K _] _ IH]; [reflexivity|].
  unfold dict_keys in *. cbn [map]. now rewrite K, IH.
Qed.

Lemma stored_untouched (f : pystr -> pyval -> outcome pyval) (key : pystr)
    (d d' : pydict) :
  (forall v, f key v = Ok v) ->
  Forall2 (fun kv kv' => fst kv' = fst kv /\ f (fst kv) (snd kv) = Ok (snd kv'))
    d d' ->
  dict_get key d' = dict_get key d.
Proof.
  intros Same. induction 1 as [|[k v] [k' v'] d d' [K V] _ IH]; [reflexivity|].
  cbn [fst snd] in K, V. subst k'. cbn [dict_get].
  destruct (pystr_eqb key k) eqn:E; [|exact IH].
  apply pystr_eqb_eq in E. subst k. rewrite Same in V. now injection V as <-.
Qed.

(** X8.  Whenever [clean_dict_values] returns on a dict with distinct
    keys, it returns a dict with the same keys in the same order; and
    [clean_search_result] leaves the value of every field outside its
    list as it is. *)
Theorem clean_dict_values_keeps_keys :
  forall (fields : option (list pystr)) (d : pydict) (v : pyval),
    distinct (dict_keys d) = true ->
    clean_dict_values fields (PDict d) = Ok v ->
    exists d' : pydict,
      v = PDict d'
      /\ dict_keys d' = dict_keys d
      /\ (fields = Some search_fields_to_clean ->
          forall key, str_in key search_fields_to_clean = false ->
                      dict_get key d' = dict_get key d).
Proof.
  intros fields d v D E. destruct d as [|kv d].
  - injection E as <-. exists []. repeat split.
  - rewrite clean_dict_values_loop in E.
    match type of E with
    | bind ?loop _ = _ => destruct loop as [r|e] eqn:L
    end; cbn [bind] in E; [|discriminate].
    injection E as <-.
    apply (fold_store (cleaned_value fields)) in L as [d' [-> F]];
      [|exact D | reflexivity].
    exists d'. split; [reflexivity|]. split.
    + exact (stored_keys _ _ _ F).
    + intros -> key Hout. apply (stored_untouched _ key _ _) in F; [exact F|].
      intros x. unfold cleaned_value.
      change search_fields_to_clean
        with (u8 "법령명" :: tl search_fields_to_clean) at 1.
      cbv beta iota. now rewrite Hout.
Qed.

End CleanerMore.

Lemma clean_html_tags_normalizes_whitespace_witness :
  clean_html_tags (H := html_basic) (PStr (u8 " <b>민법</b> &nbsp; 제1조 "))
  = Ok (PStr (u8 "민법 제1조"))
  /\ exists t : pystr,
       PStr (u8 "민법 제1조") = PStr t
       /\ starts_clean t = true /\ ends_clean t = true /\ spaced false t = true.
Proof.
  assert (E : clean_html_tags (H := html_basic)
                (PStr (u8 " <b>민법</b> &nbsp; 제1조 "))
              = Ok (PStr (u8 "민법 제1조")))
    by (vm_compute; reflexivity).
  split; [exact E|].
  exact (clean_html_tags_normalizes_whitespace (H := html_basic) _ _ E).
Defined.

Lemma clean_html_tags_leaves_no_tag_witness :
  occurs AMP (u8 "<a<b>c</b>") = false
  /\ exists t : pystr,
       clean_html_tags (H := html_basic) (PStr (u8 "<a<b>c</b>")) = Ok (PStr t)
       /\ sub_tags false t = t.
Proof.
  split; [reflexivity|].
  exact (clean_html_tags_leaves_no_tag (H := html_basic) (u8 "<a<b>c</b>") eq_refl).
Defined.

Lemma clean_dict_values_keeps_keys_witness :
  distinct (dict_keys [(u8 "법령명", PStr (u8 "<b>민법</b>"));
                       (u8 "비고", PStr (u8 "<b>x</b>"))]) = true
  /\ clean_dict_values (H := html_basic) (Some search_fields_to_clean)
       (PDict [(u8 "법령명", PStr (u8 "<b>민법</b>"));
               (u8 "비고", PStr (u8 "<b>x</b>"))])
     = Ok (PDict [(u8 "법령명", PStr (u8 "민법"));
                  (u8 "비고", PStr (u8 "<b>x</b>"))])
  /\ exists d' : pydict,
       PDict [(u8 "법령명", PStr (u8 "민법")); (u8 "비고", PStr (u8 "<b>x</b>"))]
       = PDict d'
       /\ dict_keys d' = [u8 "법령명"; u8 "비고"].
Proof.
  assert (E : clean_dict_values (H := html_basic) (Some search_fields_to_clean)
                (PDict [(u8 "법령명", PStr (u8 "<b>민법</b>"));
                        (u8 "비고", PStr (u8 "<b>x</b>"))])
              = Ok (PDict [(u8 "법령명", PStr (u8 "민법"));
                           (u8 "비고", PStr (u8 "<b>x</b>"))]))
    by (vm_compute; reflexivity).
  split; [reflexivity|]. split; [exact E|].
  destruct (clean_dict_values_keeps_keys (H := html_basic)
              (Some search_fields_to_clean)
              [(u8 "법령명", PStr (u8 "<b>민법</b>"));
               (u8 "비고", PStr (u8 "<b>x</b>"))] _ eq_refl E)
    as [d' [Ed [K _]]].
  exists d'. split; [exact Ed | exact K].
Defined.

(* ================================================================== *)
(** ** Further properties of the file cache and of the text helpers     *)
(* ================================================================== *)

Section CacheMore.

Local Open Scope Z_scope.

Lemma lookup_write_same (path : pystr) (f : file) (fs : list (pystr * file)) :
  lookup_file path (write_file path f fs) = Some f.
Proof.
  induction fs as [|[p g] fs IH]; cbn.
  - now rewrite pystr_eqb_refl.
  - destruct (pystr_eqb path p) eqn:E; cbn; now rewrite E.
Qed.

Lemma lookup_write_other (path p : pystr) (f : file) (fs : list (pystr * file)) :
  p <> path -> lookup_file p (write_file path f fs) = lookup_file p fs.
Proof.
  intros Hne. apply pystr_eqb_neq in Hne.
  induction fs as [|[q g] fs IH]; cbn.
  - now rewrite Hne.
  - destruct (pystr_eqb path q) eqn:E; cbn.
    + apply pystr_eqb_eq in E. subst q. now rewrite Hne.
    + now rewrite IH.
Qed.

(** X10.  A cache key, when [get_cache_key] returns one, is 32 characters
    of [0-9a-f]; so the cache file is [<CACHE_DIR>/<32 hex digits>.json]
    whatever the law ID and the section contain. *)
Theorem get_cache_key_is_32_hex_digits :
  forall (law_id section key : pystr),
    get_cache_key law_id section = Some key ->
    List.length key = 32%nat /\ forallb is_lower_hex key = true.
Proof.
  intros law_id section key E. unfold get_cache_key in E.
  destruct (utf8_encode _) as [bytes|]; [|discriminate].
  cbn in E. inversion E; subst. apply md5_hexdigest_format.
Qed.

Lemma get_cache_key_is_32_hex_digits_witness :
  get_cache_key (u8 "law_248613") (u8 "full")
  = Some (u8 "d4fe71eb23569df5c4afe28aa8c77cdd")
  /\ List.length (u8 "d4fe71eb23569df5c4afe28aa8c77cdd") = 32%nat.
Proof.
  assert (E : get_cache_key (u8 "law_248613") (u8 "full")
              = Some (u8 "d4fe71eb23569df5c4afe28aa8c77cdd"))
    by (vm_compute; reflexivity).
  split; [exact E|].
  exact (proj1 (get_cache_key_is_32_hex_digits _ _ _ E)).
Defined.

(** X11.  What [save_to_cache] stores, [load_from_cache] returns.  For a
    key that [get_cache_key] returns, in a cache directory that can be
    written: less than seven days after the saving, loading the key gives
    the ["data"] field of what [json] reads back from the record just
    written, which is the saved data whenever [json] reads the record
    back as it was written, and changes nothing; from seven days on it
    gives [None] and removes the file. *)
Theorem save_then_load_returns_data :
  forall (J : JsonLib) (timestamp : pystr) (w : world)
         (law_id section cache_key : pystr) (data : pyval) (t : datetime),
    get_cache_key law_id section = Some cache_key ->
    writable w = true ->
    removable w = true ->
    let record := PDict [(u8 "timestamp", PStr timestamp); (u8 "data", data)] in
    let saved := at_time t (save_to_cache timestamp w cache_key data) in
    (t < now w + timedelta_days CACHE_DAYS ->
     load_from_cache saved cache_key
     = (match json_reload record with
        | Some (PDict d) => dict_get_default (u8 "data") PNone d
        | _ => PNone
        end, saved))
    /\ (t < now w + timedelta_days CACHE_DAYS ->
        json_reload record = Some record ->
        load_from_cache saved cache_key = (data, saved))
    /\ (now w + timedelta_days CACHE_DAYS <= t ->
        fst (load_from_cache saved cache_key) = PNone
        /\ lookup_file (get_cache_path w cache_key)
             (files (snd (load_from_cache saved cache_key))) = None).
Proof.
  intros J timestamp w law_id section cache_key data t _ Wr Rm record saved.
  subst saved. unfold save_to_cache, ensure_cache_dir. rewrite Wr, Rm.
  fold record.
  match goal with
  | |- context [at_time t ?x] => set (saved := at_time t x)
  end.
  assert (P : get_cache_path saved cache_key = get_cache_path w cache_key)
    by reflexivity.
  assert (N : now saved = t) by reflexivity.
  assert (Rm' : removable saved = true) by exact Rm.
  assert (L : lookup_file (get_cache_path saved cache_key) (files saved)
              = Some {| file_time := now w; parsed := json_reload record |}).
  { rewrite P. subst saved. cbn [at_time with_files home now files].
    apply lookup_write_same. }
  assert (Within : t < now w + timedelta_days CACHE_DAYS ->
                   load_from_cache saved cache_key
                   = (match json_reload record with
                      | Some (PDict d) => dict_get_default (u8 "data") PNone d
                      | _ => PNone
                      end, saved)).
  { intros Fresh. unfold load_from_cache, is_cache_valid. rewrite L, N.
    cbn [file_time parsed].
    assert (V : (t - timedelta_days CACHE_DAYS <? now w) = true)
      by (apply Z.ltb_lt; lia).
    rewrite V. cbn [negb].
    destruct (json_reload record) as [[]|]; reflexivity. }
  split; [exact Within|]. split.
  - intros Fresh Json. rewrite (Within Fresh), Json. reflexivity.
  - intros Late. unfold load_from_cache, is_cache_valid. rewrite L, N.
    cbn [file_time parsed].
    assert (V : (t - timedelta_days CACHE_DAYS <? now w) = false)
      by (apply Z.ltb_ge; lia).
    rewrite V, Rm'. cbn [negb fst snd with_files files].
    split; [reflexivity|]. rewrite <- P. apply lookup_unlink_same.
Qed.

(** X12.  For a key that [get_cache_key] returns, [load_from_cache]
    returns something else than [None] only from a file that is valid;
    it changes the machine at most by deleting the expired file of its
    own key, and never another file. *)
Theorem load_from_cache_touches_only_its_file :
  forall (w : world) (law_id section cache_key : pystr),
    get_cache_key law_id section = Some cache_key ->
    let path := get_cache_path w cache_key in
    let w' := snd (load_from_cache w cache_key) in
    (fst (load_from_cache w cache_key) <> PNone -> is_cache_valid w path = true)
    /\ (is_cache_valid w path = true -> w' = w)
    /\ (removable w = false -> w' = w)
    /\ home w' = home w /\ now w' = now w
    /\ writable w' = writable w /\ removable w' = removable w
    /\ (forall p, p <> path -> lookup_file p (files w') = lookup_file p (files w)).
Proof.
  intros w law_id section cache_key _ path w'. subst path w'.
  unfold load_from_cache.
  destruct (lookup_file (get_cache_path w cache_key) (files w)) as [f|] eqn:L.
  - destruct (is_cache_valid w (get_cache_path w cache_key)) eqn:V; cbn [negb].
    + destruct (parsed f) as [[]|]; cbn [fst snd]; repeat split; auto.
    + cbn [fst snd]. destruct (removable w) eqn:Rm;
        cbn [with_files home now files writable removable];
        repeat split; try congruence.
      intros p Hne. now apply lookup_unlink_other.
  - cbn [fst snd]. repeat split; try congruence.
Qed.

End CacheMore.

Lemma save_then_load_returns_data_witness :
  get_cache_key (u8 "eflaw_248613") (u8 "full") = Some week_old_key
  /\ writable week_old_world = true
  /\ removable week_old_world = true
  /\ json_reload (JsonLib := json_basic)
       (PDict [(u8 "timestamp", PStr (u8 "2023-11-14T22:13:20"));
               (u8 "data", PDict [(u8 "법령명", PStr (u8 "민법"))])])
     = Some (PDict [(u8 "timestamp", PStr (u8 "2023-11-14T22:13:20"));
                    (u8 "data", PDict [(u8 "법령명", PStr (u8 "민법"))])])
  /\ (1700000000000000 + timedelta_days 6
      < now week_old_world + timedelta_days CACHE_DAYS)%Z
  /\ fst (load_from_cache
            (at_time (1700000000000000 + timedelta_days 6)%Z
               (save_to_cache (J := json_basic) (u8 "2023-11-14T22:13:20")
                  week_old_world week_old_key
                  (PDict [(u8 "법령명", PStr (u8 "민법"))])))
            week_old_key)
     = PDict [(u8 "법령명", PStr (u8 "민법"))].
Proof.
  assert (K : get_cache_key (u8 "eflaw_248613") (u8 "full") = Some week_old_key)
    by (vm_compute; reflexivity).
  assert (Json : json_reload (JsonLib := json_basic)
                   (PDict [(u8 "timestamp", PStr (u8 "2023-11-14T22:13:20"));
                           (u8 "data", PDict [(u8 "법령명", PStr (u8 "민법"))])])
                 = Some (PDict [(u8 "timestamp", PStr (u8 "2023-11-14T22:13:20"));
                                (u8 "data", PDict [(u8 "법령명", PStr (u8 "민법"))])]))
    by (vm_compute; reflexivity).
  assert (C : (1700000000000000 + timedelta_days 6
               < now week_old_world + timedelta_days CACHE_DAYS)%Z)
    by (vm_compute; reflexivity).
  split; [exact K|]. split; [reflexivity|]. split; [reflexivity|].
  split; [exact Json|]. split; [exact C|].
  now rewrite (proj1 (proj2
                 (save_then_load_returns_data json_basic (u8 "2023-11-14T22:13:20")
                    week_old_world (u8 "eflaw_248613") (u8 "full") week_old_key
                    (PDict [(u8 "법령명", PStr (u8 "민법"))])
                    (1700000000000000 + timedelta_days 6)%Z K eq_refl eq_refl))
                 C Json).
Defined.

Lemma load_from_cache_touches_only_its_file_witness :
  get_cache_key (u8 "eflaw_248613") (u8 "full") = Some week_old_key
  /\ forall p : pystr,
       p <> get_cache_path week_old_world week_old_key ->
       lookup_file p (files (snd (load_from_cache week_old_world week_old_key)))
       = lookup_file p (files week_old_world).
Proof.
  assert (K : get_cache_key (u8 "eflaw_248613") (u8 "full") = Some week_old_key)
    by (vm_compute; reflexivity).
  split; [exact K|].
  exact (proj2 (proj2 (proj2 (proj2 (proj2 (proj2 (proj2
           (load_from_cache_touches_only_its_file week_old_world
              (u8 "eflaw_248613") (u8 "full") week_old_key K)))))))).
Defined.

Section LlmMore.

Local Open Scope Z_scope.

Lemma round53_small (x e : Z) : 0 <= x < 2 ^ 53 -> round53 x e = (x, e).
Proof.
  intros Hx. unfold round53.
  assert (Z.log2 x + 1 <= 53).
  { destruct (Z.eq_dec x 0) as [->|]; [cbn; lia|].
    enough (Z.log2 x < 53) by lia. apply Z.log2_lt_pow2; lia. }
  destruct (Z.leb_spec (Z.log2 x + 1) 53); [reflexivity | lia].
Qed.

Lemma times_seven_tenths_defined (n : Z) :
  0 <= n < 2 ^ 53 -> exists f, times_seven_tenths n = Some f.
Proof.
  intros Hn. unfold times_seven_tenths.
  rewrite Z.abs_eq by lia. rewrite round53_small by exact Hn.
  destruct (Z.leb_spec (2 ^ 1024) (n * 2 ^ 0)) as [Big|_].
  - exfalso. rewrite Z.pow_0_r, Z.mul_1_r in Big.
    assert (2 ^ 53 < 2 ^ 1024) by (apply Z.pow_lt_mono_r; lia). lia.
  - destruct (round53 _ _). eexists. reflexivity.
Qed.

Lemma slice_to_nonneg {A : Type} (n : Z) (l : list A) :
  0 <= n -> slice_to n l = firstn (Z.to_nat n) l.
Proof.
  intros Hn. unfold slice_to. destruct (Z.ltb_spec n 0); [lia | reflexivity].
Qed.

Lemma rfind_from_lower (c : Z) (s : pystr) (i last : Z) :
  0 <= i -> -1 <= last -> -1 <= rfind_from c s i last.
Proof.
  revert i last. induction s as [|x s IH]; intros i last Hi Hl; [exact Hl|].
  cbn. apply IH; [lia|]. destruct (x =? c); lia.
Qed.

(** X9.  [truncate_for_llm] returns a text no longer than [max_chars]
    unchanged; a longer text becomes its first [k] characters followed by
    the suffix, with [k <= max_chars]. *)
Theorem truncate_for_llm_keeps_a_bounded_prefix :
  forall (text suffix : pystr) (max_chars : Z),
    0 <= max_chars < 2 ^ 53 ->
    (len text <= max_chars -> truncate_for_llm text max_chars suffix = Ok text)
    /\ (max_chars < len text ->
        exists k : nat,
          truncate_for_llm text max_chars suffix = Ok (firstn k text ++ suffix)
          /\ Z.of_nat k <= max_chars).
Proof.
  intros text suffix max_chars Hm. unfold truncate_for_llm. split.
  - intros Short. apply Z.leb_le in Short. now rewrite Short, orb_true_r.
  - intros Long.
    assert (Ne : truthy (PStr text) = true).
    { destruct text; [unfold len in Long; cbn in Long; lia | reflexivity]. }
    rewrite Ne. cbn [negb orb].
    destruct (Z.leb_spec (len text) max_chars) as [|_]; [lia|].
    destruct (times_seven_tenths_defined max_chars Hm) as [limit ->].
    rewrite !(slice_to_nonneg max_chars) by lia.
    set (truncated := firstn (Z.to_nat max_chars) text).
    set (last_period := Z.max _ _).
    assert (Hl : -1 <= last_period).
    { subst last_period. unfold rfind.
      pose proof (rfind_from_lower 10 truncated 0 (-1)). lia. }
    destruct (int_gt_float last_period limit).
    + rewrite slice_to_nonneg by lia.
      subst truncated. rewrite firstn_firstn.
      eexists. split; [reflexivity|]. lia.
    + exists (Z.to_nat max_chars). split; [reflexivity | lia].
Qed.

Lemma truncate_for_llm_keeps_a_bounded_prefix_witness :
  0 <= 10 < 2 ^ 53
  /\ truncate_for_llm (u8 "abc") 10 (u8 "...") = Ok (u8 "abc").
Proof.
  assert (Hm : 0 <= 10 < 2 ^ 53) by (split; [lia | reflexivity]).
  split; [exact Hm|].
  apply (proj1 (truncate_for_llm_keeps_a_bounded_prefix (u8 "abc") (u8 "...") 10 Hm)).
  vm_compute. discriminate.
Defined.

End LlmMore.

(* ================================================================== *)
(** ** Further properties of the search-result formatter                *)
(* ================================================================== *)

Section FormatterMore.

Local Open Scope Z_scope.

Context {R : Runtime}.

(** *** The order of the results of a law search *)

Lemma str_ltb_asym (a b : pystr) : str_ltb a b = true -> str_ltb b a = false.
Proof.
  revert b; induction a as [|x a IH]; intros [|y b]; cbn; try discriminate; auto.
  intros E. apply orb_true_iff in E as [E | E].
  - apply Z.ltb_lt in E. apply orb_false_iff. split.
    + apply Z.ltb_ge. lia.
    + apply andb_false_iff. left. apply Z.eqb_neq. lia.
  - apply andb_true_iff in E as [E1 E2]. apply Z.eqb_eq in E1. subst y.
    rewrite Z.ltb_irrefl, Z.eqb_refl. cbn. now apply IH.
Qed.

Lemma key_ltb_asym (a b : Z * pystr) : key_ltb a b = true -> key_ltb b a = false.
Proof.
  unfold key_ltb. intros E. apply orb_true_iff in E as [E | E].
  - apply Z.ltb_lt in E. apply orb_false_iff. split.
    + apply Z.ltb_ge. lia.
    + apply andb_false_iff. left. apply Z.eqb_neq. lia.
  - apply andb_true_iff in E as [E1 E2]. apply Z.eqb_eq in E1.
    rewrite E1, Z.ltb_irrefl, Z.eqb_refl. cbn. now apply str_ltb_asym.
Qed.

Lemma key_ltb_rank (a b : Z * pystr) : key_ltb b a = false -> fst a <= fst b.
Proof.
  unfold key_ltb. intros E. apply orb_false_iff in E as [E _].
  apply Z.ltb_ge in E. exact E.
Qed.

Lemma insert_sorted_perm {A : Type} (x : (Z * pystr) * A) (l : list ((Z * pystr) * A)) :
  Permutation (x :: l) (insert_sorted x l).
Proof.
  induction l as [|y l IH]; cbn; [reflexivity|].
  destruct (key_ltb (fst y) (fst x)); [|reflexivity].
  rewrite perm_swap. now constructor.
Qed.

Lemma insert_sorted_sorted {A : Type} (x : (Z * pystr) * A)
    (l : list ((Z * pystr) * A)) :
  Sorted in_order l -> Sorted in_order (insert_sorted x l).
Proof.
  induction l as [|y l IH]; intros S; cbn.
  - repeat constructor.
  - destruct (key_ltb (fst y) (fst x)) eqn:E.
    + inversion S as [|? ? S' Hd]; subst. constructor; [now apply IH|].
      destruct l as [|z l]; cbn.
      * constructor. unfold in_order. now apply key_ltb_asym.
      * destruct (key_ltb (fst z) (fst x)).
        -- inversion Hd; subst. now constructor.
        -- constructor. unfold in_order. now apply key_ltb_asym.
    + constructor; [exact S|]. constructor. exact E.
Qed.

Lemma fold_insert_sorted {A : Type} (l : list ((Z * pystr) * A)) :
  Permutation l (fold_right insert_sorted [] l)
  /\ Sorted in_order (fold_right insert_sorted [] l).
Proof.
  induction l as [|x l [IHp IHs]]; cbn; [split; constructor|]. split.
  - rewrite <- insert_sorted_perm. now constructor.
  - now apply insert_sorted_sorted.
Qed.

Lemma map_outcome_keyed (f : pyval -> outcome (Z * pystr)) (l : list pyval)
    (keyed : list ((Z * pystr) * pyval)) :
  map_outcome (fun item => k <- f item ;; Ok (k, item)) l = Ok keyed ->
  map snd keyed = l /\ Forall (fun ki => f (snd ki) = Ok (fst ki)) keyed.
Proof.
  revert keyed. induction l as [|x l IH]; intros keyed E; cbn in E.
  - inversion E; subst. split; constructor.
  - destruct (f x) as [k|e] eqn:Fx; cbn in E; [|discriminate].
    destruct (map_outcome _ l) as [ys|e]; cbn in E; [|discriminate].
    inversion E; subst. destruct (IH ys eq_refl) as [IH1 IH2].
    split; [cbn; now f_equal | constructor; assumption].
Qed.

Lemma map_outcome_of_keyed (f : pyval -> outcome (Z * pystr))
    (keyed : list ((Z * pystr) * pyval)) :
  Forall (fun ki => f (snd ki) = Ok (fst ki)) keyed ->
  map_outcome f (map snd keyed) = Ok (map fst keyed).
Proof.
  induction 1 as [|ki keyed Hk _ IH]; [reflexivity|].
  cbn. rewrite Hk. cbn. rewrite IH. reflexivity.
Qed.

Lemma sorted_ranks {A : Type} (l : list ((Z * pystr) * A)) :
  Sorted in_order l -> StronglySorted Z.le (map (fun ki => fst (fst ki)) l).
Proof.
  intros S. apply Sorted_StronglySorted; [intros a b c; apply Z.le_trans|].
  induction S as [|x l S IH Hd]; cbn; constructor; [exact IH|].
  destruct Hd as [|y l Hxy]; cbn; constructor.
  now apply key_ltb_rank.
Qed.

(** X13.  When the sort of a law search succeeds, its result holds the
    same results, rearranged, and in it the ranks never decrease: exact
    matches of the query (rank 0) come first, then titles that start with
    the query (1), titles that contain it (2), and the others (3).  For
    the other targets the results are left as they are. *)
Theorem law_search_sort_orders_by_rank :
  forall (target search_query : pystr) (target_data sorted : list pyval),
    sort_for_law_search target search_query target_data = Ok sorted ->
    Permutation target_data sorted
    /\ (target_in target ["law"; "elaw"; "eflaw"]%string = false ->
        sorted = target_data)
    /\ (target_in target ["law"; "elaw"; "eflaw"]%string = true ->
        exists keys,
          map_outcome (sort_key (str_lower (remove_spaces search_query))) sorted
          = Ok keys
          /\ StronglySorted Z.le (map fst keys)).
Proof.
  intros target search_query target_data sorted E.
  unfold sort_for_law_search in E.
  destruct (target_in target ["law"; "elaw"; "eflaw"]%string).
  - destruct (map_outcome _ target_data) as [keyed|e] eqn:K; cbn in E;
      [|discriminate].
    inversion E; subst. clear E.
    apply map_outcome_keyed in K as [K1 K2].
    destruct (fold_insert_sorted keyed) as [P S].
    unfold sorted_by_key. split; [|split; [discriminate|]].
    + rewrite <- K1. now apply Permutation_map.
    + intros _. exists (map fst (fold_right insert_sorted [] keyed)). split.
      * apply map_outcome_of_keyed.
        eapply Permutation_Forall; eassumption.
      * rewrite map_map. now apply sorted_ranks.
  - inversion E; subst. split; [reflexivity|].
    split; [reflexivity | discriminate].
Qed.

(** *** Edge cases of the formatter *)

Ltac decide_targets :=
  repeat match goal with
         | |- context [target_is ?t ?n] =>
             let b := eval vm_compute in (target_is t n) in
             change (target_is t n) with b
         | |- context [target_in ?t ?l] =>
             let b := eval vm_compute in (target_in t l) in
             change (target_in t l) with b
         end.

Lemma target_in_In (target : pystr) (names : list string) :
  target_in target names = true -> In target (map u8 names).
Proof.
  unfold target_in, str_in. intros E. apply existsb_exists in E.
  destruct E as [x [HIn E]]. apply pystr_eqb_eq in E. now subst.
Qed.

Lemma select_committee (history : pydict -> pystr -> pystr) (data : pydict)
    (target search_query : pystr) :
  target_in target committee_targets || target_is target "detc" = true ->
  data_has data "LawSearch" = true ->
  select_target_data history data target search_query
  = (v <- py_get (dict_get_default (u8 "LawSearch") PNone data) target (PList []) ;;
     match v with
     | PStr _ => Ok (inl (PList []))
     | _ => Ok (inl v)
     end).
Proof.
  intros T LS.
  assert (Cases : In target (map u8 (committee_targets ++ ["detc"%string]))).
  { rewrite map_app. apply in_or_app.
    apply orb_true_iff in T as [T | T].
    - left. now apply target_in_In.
    - right. left. unfold target_is in T. apply pystr_eqb_eq in T. now subst. }
  unfold committee_targets in Cases. cbn [app map In] in Cases.
  repeat (destruct Cases as [<- | Cases];
          [ unfold select_target_data; decide_targets;
            cbn [andb orb negb]; rewrite LS; reflexivity |]).
  contradiction.
Qed.

(** X14.  A committee or constitutional-court search whose result
    position under [LawSearch] holds a string is shown as a parsing
    failure: the string is dropped, and because [LawSearch] is present the
    text says "검색 결과 파싱 실패", with the count and the keys of that
    envelope.  The count is shown as the response has it, so it must be a
    value that [str] accepts: no [int] of more than 4300 digits. *)
Theorem committee_string_payload_is_reported_as_failure :
  forall (net : upstream) (data law_search : pydict)
         (target search_query message : pystr) (max_results : Z),
    target_in target committee_targets || target_is target "detc" = true ->
    dict_get (u8 "LawSearch") data = Some (PDict law_search) ->
    dict_get target law_search = Some (PStr message) ->
    printable (dict_get_default (u8 "totalCnt") (PInt 0) law_search) = true ->
    _format_search_results net data target search_query max_results
    = cat [ u8 "'"; search_query; u8 "'에 대한 검색 결과 파싱 실패."; NL; NL;
            u8 "**디버깅 정보:**"; NL;
            u8 "- 총 ";
            py_str (dict_get_default (u8 "totalCnt") (PInt 0) law_search);
            u8 "건 검색됨"; NL;
            u8 "- 사용 가능한 키: ";
            py_str (PList (map PStr (dict_keys law_search))); NL;
            u8 "- 타겟: "; target; NL; NL;
            u8 "**해결방법:** _format_search_results 함수의 타겟 처리 로직을 확인하세요." ].
Proof.
  intros net data law_search target search_query message max_results T LS P Pr.
  assert (Has : data_has data "LawSearch" = true).
  { unfold data_has, dict_mem. now rewrite LS. }
  unfold _format_search_results, format_search_results_body.
  rewrite (select_committee _ data target search_query T Has).
  unfold dict_get_default at 1. rewrite LS.
  unfold py_get, dict_get_default at 1. rewrite P.
  cbn [bind as_list].
  unfold no_results. unfold data_has, dict_mem in Has.
  unfold dict_mem. rewrite LS.
  unfold dict_get_default at 1. rewrite LS. rewrite Pr. reflexivity.
Qed.

(** X16.  A related-law search answered with a message under ["Law"], and
    with neither [lsRltSearch] nor [LawSearch], is shown as a search
    without results. *)
Theorem related_law_message_means_no_results :
  forall (net : upstream) (data : pydict) (search_query : pystr) (max_results : Z),
    data_has data "lsRltSearch" = false ->
    data_has data "Law" = true ->
    data_has data "LawSearch" = false ->
    _format_search_results net data (u8 "lsRlt") search_query max_results
    = cat [ u8 "'"; search_query; u8 "'에 대한 검색 결과가 없습니다." ].
Proof.
  intros net data search_query max_results NoRlt Law NoLS.
  unfold _format_search_results, format_search_results_body, select_target_data.
  decide_targets. cbn [andb orb negb]. rewrite NoRlt, Law.
  cbn [andb bind as_list]. unfold no_results.
  unfold data_has in NoLS. now rewrite NoLS.
Qed.

(** *** The three-way comparison with serial numbers *)

Lemma for_each_ext_Forall {A S : Type} (f g : S -> A -> outcome S)
    (P : A -> Prop) (l : list A) :
  (forall s x, P x -> f s x = g s x) ->
  Forall P l -> forall s, for_each f l s = for_each g l s.
Proof.
  intros E F. induction F as [|x l Hx _ IH]; intros s; [reflexivity|].
  cbn. rewrite (E s x Hx). destruct (g s x); cbn; auto.
Qed.

Lemma present_serial (item : pyval) :
  has_serial_number item = true ->
  exists v, present item (u8 "법령일련번호") = Ok (Some v)
            /\ strip (py_str v) <> [].
Proof.
  unfold has_serial_number, present. destruct item as [| | | | | |d]; try discriminate.
  cbn [py_in py_item bind]. unfold dict_mem.
  destruct (dict_get (u8 "법령일련번호") d) as [v|]; [|discriminate].
  intros E. apply andb_true_iff in E as [E1 E2].
  exists v. cbn [bind]. rewrite E1. split; [reflexivity|].
  destruct (strip (py_str v)); [discriminate | discriminate].
Qed.

Lemma three_way_hint_with_serial (net1 net2 : upstream) (item law_id : pyval) :
  has_serial_number item = true ->
  three_way_hint net1 item law_id = three_way_hint net2 item law_id.
Proof.
  intros Hs. destruct (present_serial item Hs) as [v [P Ne]].
  unfold three_way_hint.
  assert (M : exists c m, three_way_mst item three_way_mst_keys [] = Ok (c :: m)).
  { change three_way_mst_keys
      with (u8 "법령일련번호" :: tl three_way_mst_keys).
    cbn [three_way_mst]. rewrite P. cbn [bind].
    destruct (strip (py_str v)) as [|c m]; [congruence|]. now exists c, m. }
  destruct M as [c [m ->]]. reflexivity.
Qed.

Lemma format_item_with_serial (net1 net2 : upstream) state (item : pyval) :
  has_serial_number item = true ->
  format_item net1 (u8 "thdCmp") state item
  = format_item net2 (u8 "thdCmp") state item.
Proof.
  intros Hs. destruct state as [[result title] i]. unfold format_item.
  apply bind_ext. intros t. apply bind_ext. intros [line t'].
  apply bind_ext. intros result'.
  assert (E : next_call_hint net1 (u8 "thdCmp") item
              = next_call_hint net2 (u8 "thdCmp") item).
  { unfold next_call_hint. apply bind_ext. intros mst. apply bind_ext.
    intros law_id. decide_targets. cbv iota.
    apply three_way_hint_with_serial. exact Hs. }
  now rewrite E.
Qed.

Lemma In_firstn_local {A : Type} (x : A) (n : nat) (l : list A) :
  In x (firstn n l) -> In x l.
Proof.
  revert n. induction l as [|y l IH]; intros [|n]; cbn; try tauto.
  intros [E | HIn]; [now left | right; eauto].
Qed.

(** X15.  For the target ["thdCmp"], when every result carries a serial
    number that is not blank, the formatter never needs the upstream: its
    text is the same whatever the upstream answers. *)
Theorem three_way_results_with_serial_ignore_upstream :
  forall (net1 net2 : upstream) (data : pydict) (search_query : pystr)
         (max_results : Z),
    (forall target_data,
        select_target_data _format_law_service_history data (u8 "thdCmp")
          search_query = Ok (inl target_data) ->
        forallb has_serial_number (as_list target_data) = true) ->
    _format_search_results net1 data (u8 "thdCmp") search_query max_results
    = _format_search_results net2 data (u8 "thdCmp") search_query max_results.
Proof.
  intros net1 net2 data search_query max_results Hall.
  unfold _format_search_results.
  assert (E : format_search_results_body _format_law_service_history net1 data
                (u8 "thdCmp") search_query max_results
              = format_search_results_body _format_law_service_history net2 data
                  (u8 "thdCmp") search_query max_results).
  { unfold format_search_results_body.
    destruct (select_target_data _ data (u8 "thdCmp") search_query)
      as [[target_data|text]|e] eqn:Sel; cbn [bind];
      [ | reflexivity | reflexivity ].
    specialize (Hall target_data eq_refl).
    destruct (as_list target_data) as [|x l] eqn:L; [reflexivity|].
    unfold sort_for_law_search. decide_targets. cbn [bind].
    rewrite (for_each_ext_Forall
               (format_item net1 (u8 "thdCmp")) (format_item net2 (u8 "thdCmp"))
               (fun item => has_serial_number item = true)).
    - reflexivity.
    - intros s item Hs. now apply format_item_with_serial.
    - pose proof (proj1 (forallb_forall _ _) Hall) as Hall'.
      apply Forall_forall.
      intros item HIn. apply Hall'.
      unfold slice_to in HIn.
      destruct (max_results <? 0); eapply In_firstn_local; eassumption. }
  now rewrite E.
Qed.

(** X17.  [_format_law_service_history] converts [totalCnt] with [int]
    before it looks at the history: when that conversion raises, the
    answer is the error text, whatever the history holds, although the
    count shown for a history is the number of its entries. *)
Theorem history_fails_on_bad_total_count :
  forall (data service : pydict) (search_query : pystr),
    dict_get (u8 "LawService") data = Some (PDict service) ->
    py_int (dict_get_default (u8 "totalCnt") (PInt 0) service) = None ->
    _format_law_service_history data search_query
    = cat [ u8 "'"; search_query;
            u8 "' 조문 변경이력 포맷팅 중 오류가 발생했습니다: ";
            exn_message
              (IntFailed (dict_get_default (u8 "totalCnt") (PInt 0) service)) ].
Proof.
  intros data service search_query LS Bad.
  unfold _format_law_service_history, format_law_service_history_body.
  rewrite LS. cbn [py_get bind]. rewrite Bad. reflexivity.
Qed.

End FormatterMore.

Lemma law_search_sort_orders_by_rank_witness :
  sort_for_law_search (R := basic_runtime) (u8 "law") (u8 "민법")
    [ PDict [(u8 "법령명한글", PStr (u8 "민법 시행령"))];
      PDict [(u8 "법령명한글", PStr (u8 "민법"))] ]
  = Ok [ PDict [(u8 "법령명한글", PStr (u8 "민법"))];
         PDict [(u8 "법령명한글", PStr (u8 "민법 시행령"))] ]
  /\ Permutation
       [ PDict [(u8 "법령명한글", PStr (u8 "민법 시행령"))];
         PDict [(u8 "법령명한글", PStr (u8 "민법"))] ]
       [ PDict [(u8 "법령명한글", PStr (u8 "민법"))];
         PDict [(u8 "법령명한글", PStr (u8 "민법 시행령"))] ].
Proof.
  assert (E : sort_for_law_search (R := basic_runtime) (u8 "law") (u8 "민법")
                [ PDict [(u8 "법령명한글", PStr (u8 "민법 시행령"))];
                  PDict [(u8 "법령명한글", PStr (u8 "민법"))] ]
              = Ok [ PDict [(u8 "법령명한글", PStr (u8 "민법"))];
                     PDict [(u8 "법령명한글", PStr (u8 "민법 시행령"))] ])
    by (vm_compute; reflexivity).
  split; [exact E|].
  exact (proj1 (law_search_sort_orders_by_rank (R := basic_runtime) _ _ _ _ E)).
Defined.

Lemma committee_string_payload_is_reported_as_failure_witness :
  target_in (u8 "ppc") committee_targets || target_is (u8 "ppc") "detc" = true
  /\ dict_get (u8 "LawSearch") committee_string_response
     = Some (PDict [ (u8 "totalCnt", PStr (u8 "0"));
                     (u8 "ppc", PStr (u8 "검색 결과가 없습니다")) ])
  /\ printable (PStr (u8 "0")) = true
  /\ _format_search_results (R := basic_runtime) upstream_failing
       committee_string_response (u8 "ppc") (u8 "개인정보") 50
     = cat [ u8 "'개인정보'에 대한 검색 결과 파싱 실패."; NL; NL;
             u8 "**디버깅 정보:**"; NL;
             u8 "- 총 0건 검색됨"; NL;
             u8 "- 사용 가능한 키: ['totalCnt', 'ppc']"; NL;
             u8 "- 타겟: ppc"; NL; NL;
             u8 "**해결방법:** _format_search_results 함수의 타겟 처리 로직을 확인하세요." ].
Proof.
  assert (T : target_in (u8 "ppc") committee_targets
              || target_is (u8 "ppc") "detc" = true) by reflexivity.
  assert (LS : dict_get (u8 "LawSearch") committee_string_response
               = Some (PDict [ (u8 "totalCnt", PStr (u8 "0"));
                               (u8 "ppc", PStr (u8 "검색 결과가 없습니다")) ]))
    by reflexivity.
  split; [exact T|]. split; [exact LS|]. split; [reflexivity|].
  rewrite (committee_string_payload_is_reported_as_failure (R := basic_runtime)
             upstream_failing committee_string_response _ (u8 "ppc")
             (u8 "개인정보") (u8 "검색 결과가 없습니다") 50 T LS eq_refl eq_refl).
  vm_compute. reflexivity.
Defined.

Lemma related_law_message_means_no_results_witness :
  data_has related_law_message "lsRltSearch" = false
  /\ data_has related_law_message "Law" = true
  /\ data_has related_law_message "LawSearch" = false
  /\ _format_search_results (R := basic_runtime) upstream_failing
       related_law_message (u8 "lsRlt") (u8 "민법") 50
     = cat [ u8 "'"; u8 "민법"; u8 "'에 대한 검색 결과가 없습니다." ].
Proof.
  split; [reflexivity|]. split; [reflexivity|]. split; [reflexivity|].
  exact (related_law_message_means_no_results (R := basic_runtime)
           upstream_failing related_law_message (u8 "민법") 50
           eq_refl eq_refl eq_refl).
Defined.

Lemma three_way_results_with_serial_ignore_upstream_witness :
  (forall target_data,
      select_target_data (_format_law_service_history (R := basic_runtime))
        three_way_response_with_serial (u8 "thdCmp") (u8 "민법")
      = Ok (inl target_data) ->
      forallb (has_serial_number (R := basic_runtime)) (as_list target_data) = true)
  /\ _format_search_results (R := basic_runtime) upstream_answering
       three_way_response_with_serial (u8 "thdCmp") (u8 "민법") 50
     = _format_search_results (R := basic_runtime) upstream_failing
         three_way_response_with_serial (u8 "thdCmp") (u8 "민법") 50.
Proof.
  assert (Hall : forall target_data,
             select_target_data
               (_format_law_service_history (R := basic_runtime))
               three_way_response_with_serial (u8 "thdCmp") (u8 "민법")
             = Ok (inl target_data) ->
             forallb (has_serial_number (R := basic_runtime))
               (as_list target_data) = true).
  { intros target_data E. vm_compute in E. inversion E; subst.
    vm_compute. reflexivity. }
  split; [exact Hall|].
  exact (three_way_results_with_serial_ignore_upstream (R := basic_runtime)
           upstream_answering upstream_failing three_way_response_with_serial
           (u8 "민법") 50 Hall).
Defined.

Lemma history_fails_on_bad_total_count_witness :
  dict_get (u8 "LawService") history_with_bad_total
  = Some (PDict [ (u8 "totalCnt", PStr (u8 "many"));
                  (u8 "law", PList [PDict [(u8 "조문정보", PDict [])]]) ])
  /\ py_int (Runtime := basic_runtime) (PStr (u8 "many")) = None
  /\ _format_law_service_history (R := basic_runtime) history_with_bad_total
       (u8 "민법")
     = cat [ u8 "'민법' 조문 변경이력 포맷팅 중 오류가 발생했습니다: ";
             u8 "invalid literal for int() with base 10: 'many'" ].
Proof.
  split; [reflexivity|]. split; [reflexivity|].
  rewrite (history_fails_on_bad_total_count (R := basic_runtime)
             history_with_bad_total _ (u8 "민법") eq_refl eq_refl).
  vm_compute. reflexivity.
Defined.
